(** * Todo synchronisation core: localStorage mirror and the useTodos hook

    A shallow embedding of
      - frontend/src/services/localStorage.js  (module [Storage]),
      - frontend/src/services/api.js           (module [Api]),
      - backend controllers createTodo / updateTodo (module [Controller]),
      - frontend/src/hooks/useTodos.js         (module [Hook]),
      - backend/models/Todo.js                 (module [Todo]),
      - the other handlers of backend/controllers/todoController.js
                                               (module [TodoController]),
      - the submit handler of TodoInput and the sections of TodoList
                                               (modules [TodoInput], [TodoList]),
    over a small model of the JavaScript values these files handle
    (module [JS]).

    Conventions of the model.
      - A JavaScript string is a Rocq [string]; each character stands for
        one UTF-16 code unit below 256, so [String.length] is [.length].
      - A JavaScript number is an integer [Z] (lengths, counters, JSON
        integers); the page numbers that [parseInt] reads from a query
        are doubles, [num], and their arithmetic rounds.
      - An object is a finite map from property names to values.
      - A localStorage entry is kept as the JSON value its text parses to,
        or as [Garbled] text that [JSON.parse] rejects.
      - Thrown exceptions are explicit: code that may throw returns a
        [result]; code that also touches state runs in the state and
        exception monad [M].
      - What the environment decides during one operation (the outcome of
        the awaited HTTP call, the clock, the random id suffix, whether
        the browser takes a write to localStorage) is passed in as an
        [env]. *)

From stdpp Require Import gmap strings list fin_maps pretty.
From Stdlib Require Import ZArith Ascii String Lia.

Open Scope Z_scope.
Open Scope string_scope.

(* ===================================================================== *)
(** ** JavaScript values, exceptions and the few operators the code uses *)
(* ===================================================================== *)

Module JS.

#[warnings="-register-all"]
Inductive value :=
| VUndefined
| VNull
| VBool (b : bool)
| VNum (n : Z)
| VStr (s : string)
| VArr (l : list value)
| VObj (o : gmap string value).

Inductive exn :=
| Error (message : string)
| TypeError (message : string)
| SyntaxError (message : string)
| ValidationError (messages : list string).   (* mongoose: error.name *)

Inductive result (A : Type) :=
| Ok (a : A)
| Throw (e : exn).
Arguments Ok {A} a.
Arguments Throw {A} e.

Definition rbind {A B} (r : result A) (k : A -> result B) : result B :=
  match r with
  | Ok a => k a
  | Throw e => Throw e
  end.

Definition is_ok {A} (r : result A) : bool :=
  match r with Ok _ => true | Throw _ => false end.

(** State and exception monad: a throw keeps the writes made before it. *)
Definition M (S A : Type) : Type := S -> result A * S.

Definition ret {S A} (a : A) : M S A := fun s => (Ok a, s).
Definition throw {S A} (e : exn) : M S A := fun s => (Throw e, s).
Definition bind {S A B} (m : M S A) (k : A -> M S B) : M S B :=
  fun s => match m s with
           | (Ok a, s') => k a s'
           | (Throw e, s') => (Throw e, s')
           end.
Definition liftR {S A} (r : result A) : M S A := fun s => (r, s).
Definition gets {S A} (f : S -> A) : M S A := fun s => (Ok (f s), s).
Definition modify {S} (f : S -> S) : M S unit := fun s => (Ok tt, f s).

(** [try { m } catch (e) { h e }] *)
Definition try_catch {S A} (m : M S A) (h : exn -> M S A) : M S A :=
  fun s => match m s with
           | (Ok a, s') => (Ok a, s')
           | (Throw e, s') => h e s'
           end.

(** [try { m } finally { f }] *)
Definition try_finally {S A} (m : M S A) (f : M S unit) : M S A :=
  fun s => match m s with
           | (r, s') => match f s' with
                        | (Ok _, s'') => (r, s'')
                        | (Throw e, s'') => (Throw e, s'')
                        end
           end.

Declare Scope js_scope.
Delimit Scope js_scope with js.
Notation "x <- m ;; k" := (bind m (fun x => k))
  (at level 100, m at next level, right associativity) : js_scope.
Notation "m ;; k" := (bind m (fun _ => k))
  (at level 100, right associativity) : js_scope.
Notation "'let?' x := r 'in' k" := (rbind r (fun x => k))
  (at level 100, x name, r at next level, right associativity).

(** ToBoolean *)
Definition truthy (v : value) : bool :=
  match v with
  | VUndefined | VNull => false
  | VBool b => b
  | VNum n => negb (Z.eqb n 0)
  | VStr s => negb (String.eqb s "")
  | VArr _ | VObj _ => true
  end.

Definition is_nullish (v : value) : bool :=
  match v with
  | VUndefined | VNull => true
  | _ => false
  end.

(** [a || b] and [!a] *)
Definition or_else (a b : value) : value := if truthy a then a else b.
Definition not (a : value) : value := VBool (negb (truthy a)).

(** [v === s] and [v !== s] for a string [s] *)
Definition strict_eq_str (v : value) (s : string) : bool :=
  match v with
  | VStr s' => String.eqb s' s
  | _ => false
  end.
Definition strict_neq_str (v : value) (s : string) : bool :=
  negb (strict_eq_str v s).

(** ToString, as a template literal applies it *)
Fixpoint to_string (v : value) : string :=
  match v with
  | VUndefined => "undefined"
  | VNull => "null"
  | VBool b => if b then "true" else "false"
  | VNum n => pretty n
  | VStr s => s
  | VArr l =>
      String.concat ","
        (map (fun x => match x with
                       | VUndefined | VNull => ""
                       | _ => to_string x
                       end) l)
  | VObj _ => "[object Object]"
  end.

(** [v.k], for the property names the sources read ([_id], [id],
    [completed], [createdAt], [data], [pagination]): a TypeError on
    [undefined] and [null], [undefined] on the other primitives and on
    arrays, the own property on an object. *)
Definition get_prop (v : value) (k : string) : result value :=
  match v with
  | VUndefined | VNull =>
      Throw (TypeError ("Cannot read properties of undefined or null: " ++ k))
  | VObj o => Ok (default VUndefined (o !! k))
  | _ => Ok VUndefined
  end.

(** [v.k = x] in strict mode (ES modules): only objects take it. *)
Definition set_prop (v : value) (k : string) (x : value) : result value :=
  match v with
  | VObj o => Ok (VObj (<[k := x]> o))
  | _ => Throw (TypeError ("Cannot set property: " ++ k))
  end.

(** An object literal [{ k1: v1, ..., kn: vn }] with distinct keys. *)
Definition obj (fields : list (string * value)) : value :=
  VObj (list_to_map fields).

Definition index_props (l : list value) : gmap string value :=
  list_to_map (imap (fun i x => (pretty i, x)) l).

Fixpoint code_units (s : string) : list value :=
  match s with
  | EmptyString => []
  | String a s' => VStr (String a EmptyString) :: code_units s'
  end.

(** The own enumerable properties copied by [{...v}]. *)
Definition spread (v : value) : gmap string value :=
  match v with
  | VObj o => o
  | VArr l => index_props l
  | VStr s => index_props (code_units s)
  | _ => ∅
  end.

(** The receiver of [.map], [.filter], [.find], [.findIndex], [.push]:
    only an array has these methods; on anything else the call is a
    TypeError. *)
Definition as_array (v : value) : result (list value) :=
  match v with
  | VArr l => Ok l
  | _ => Throw (TypeError "not a function")
  end.

Fixpoint mapM {A} (f : value -> result A) (l : list value) : result (list A) :=
  match l with
  | [] => Ok []
  | x :: l' =>
      let? y := f x in
      let? ys := mapM f l' in
      Ok (y :: ys)
  end.

Fixpoint filterM (p : value -> result bool) (l : list value)
  : result (list value) :=
  match l with
  | [] => Ok []
  | x :: l' =>
      let? b := p x in
      let? ys := filterM p l' in
      Ok (if b then x :: ys else ys)
  end.

(** [Array.prototype.find]: the first element accepted, else [undefined]. *)
Fixpoint findM (p : value -> result bool) (l : list value) : result value :=
  match l with
  | [] => Ok VUndefined
  | x :: l' =>
      let? b := p x in
      if b then Ok x else findM p l'
  end.

(** [Array.prototype.findIndex]; [None] is the sentinel -1. *)
Fixpoint findIndexM (p : value -> result bool) (l : list value)
  : result (option nat) :=
  match l with
  | [] => Ok None
  | x :: l' =>
      let? b := p x in
      if b then Ok (Some 0%nat)
      else let? r := findIndexM p l' in Ok (S <$> r)
  end.

(** [String.prototype.trim] on code units below 256: TAB, LF, VT, FF, CR,
    SPACE and NBSP are the white space and line terminators there. *)
Definition is_white_space (a : ascii) : bool :=
  let n := nat_of_ascii a in
  Nat.eqb n 9 || Nat.eqb n 10 || Nat.eqb n 11 || Nat.eqb n 12
  || Nat.eqb n 13 || Nat.eqb n 32 || Nat.eqb n 160.

Fixpoint trimStart (s : string) : string :=
  match s with
  | EmptyString => EmptyString
  | String a s' => if is_white_space a then trimStart s' else s
  end.

Definition trimEnd (s : string) : string :=
  String.rev (trimStart (String.rev s)).

Definition trim (s : string) : string := trimEnd (trimStart s).

(** What [JSON.parse (JSON.stringify v)] gives back: properties holding
    [undefined] are dropped, [undefined] array slots become [null]. *)
Fixpoint jsonify (v : value) : value :=
  match v with
  | VArr l =>
      VArr (map (fun x => match x with
                          | VUndefined => VNull
                          | _ => jsonify x
                          end) l)
  | VObj o =>
      VObj (omap (fun x => match x with
                           | VUndefined => None
                           | _ => Some (jsonify x)
                           end) o)
  | _ => v
  end.

(** The numbers of the pagination code: a double that is an integer
    (written as that integer, [Fin 0] being +0), negative zero, an
    infinity, or NaN. *)
Inductive num :=
| Fin (z : Z)
| NegZero
| PInf
| NInf
| NaN.

(** The double nearest to the integer [z], ties to even: [z] itself up to
    2^53 in magnitude, an infinity from 2^1024 - 2^970 on. *)
Definition round (z : Z) : num :=
  let a := Z.abs z in
  let e := Z.log2 a - 52 in
  if Z.leb e 0 then Fin z
  else
    let ulp := 2 ^ e in
    let q := a / ulp in
    let r := a mod ulp in
    let half := ulp / 2 in
    let q := if Z.ltb half r || (Z.eqb r half && Z.odd q) then q + 1 else q in
    let m := q * ulp in
    if Z.leb (2 ^ 1024) m then (if Z.ltb z 0 then NInf else PInf)
    else Fin (Z.sgn z * m).

(** The sign bit, and the value of a finite number. *)
Definition negative (x : num) : bool :=
  match x with
  | Fin z => Z.ltb z 0
  | NegZero | NInf => true
  | PInf | NaN => false
  end.

Definition finite (x : num) : option Z :=
  match x with
  | Fin z => Some z
  | NegZero => Some 0
  | PInf | NInf | NaN => None
  end.

Definition signed_zero (neg : bool) : num := if neg then NegZero else Fin 0.
Definition signed_inf (neg : bool) : num := if neg then NInf else PInf.

(** [x - y] *)
Definition num_sub (x y : num) : num :=
  match x, y with
  | NaN, _ | _, NaN => NaN
  | PInf, PInf | NInf, NInf => NaN
  | PInf, _ => PInf
  | NInf, _ => NInf
  | _, PInf => NInf
  | _, NInf => PInf
  | NegZero, Fin 0 => NegZero
  | _, _ => round (default 0 (finite x) - default 0 (finite y))
  end.

(** [x * y] *)
Definition num_mul (x y : num) : num :=
  match x, y with
  | NaN, _ | _, NaN => NaN
  | _, _ =>
      let neg := xorb (negative x) (negative y) in
      match finite x, finite y with
      | Some a, Some b =>
          if Z.eqb (a * b) 0 then signed_zero neg else round (a * b)
      | Some a, None | None, Some a =>
          if Z.eqb a 0 then NaN else signed_inf neg
      | None, None => signed_inf neg
      end
  end.

(** [x < y]; every comparison with NaN is false. *)
Definition num_lt (x y : num) : bool :=
  match x, y with
  | NaN, _ | _, NaN => false
  | PInf, _ => false
  | _, PInf => true
  | _, NInf => false
  | NInf, _ => true
  | _, _ => Z.ltb (default 0 (finite x)) (default 0 (finite y))
  end.

End JS.

Import JS.
Open Scope js_scope.

(* ===================================================================== *)
(** ** services/localStorage.js *)
(* ===================================================================== *)

Module Storage.

Definition STORAGE_KEY : string := "todoapp_todos".
Definition STATS_KEY : string := "todoapp_stats".

(** One stored string, seen through [JSON.parse]. *)
Inductive cell :=
| Garbled (text : string)   (* text that JSON.parse rejects *)
| Json (v : value).         (* text that parses to [v] *)

(** [window.localStorage] *)
Abbreviation storage := (gmap string cell).

(** What the JavaScript runtime gives during one call: the clock, the
    random generator, and whether localStorage takes a write. *)
Record runtime := mkRuntime {
  date_now : Z;            (* Date.now() *)
  random36 : string;       (* Math.random().toString(36).substr(2, 9) *)
  iso_created : string;    (* new Date().toISOString(), read for createdAt *)
  iso_now : string;        (* new Date().toISOString(), read for updatedAt *)
  accepts : storage -> string -> cell -> bool
    (* setItem(k, text) goes through; otherwise the origin's quota is
       exceeded *)
}.

Definition getItem (k : string) : M storage (option cell) :=
  fun ls => (Ok (ls !! k), ls).

(** [localStorage.setItem]: a write the browser refuses throws a
    QuotaExceededError and changes nothing. *)
Definition setItem (r : runtime) (k : string) (c : cell) : M storage unit :=
  fun ls => if accepts r ls k c then (Ok tt, <[k := c]> ls)
            else (Throw (Error "QuotaExceededError"), ls).
Definition removeItem (k : string) : M storage unit :=
  fun ls => (Ok tt, delete k ls).

(** Truthiness of what [getItem] returned: [null] and the empty string
    are falsy. *)
Definition item_truthy (i : option cell) : bool :=
  match i with
  | None => false
  | Some (Garbled "") => false
  | Some _ => true
  end.

Definition JSON_parse (i : option cell) : result value :=
  match i with
  | Some (Json v) => Ok v
  | Some (Garbled t) => Throw (SyntaxError ("Unexpected token in JSON: " ++ t))
  | None => Ok VNull
  end.

(** [JSON.stringify v], as the cell that then holds it. *)
Definition JSON_stringify (v : value) : cell :=
  match v with
  | VUndefined => Garbled "undefined"
  | _ => Json (jsonify v)
  end.

Record Stats := mkStats { total : Z; completed : Z; pending : Z }.

(** The object literal [{ total, completed, pending }]. *)
Definition stats_object (s : Stats) : value :=
  VObj (<["pending" := VNum (pending s)]>
        (<["completed" := VNum (completed s)]>
         (<["total" := VNum (total s)]> ∅))).

Definition zero_stats : Stats := mkStats 0 0 0.

Definition getTodosFromStorage : M storage value :=
  try_catch
    (todos <- getItem STORAGE_KEY ;;
     if item_truthy todos then liftR (JSON_parse todos) else ret (VArr []))
    (fun error => ret (VArr [])).

Definition saveTodosToStorage (c : runtime) (todos : value) : M storage unit :=
  try_catch
    (setItem c STORAGE_KEY (JSON_stringify todos))
    (fun error => ret tt).

Definition getStatsFromStorage : M storage value :=
  try_catch
    (stats <- getItem STATS_KEY ;;
     if item_truthy stats then liftR (JSON_parse stats)
     else ret (stats_object zero_stats))
    (fun error => ret (stats_object zero_stats)).

Definition saveStatsToStorage (c : runtime) (stats : Stats) : M storage unit :=
  try_catch
    (setItem c STATS_KEY (JSON_stringify (stats_object stats)))
    (fun error => ret tt).

(** [todo => todo.completed], as the filter reads it *)
Definition is_completed (todo : value) : result bool :=
  let? c := get_prop todo "completed" in Ok (truthy c).

Definition calculateStats (todos : value) : result Stats :=
  let? l := as_array todos in
  let total := Z.of_nat (List.length l) in
  let? done := filterM is_completed l in
  let completed := Z.of_nat (List.length done) in
  let pending := total - completed in
  Ok (mkStats total completed pending).

Definition local_id (c : runtime) : string :=
  "local_" ++ pretty (date_now c) ++ "_" ++ random36 c.

Definition addTodoToStorage (c : runtime) (todo : value) : M storage value :=
  try_catch
    (todos <- getTodosFromStorage ;;
     tid <- liftR (get_prop todo "id") ;;
     tcreated <- liftR (get_prop todo "createdAt") ;;
     let newTodo :=
       VObj (<["updatedAt" := VStr (iso_now c)]>
             (<["createdAt" := or_else tcreated (VStr (iso_created c))]>
              (<["id" := or_else tid (VStr (local_id c))]> (spread todo)))) in
     l <- liftR (as_array todos) ;;
     let todos := VArr (l ++ [newTodo])%list in
     saveTodosToStorage c todos ;;
     stats <- liftR (calculateStats todos) ;;
     saveStatsToStorage c stats ;;
     ret newTodo)
    (fun error => throw error).

(** [todo => todo.id === id || todo._id === id] *)
Definition matches_id (id : string) (todo : value) : result bool :=
  let? a := get_prop todo "id" in
  if strict_eq_str a id then Ok true
  else let? b := get_prop todo "_id" in Ok (strict_eq_str b id).

(** [todo => todo.id !== id && todo._id !== id] *)
Definition differs_id (id : string) (todo : value) : result bool :=
  let? a := get_prop todo "id" in
  if strict_neq_str a id
  then let? b := get_prop todo "_id" in Ok (strict_neq_str b id)
  else Ok false.

(** The record written at [todos[index]]. *)
Definition patched (c : runtime) (old updateData : value) : result value :=
  let? oid := get_prop old "id" in
  let? o_id := (if truthy oid then Ok oid else get_prop old "_id") in
  Ok (VObj (<["updatedAt" := VStr (iso_now c)]>
            (<["id" := o_id]> (spread updateData ∪ spread old)))).

Definition updateTodoInStorage (c : runtime) (id : string) (updateData : value)
  : M storage value :=
  try_catch
    (todos <- getTodosFromStorage ;;
     l <- liftR (as_array todos) ;;
     index <- liftR (findIndexM (matches_id id) l) ;;
     match index with
     | Some i =>
         new <- liftR (patched c (default VUndefined (l !! i)) updateData) ;;
         let todos := VArr (<[i := new]> l) in
         saveTodosToStorage c todos ;;
         stats <- liftR (calculateStats todos) ;;
         saveStatsToStorage c stats ;;
         ret new
     | None => throw (Error "Todo not found in localStorage")
     end)
    (fun error => throw error).

Definition deleteTodoFromStorage (c : runtime) (id : string) : M storage bool :=
  try_catch
    (todos <- getTodosFromStorage ;;
     l <- liftR (as_array todos) ;;
     filteredTodos <- liftR (filterM (differs_id id) l) ;;
     if negb (Nat.eqb (List.length filteredTodos) (List.length l)) then
       saveTodosToStorage c (VArr filteredTodos) ;;
       stats <- liftR (calculateStats (VArr filteredTodos)) ;;
       saveStatsToStorage c stats ;;
       ret true
     else throw (Error "Todo not found in localStorage"))
    (fun error => throw error).

Definition clearTodosFromStorage : M storage unit :=
  try_catch
    (removeItem STORAGE_KEY ;; removeItem STATS_KEY)
    (fun error => ret tt).

Definition syncTodosWithStorage (c : runtime) (todos : value) : M storage unit :=
  try_catch
    (saveTodosToStorage c todos ;;
     stats <- liftR (calculateStats todos) ;;
     saveStatsToStorage c stats)
    (fun error => ret tt).

End Storage.

(* ===================================================================== *)
(** ** Backend controllers: createTodo and updateTodo *)
(* ===================================================================== *)

Module Controller.

(** [res.status(status).json(body)] *)
Record response := mkResponse { status : Z; body : value }.

Definition failure (status : Z) (message : string) : response :=
  mkResponse status (obj [("success", VBool false); ("message", VStr message)]).

(** The catch block shared by both controllers. *)
Definition on_error (what : string) (error : exn) : response :=
  match error with
  | ValidationError errors =>
      mkResponse 400 (obj [("success", VBool false);
                           ("message", VStr "Validation error");
                           ("errors", VArr (VStr <$> errors))])
  | Error m | TypeError m | SyntaxError m =>
      mkResponse 500 (obj [("success", VBool false);
                           ("message", VStr ("Internal server error while " ++ what));
                           ("error", VStr m)])
  end.

Definition run (what : string) (r : result response) : response :=
  match r with
  | Ok resp => resp
  | Throw e => on_error what e
  end.

(** [text.trim()] and [text.length]: methods of strings only. *)
Definition js_trim (text : value) : result string :=
  match text with
  | VStr s => Ok (trim s)
  | _ => Throw (TypeError "text.trim is not a function")
  end.

(** [text.length > 500]; a missing [length] compares as false. *)
Definition too_long (text : value) : bool :=
  match text with
  | VStr s => Z.ltb 500 (Z.of_nat (String.length s))
  | VArr l => Z.ltb 500 (Z.of_nat (List.length l))
  | _ => false
  end.

(** [!text || text.trim().length === 0] *)
Definition blank (text : value) : result bool :=
  if negb (truthy text) then Ok true
  else let? t := js_trim text in Ok (Nat.eqb (String.length t) 0).

(** [req_body] is [req.body]; [save] is what [newTodo.save()] resolves or
    rejects with, given the document built from the trimmed text. *)
Definition createTodo (req_body : value) (save : value -> result value)
  : response :=
  run "creating todo"
    (let? text := get_prop req_body "text" in
     let? b := blank text in
     if b then
       Ok (failure 400 "Todo text is required and cannot be empty")
     else if too_long text then
       Ok (failure 400 "Todo text cannot exceed 500 characters")
     else
       let? t := js_trim text in
       let? savedTodo := save (obj [("text", VStr t)]) in
       Ok (mkResponse 201 (obj [("success", VBool true);
                                ("message", VStr "Todo created successfully");
                                ("data", savedTodo)]))).

Definition is_hex_digit (a : ascii) : bool :=
  let n := nat_of_ascii a in
  (Nat.leb 48 n && Nat.leb n 57) || (Nat.leb 97 n && Nat.leb n 102)
  || (Nat.leb 65 n && Nat.leb n 70).

Fixpoint all_hex (s : string) : bool :=
  match s with
  | EmptyString => true
  | String a s' => is_hex_digit a && all_hex s'
  end.

(** [id.match(/^[0-9a-fA-F]{24}$/)] *)
Definition is_object_id (id : string) : bool :=
  Nat.eqb (String.length id) 24 && all_hex id.

(** The [text] part of building [updateData]: the 400 response sent, or
    [updateData] with the trimmed text. *)
Definition checked_text (text : value) (updateData : gmap string value)
  : result (response + gmap string value) :=
  match text with
  | VUndefined => Ok (inr updateData)
  | _ =>
      let? b := blank text in
      if b then Ok (inl (failure 400 "Todo text cannot be empty"))
      else if too_long text then
        Ok (inl (failure 400 "Todo text cannot exceed 500 characters"))
      else let? t := js_trim text in
           Ok (inr (<["text" := VStr t]> updateData))
  end.

(** [id] is [req.params.id]; [findByIdAndUpdate] is the store's answer
    ([null] when no document has that id). *)
Definition updateTodo (id : string) (req_body : value)
  (findByIdAndUpdate : string -> value -> result value) : response :=
  run "updating todo"
    (let? text := get_prop req_body "text" in
     let? completed := get_prop req_body "completed" in
     if negb (is_object_id id) then
       Ok (failure 400 "Invalid todo ID format")
     else
       let? c := checked_text text ∅ in
       match c with
       | inl resp => Ok resp
       | inr updateData =>
           let updateData :=
             match completed with
             | VUndefined => updateData
             | _ => <["completed" := VBool (truthy completed)]> updateData
             end in
           if Nat.eqb (size updateData) 0 then
             Ok (failure 400 "No valid fields provided for update")
           else
             let? updatedTodo := findByIdAndUpdate id (VObj updateData) in
             if negb (truthy updatedTodo) then
               Ok (failure 404 "Todo not found")
             else
               Ok (mkResponse 200
                     (obj [("success", VBool true);
                           ("message", VStr "Todo updated successfully");
                           ("data", updatedTodo)]))
       end).

End Controller.

(* ===================================================================== *)
(** ** services/api.js *)
(* ===================================================================== *)

Module Api.

(** What one HTTP exchange comes to: no answer at all, or a response. *)
Inductive exchange :=
| NoResponse
| Responded (r : Controller.response).

(** [data?.message || 'An error occurred'], as the template prints it *)
Definition message_of (data : value) : string :=
  match get_prop data "message" with
  | Ok m => to_string (or_else m (VStr "An error occurred"))
  | Throw _ => "An error occurred"
  end.

(** axios resolves on a 2xx status; the response interceptor turns every
    other outcome into a thrown [Error]. *)
Definition interceptor (x : exchange) : result value :=
  match x with
  | NoResponse => Throw (Error "Network Error: Unable to connect to server")
  | Responded r =>
      let status := Controller.status r in
      let data := Controller.body r in
      if Z.leb 200 status && Z.ltb status 300 then Ok data
      else
        let message := message_of data in
        if Z.eqb status 400 then Throw (Error ("Bad Request: " ++ message))
        else if Z.eqb status 404 then Throw (Error ("Not Found: " ++ message))
        else if Z.eqb status 500 then Throw (Error ("Server Error: " ++ message))
        else Throw (Error ("Error " ++ pretty status ++ ": " ++ message))
  end.

(** The calls of [todoAPI]; each returns [response.data] or rethrows. *)
Inductive request :=
| getAllTodos
| getTodoById (id : string)
| createTodo (todoData : value)
| updateTodo (id : string) (updateData : value)
| toggleTodoComplete (id : string)
| deleteTodo (id : string)
| getTodoStats
| deleteCompletedTodos.

(** The remote collaborator as the hook sees it. *)
Definition todoAPI := request -> result value.

(** This repository's backend behind the two validated routes,
    [router.post('/', createTodo)] and [router.put('/:id', updateTodo)].
    The document store and the router's path matching are outside the
    sources and stay parameters. *)
Record backend := mkBackend {
  answering : bool;                   (* a response comes back at all *)
  save : value -> result value;       (* newTodo.save() *)
  findByIdAndUpdate : string -> value -> result value;
  params_id : string -> option string;
    (* req.params.id for PUT /todos/${id}; None when no route matches *)
  notFound : Controller.response;
    (* what [app.use(notFound)] then answers; middleware/errorHandler.js
       is not among the sources *)
  elsewhere : request -> result value (* the other routes *)
}.

Definition served (b : backend) : todoAPI :=
  fun rq =>
    match rq with
    | createTodo todoData =>
        interceptor
          (if answering b
           then Responded (Controller.createTodo (jsonify todoData) (save b))
           else NoResponse)
    | updateTodo id updateData =>
        interceptor
          (if answering b
           then Responded
                  (match params_id b id with
                   | Some i => Controller.updateTodo i (jsonify updateData)
                                 (findByIdAndUpdate b)
                   | None => notFound b
                   end)
           else NoResponse)
    | _ => elsewhere b rq
    end.

End Api.

(* ===================================================================== *)
(** ** hooks/useTodos.js *)
(* ===================================================================== *)

Module Hook.
Import Storage.

(** The five [useState] cells of the hook, and the browser's localStorage. *)
Record world := mkWorld {
  todos : list value;
  stats : Stats;
  loading : bool;
  error : option string;
  isOnline : bool;
  localStorage : storage
}.

(** [useState([])], [useState({ total: 0, completed: 0, pending: 0 })],
    [useState(false)], [useState(null)], [useState(navigator.onLine)] *)
Definition initial (onLine : bool) (ls : storage) : world :=
  mkWorld [] zero_stats false None onLine ls.

Definition setTodos (x : list value) : M world unit :=
  modify (fun w => mkWorld x (stats w) (loading w) (error w) (isOnline w)
                           (localStorage w)).
Definition setStats (x : Stats) : M world unit :=
  modify (fun w => mkWorld (todos w) x (loading w) (error w) (isOnline w)
                           (localStorage w)).
Definition setLoading (x : bool) : M world unit :=
  modify (fun w => mkWorld (todos w) (stats w) x (error w) (isOnline w)
                           (localStorage w)).
Definition setError (x : option string) : M world unit :=
  modify (fun w => mkWorld (todos w) (stats w) (loading w) x (isOnline w)
                           (localStorage w)).
Definition setIsOnline (x : bool) : M world unit :=
  modify (fun w => mkWorld (todos w) (stats w) (loading w) (error w) x
                           (localStorage w)).

(** Run a localStorage.js function on the world's storage. *)
Definition onStorage {A} (m : M storage A) : M world A :=
  fun w => match m (localStorage w) with
           | (r, ls) => (r, mkWorld (todos w) (stats w) (loading w) (error w)
                                    (isOnline w) ls)
           end.

(** What the environment supplies while one operation runs. *)
Record env := mkEnv {
  api : Api.todoAPI;
  rt : Storage.runtime
}.

(** The updater every mutation passes to [setTodos]:
    [prev => { const updated = f(prev);
               const newStats = calculateStats(updated);
               setStats(newStats); return updated; }]
    It is run where it is passed.  Operations are awaited one after the
    other, so [prev] is the list the operation started from. *)
Definition updateTodos (f : list value -> result (list value)) : M world unit :=
  prev <- gets todos ;;
  updated <- liftR (f prev) ;;
  newStats <- liftR (calculateStats (VArr updated)) ;;
  setStats newStats ;;
  setTodos updated.

(** [todo => ({ ...todo, id: todo._id || todo.id })] *)
Definition withId (todo : value) : result value :=
  let? a := get_prop todo "_id" in
  let? i := (if truthy a then Ok a else get_prop todo "id") in
  Ok (VObj (<["id" := i]> (spread todo))).

(** [todo => todo.id && todo.id !== 'undefined'] *)
Definition hasValidId (todo : value) : result bool :=
  let? i := get_prop todo "id" in
  Ok (truthy i && strict_neq_str i "undefined").

(** What every branch of [loadTodos] does with the list it obtained:
    [todosData.map(...)], [.filter(...)], [setTodos(validTodos)],
    [setStats(calculateStats(validTodos))]. *)
Definition showTodos (todosData : value) : M world unit :=
  l <- liftR (as_array todosData) ;;
  todosWithId <- liftR (mapM withId l) ;;
  validTodos <- liftR (filterM hasValidId todosWithId) ;;
  setTodos validTodos ;;
  s <- liftR (calculateStats (VArr validTodos)) ;;
  setStats s.

Definition getStatsFromAPI (e : env) : M world value :=
  try_catch
    (response <- liftR (api e Api.getTodoStats) ;;
     liftR (get_prop response "data"))
    (fun error =>
       todos <- gets todos ;;
       s <- liftR (calculateStats (VArr todos)) ;;
       ret (stats_object s)).

(** The [try] block of [loadTodos]. *)
Definition loadTodos_try (e : env) : M world unit :=
  online <- gets isOnline ;;
  if online then
    response <- liftR (api e Api.getAllTodos) ;;
    d <- liftR (get_prop response "data") ;;
    let todosData := or_else d (VArr []) in
    pagination <- liftR (get_prop response "pagination") ;;
    statsData <-
      (if truthy pagination
       then s <- liftR (calculateStats todosData) ;; ret (stats_object s)
       else getStatsFromAPI e) ;;
    showTodos todosData ;;
    onStorage (syncTodosWithStorage (rt e) todosData)
  else
    todosData <- onStorage getTodosFromStorage ;;
    statsData <- onStorage getStatsFromStorage ;;
    showTodos todosData.

(** The [catch] block of [loadTodos]. *)
Definition loadTodos_catch : M world unit :=
  todosData <- onStorage getTodosFromStorage ;;
  statsData <- onStorage getStatsFromStorage ;;
  showTodos todosData ;;
  setError (Some "Using offline data. Some features may be limited.").

Definition loadTodos (e : env) : M world unit :=
  setLoading true ;;
  setError None ;;
  try_finally
    (try_catch (loadTodos_try e) (fun error => loadTodos_catch))
    (setLoading false).

(** [if (newTodo._id && !newTodo.id) { newTodo.id = newTodo._id; }] *)
Definition adoptId (todo : value) : result value :=
  let? a := get_prop todo "_id" in
  if truthy a then
    let? b := get_prop todo "id" in
    if negb (truthy b) then set_prop todo "id" a else Ok todo
  else Ok todo.

(** [prev => [...prev, newTodo]] *)
Definition append (newTodo : value) (prev : list value)
  : result (list value) :=
  Ok (prev ++ [newTodo])%list.

Definition addTodo (e : env) (text : string) : M world unit :=
  if negb (truthy (VStr (trim text))) then
    setError (Some "Todo text cannot be empty")
  else
    setError None ;;
    try_catch
      (online <- gets isOnline ;;
       if online then
         response <- liftR (api e (Api.createTodo
                                     (obj [("text", VStr (trim text))]))) ;;
         newTodo <- liftR (get_prop response "data") ;;
         newTodo <- liftR (adoptId newTodo) ;;
         i <- liftR (get_prop newTodo "id") ;;
         if negb (truthy i) then
           throw (Error "Invalid todo response from server")
         else
           updateTodos (append newTodo) ;;
           _ <- onStorage (addTodoToStorage (rt e) newTodo) ;;
           ret tt
       else
         newTodo <- onStorage
                      (addTodoToStorage (rt e)
                         (obj [("text", VStr (trim text));
                               ("completed", VBool false)])) ;;
         newTodo <- liftR (adoptId newTodo) ;;
         i <- liftR (get_prop newTodo "id") ;;
         if negb (truthy i) then
           throw (Error "Failed to create todo with valid ID")
         else
           updateTodos (append newTodo))
      (fun error => setError (Some "Failed to add todo. Please try again.")).

(** [prev => prev.map(todo => todo.id === id ? updatedTodo : todo)] *)
Definition replaceById (id : string) (updatedTodo : value)
  (prev : list value) : result (list value) :=
  mapM (fun todo =>
          let? i := get_prop todo "id" in
          Ok (if strict_eq_str i id then updatedTodo else todo)) prev.

Definition updateTodo (e : env) (id : string) (updateData : value)
  : M world unit :=
  setError None ;;
  try_catch
    (online <- gets isOnline ;;
     if online then
       response <- liftR (api e (Api.updateTodo id updateData)) ;;
       updatedTodo <- liftR (get_prop response "data") ;;
       updatedTodo <- liftR (adoptId updatedTodo) ;;
       updateTodos (replaceById id updatedTodo) ;;
       try_catch
         (_ <- onStorage (updateTodoInStorage (rt e) id updateData) ;; ret tt)
         (fun error =>
            _ <- onStorage (addTodoToStorage (rt e) updatedTodo) ;; ret tt)
     else
       updatedTodo <- onStorage (updateTodoInStorage (rt e) id updateData) ;;
       updateTodos (replaceById id updatedTodo))
    (fun error => setError (Some "Failed to update todo. Please try again.")).

(** [t => t.id === id] *)
Definition hasId (id : string) (t : value) : result bool :=
  let? i := get_prop t "id" in Ok (strict_eq_str i id).

(** [{ completed: !todo.completed }] *)
Definition flipped (todo : value) : result value :=
  let? c := get_prop todo "completed" in Ok (obj [("completed", JS.not c)]).

Definition toggleTodoComplete (e : env) (id : string) : M world unit :=
  todos <- gets todos ;;
  setError None ;;
  try_catch
    (online <- gets isOnline ;;
     if online then
       response <- liftR (api e (Api.toggleTodoComplete id)) ;;
       updatedTodo <- liftR (get_prop response "data") ;;
       updatedTodo <- liftR (adoptId updatedTodo) ;;
       updateTodos (replaceById id updatedTodo) ;;
       todo <- liftR (findM (hasId id) todos) ;;
       if truthy todo then
         try_catch
           (patch <- liftR (flipped todo) ;;
            _ <- onStorage (updateTodoInStorage (rt e) id patch) ;; ret tt)
           (fun error =>
              _ <- onStorage (addTodoToStorage (rt e) updatedTodo) ;; ret tt)
       else ret tt
     else
       todo <- liftR (findM (hasId id) todos) ;;
       if truthy todo then
         patch <- liftR (flipped todo) ;;
         updatedTodo <- onStorage (updateTodoInStorage (rt e) id patch) ;;
         updateTodos (replaceById id updatedTodo)
       else ret tt)
    (fun error => setError (Some "Failed to toggle todo. Please try again.")).

(** [prev => prev.filter(todo => todo.id !== id)] *)
Definition withoutId (id : string) (prev : list value)
  : result (list value) :=
  filterM (fun todo =>
             let? i := get_prop todo "id" in Ok (strict_neq_str i id)) prev.

Definition deleteTodo (e : env) (id : string) : M world unit :=
  setError None ;;
  try_catch
    (online <- gets isOnline ;;
     if online then
       _ <- liftR (api e (Api.deleteTodo id)) ;;
       updateTodos (withoutId id) ;;
       try_catch
         (_ <- onStorage (deleteTodoFromStorage (rt e) id) ;; ret tt)
         (fun error => ret tt)
     else
       _ <- onStorage (deleteTodoFromStorage (rt e) id) ;;
       updateTodos (withoutId id))
    (fun error => setError (Some "Failed to delete todo. Please try again.")).

(** [todos.filter(todo => !todo.completed)] *)
Definition notCompleted (l : list value) : result (list value) :=
  filterM (fun todo =>
             let? c := get_prop todo "completed" in Ok (negb (truthy c))) l.

Definition deleteCompletedTodos (e : env) : M world unit :=
  todos <- gets todos ;;
  setError None ;;
  try_catch
    (online <- gets isOnline ;;
     if online then
       response <- liftR (api e Api.deleteCompletedTodos) ;;
       updateTodos notCompleted ;;
       remainingTodos <- liftR (notCompleted todos) ;;
       onStorage (saveTodosToStorage (rt e) (VArr remainingTodos)) ;;
       newStats <- liftR (calculateStats (VArr remainingTodos)) ;;
       onStorage (saveStatsToStorage (rt e) newStats)
     else
       remainingTodos <- liftR (notCompleted todos) ;;
       onStorage (saveTodosToStorage (rt e) (VArr remainingTodos)) ;;
       newStats <- liftR (calculateStats (VArr remainingTodos)) ;;
       onStorage (saveStatsToStorage (rt e) newStats) ;;
       setTodos remainingTodos ;;
       setStats newStats)
    (fun error =>
       setError (Some "Failed to delete completed todos. Please try again.")).

Definition clearError : M world unit := setError None.

(** The operations a caller can issue, with the two connectivity events. *)
Inductive op :=
| OpLoad
| OpAdd (text : string)
| OpUpdate (id : string) (updateData : value)
| OpToggle (id : string)
| OpRemove (id : string)
| OpRemoveCompleted
| OpClearError
| OpOnline
| OpOffline.

Definition perform (o : op) (e : env) : M world unit :=
  match o with
  | OpLoad => loadTodos e
  | OpAdd text => addTodo e text
  | OpUpdate id updateData => updateTodo e id updateData
  | OpToggle id => toggleTodoComplete e id
  | OpRemove id => deleteTodo e id
  | OpRemoveCompleted => deleteCompletedTodos e
  | OpClearError => clearError
  | OpOnline => setIsOnline true
  | OpOffline => setIsOnline false
  end.

(** One operation after the other, each awaited before the next. *)
Fixpoint run (script : list (op * env)) (w : world) : world :=
  match script with
  | [] => w
  | (o, e) :: script' => run script' (perform o e w).2
  end.

End Hook.

(* ===================================================================== *)
(** ** Notions the statements are written with *)
(* ===================================================================== *)

Import Storage Hook.

(** [v.k] where it cannot throw. *)
Definition prop (v : value) (k : string) : value :=
  match v with
  | VObj o => default VUndefined (o !! k)
  | _ => VUndefined
  end.

(** No element is [undefined] or [null]. *)
Definition no_nullish (l : list value) : Prop :=
  Forall (fun v => is_nullish v = false) l.

(** An entry counts as completed when its [completed] is truthy. *)
Definition done (t : value) : bool := truthy (prop t "completed").

(** The statistics of a list, counted directly. *)
Definition countStats (l : list value) : Stats :=
  let total := Z.of_nat (List.length l) in
  let completed := Z.of_nat (List.length (List.filter done l)) in
  mkStats total completed (total - completed).

(** The identifier of an entry is usable: truthy and not the text
    ["undefined"]. *)
Definition resolvable (t : value) : bool :=
  truthy (prop t "id") && strict_neq_str (prop t "id") "undefined".

(** An entry with its [_id], when truthy, copied onto [id]. *)
Definition identified (t : value) : value :=
  VObj (<["id" := or_else (prop t "_id") (prop t "id")]> (spread t)).

(** The list [loadTodos] shows for the raw list [l]. *)
Definition normalized (l : list value) : list value :=
  List.filter resolvable (map identified l).

(** What the cache holds under the todos key, as the reader sees it. *)
Definition cachedTodos (ls : storage) : value :=
  match ls !! STORAGE_KEY with
  | Some (Json v) => v
  | _ => VArr []
  end.

Definition cachedStats (ls : storage) : value :=
  match ls !! STATS_KEY with
  | Some (Json v) => v
  | _ => stats_object zero_stats
  end.

(** The cache holds a list of records. *)
Definition cache_holds (ls : storage) (l : list value) : Prop :=
  cachedTodos ls = VArr l /\ no_nullish l.

(** A record answers to [id] under [id] or [_id]. *)
Definition answers (id : string) (r : value) : bool :=
  strict_eq_str (prop r "id") id || strict_eq_str (prop r "_id") id.

(** States the hook can be in: any script run from the initial state. *)
Definition reachable (w : world) : Prop :=
  exists script onLine ls, w = run script (initial onLine ls).

(** The invariant of the hook state. *)
Definition consistent (w : world) : Prop :=
  no_nullish (todos w) /\ calculateStats (VArr (todos w)) = Ok (stats w).

(** The world with another error message. *)
Definition with_error (x : option string) (w : world) : world :=
  mkWorld (todos w) (stats w) (loading w) x (isOnline w) (localStorage w).

(** A value that is neither [undefined] nor [null]. *)
Definition live (v : value) : Prop := is_nullish v = false.

(** [m] keeps the invariant [I], on a normal return and on a throw, and
    returns only values satisfying [Q]. *)
Definition keeps {A} (I : world -> Prop) (Q : A -> Prop) (m : M world A) : Prop :=
  forall w, I w -> I (m w).2 /\ forall a, (m w).1 = Ok a -> Q a.

(** What the list shown by [loadTodos] looks like. *)
Definition shown (l : list value) : Prop :=
  Forall (fun t => resolvable t = true /\ exists raw, t = identified raw) l.

(** The world [showTodos] leaves when it gets through. *)
Definition showing (valid : list value) (w : world) : world :=
  mkWorld valid (countStats valid) (loading w) (error w) (isOnline w)
          (localStorage w).

(** The worlds at the two ends of [loadTodos]: [setLoading(true);
    setError(null)] before the [try], [setLoading(false)] in [finally]. *)
Definition loaded (w : world) : world :=
  mkWorld (todos w) (stats w) false (error w) (isOnline w) (localStorage w).

Definition loading_started (w : world) : world :=
  mkWorld (todos w) (stats w) true None (isOnline w) (localStorage w).


(** Sample inputs for the instances at the end of the file. *)

(** A remote that never answers. *)
Definition unreachable : Api.todoAPI := fun _ => Api.interceptor Api.NoResponse.
(** A runtime whose browser takes every write, and one whose browser
    takes none. *)
Definition sample_runtime : runtime :=
  mkRuntime 1700000000000 "k3x9q2m1z" "2025-01-01T00:00:00.000Z"
            "2025-01-01T00:00:00.001Z" (fun _ _ _ => true).
Definition full_runtime : runtime :=
  mkRuntime 1700000000000 "k3x9q2m1z" "2025-01-01T00:00:00.000Z"
            "2025-01-01T00:00:00.001Z" (fun _ _ _ => false).
Definition sample_env : env := mkEnv unreachable sample_runtime.
Definition offline_advisory : string :=
  "Using offline data. Some features may be limited.".

(** Index of the first record answering to [id]. *)
Fixpoint firstAnswering (id : string) (l : list value) : option nat :=
  match l with
  | [] => None
  | r :: l' => if answers id r then Some 0%nat else S <$> firstAnswering id l'
  end.

(** The record [addTodoToStorage] builds from [todo]. *)
Definition created (c : runtime) (todo : value) : value :=
  VObj (<["updatedAt" := VStr (iso_now c)]>
        (<["createdAt" := or_else (prop todo "createdAt") (VStr (iso_created c))]>
         (<["id" := or_else (prop todo "id") (VStr (local_id c))]>
          (spread todo)))).

(** The record [updateTodoInStorage] writes over [old]. *)
Definition patchedWith (c : runtime) (old updateData : value) : value :=
  VObj (<["updatedAt" := VStr (iso_now c)]>
        (<["id" := or_else (prop old "id") (prop old "_id")]>
         (spread updateData ∪ spread old))).


(** The entries whose [id] is not [id]. *)
Definition without (id : string) (l : list value) : list value :=
  List.filter (fun t => strict_neq_str (prop t "id") id) l.

(** The entries that are not completed. *)
Definition pendingOnly (l : list value) : list value :=
  List.filter (fun t => negb (done t)) l.

(** The cached records that do not answer to [id]. *)
Definition others (id : string) (l : list value) : list value :=
  List.filter (fun r => negb (answers id r)) l.

(** The storage after a write that the browser may refuse. *)
Definition kept (c : runtime) (k : string) (x : cell) (ls : storage) : storage :=
  if accepts c ls k x then <[k := x]> ls else ls.

(** The storage after [saveTodosToStorage] of a list and
    [saveStatsToStorage] of its statistics. *)
Definition saved (c : runtime) (l : list value) (ls : storage) : storage :=
  kept c STATS_KEY (JSON_stringify (stats_object (countStats l)))
    (kept c STORAGE_KEY (JSON_stringify (VArr l)) ls).


(** The browser takes the write of the list [l] under the todos key. *)
Definition takes (c : runtime) (ls : storage) (l : list value) : bool :=
  accepts c ls STORAGE_KEY (JSON_stringify (VArr l)).

(** The browser takes every write, or none. *)
Definition roomy (c : runtime) : Prop := forall ls k x, accepts c ls k x = true.
Definition refusing (c : runtime) : Prop := forall ls k x, accepts c ls k x = false.

(** The world with another list shown, another storage, and no error. *)
Definition updated_world (l : list value) (ls : storage) (w : world) : world :=
  mkWorld l (countStats l) (loading w) None (isOnline w) ls.

(** The records the cache holds; none when it holds no list. *)
Definition cachedRecords (ls : storage) : list value :=
  match cachedTodos ls with
  | VArr l => l
  | _ => []
  end.


(** More sample inputs. *)


(** A cache holding the single record [r]. *)
Definition cache_of (r : value) : storage := saved sample_runtime [r] ∅.

Definition sample_record : value :=
  obj [("id", VStr "a1"); ("text", VStr "buy milk"); ("completed", VBool false)].

Definition sample_world (onLine : bool) : world :=
  mkWorld [sample_record] (countStats [sample_record]) false None onLine
          (cache_of sample_record).

Definition sample_backend : Api.backend :=
  Api.mkBackend true (fun doc => Ok doc) (fun _ doc => Ok doc)
                (fun id => Some id)
                (Controller.failure 404 "Not Found")
                (fun _ => Ok VNull).



Definition done_record : value :=
  obj [("id", VStr "b2"); ("text", VStr "walk dog"); ("completed", VBool true)].

(** Two shown entries, one of them completed, mirrored in the cache. *)
Definition mixed_world (onLine : bool) : world :=
  mkWorld [sample_record; done_record]
          (countStats [sample_record; done_record]) false None onLine
          (saved sample_runtime [sample_record; done_record] ∅).


(** A remote that accepts every request. *)
Definition accepting : Api.todoAPI :=
  fun _ => Ok (obj [("success", VBool true)]).

(** A cache whose two entries hold valid JSON that is not what the
    application wrote. *)
Definition foreign_cache : storage :=
  <[STATS_KEY := Json VNull]> (<[STORAGE_KEY := Json (VObj ∅)]> ∅).

(* ===================================================================== *)
(** ** Notions for the rest of the sources *)
(* ===================================================================== *)

(** The list as [JSON.parse] gives it back after [JSON.stringify]. *)
Definition reread (l : list value) : list value := map jsonify l.


(** [w] differs from [w0] at most in the list, the statistics, the
    loading flag, the error and the two entries of localStorage the
    application owns. *)
Definition same_outside (w0 w : world) : Prop :=
  isOnline w = isOnline w0 /\
  forall k, k <> STORAGE_KEY -> k <> STATS_KEY ->
            localStorage w !! k = localStorage w0 !! k.

(** A localStorage.js function that writes no key but the two the
    application owns. *)
Definition own_keys_only {A} (m : M storage A) : Prop :=
  forall ls k, k <> STORAGE_KEY -> k <> STATS_KEY -> (m ls).2 !! k = ls !! k.

(** The messages an operation of the hook can leave in [error]. *)
Definition advisories (o : op) : list string :=
  match o with
  | OpLoad => ["Using offline data. Some features may be limited."]
  | OpAdd _ => ["Todo text cannot be empty";
                "Failed to add todo. Please try again."]
  | OpUpdate _ _ => ["Failed to update todo. Please try again."]
  | OpToggle _ => ["Failed to toggle todo. Please try again."]
  | OpRemove _ => ["Failed to delete todo. Please try again."]
  | OpRemoveCompleted => ["Failed to delete completed todos. Please try again."]
  | OpClearError | OpOnline | OpOffline => []
  end.

(** [x] is no message, or one of [l]. *)
Definition among (l : list string) (x : option string) : Prop :=
  match x with
  | None => True
  | Some m => In m l
  end.

(** Every message the hook can show. *)
Definition all_advisories : list string :=
  (advisories OpLoad ++ advisories (OpAdd "") ++ advisories (OpUpdate "" VNull)
   ++ advisories (OpToggle "") ++ advisories (OpRemove "")
   ++ advisories OpRemoveCompleted)%list.

(** A record of the server with its [_id] copied onto a missing [id], as
    the hook adopts it. *)
Definition adopted (d : value) : value :=
  match d with
  | VObj o =>
      if truthy (prop d "_id") && negb (truthy (prop d "id"))
      then VObj (<["id" := prop d "_id"]> o)
      else d
  | _ => d
  end.

(** Two outcomes of a hook operation that differ at most in what
    localStorage holds after a normal return. *)
Definition alike {A} (x y : result A * world) : Prop :=
  x.1 = y.1 /\
  todos x.2 = todos y.2 /\ stats x.2 = stats y.2 /\
  loading x.2 = loading y.2 /\ error x.2 = error y.2 /\
  isOnline x.2 = isOnline y.2 /\
  (is_ok x.1 = false -> x.2 = y.2).

(** The code units of a string. *)
Fixpoint units (s : string) : list ascii :=
  match s with
  | EmptyString => []
  | String a s' => a :: units s'
  end.

(** [trimStart] on code units: the list without its leading white
    space. *)
Fixpoint dropSpace (l : list ascii) : list ascii :=
  match l with
  | [] => []
  | a :: l' => if is_white_space a then dropSpace l' else l
  end.

(* ===================================================================== *)
(** ** backend/models/Todo.js: the statics and the instance method *)
(* ===================================================================== *)

Module Todo.

(** The queries of the collection, as mongoose settles them, and the text
    [error.message] of what they reject with. *)
Record collection := mkCollection {
  find : string -> Z -> num -> num -> result value;
    (* find().sort({ [key]: direction }).skip(skip).limit(limit) *)
  countDocuments : value -> result nat;      (* the filter; undefined: all *)
  findById : string -> result value;         (* null when there is none *)
  findByIdAndDelete : string -> result value;
  deleteMany : value -> result value;
  save : value -> result value;              (* document.save() *)
  message : exn -> string                    (* error.message *)
}.

(** [this.completed = !this.completed; return this.save();] *)
Definition toggleComplete (c : collection) (this : value) : result value :=
  let? completed := get_prop this "completed" in
  let? this := set_prop this "completed" (JS.not completed) in
  save c this.

Definition getStats (c : collection) : result value :=
  match (let? total := countDocuments c VUndefined in
         let? completed := countDocuments c (obj [("completed", VBool true)]) in
         let pending := Z.of_nat total - Z.of_nat completed in
         Ok (Storage.stats_object
               (Storage.mkStats (Z.of_nat total) (Z.of_nat completed) pending)))
  with
  | Ok stats => Ok stats
  | Throw error => Throw (Error "Failed to get todo statistics")
  end.

(** [Math.ceil(total / limit)] for a count [total].  For a finite
    [limit] other than zero this is the ceiling of the exact quotient,
    which is what the double division followed by [Math.ceil] gives for
    counts below 2^53; a ceiling of zero below a negative [limit] is
    negative zero. *)
Definition ceil_div (total : nat) (limit : num) : num :=
  match limit with
  | NaN => NaN
  | PInf => Fin 0
  | NInf => NegZero
  | NegZero => if Nat.eqb total 0 then NaN else NInf
  | Fin l =>
      if Z.eqb l 0 then
        (if Nat.eqb total 0 then NaN else PInf)
      else
        let q := - ((- Z.of_nat total) / l) in
        if Z.eqb q 0 && Z.ltb l 0 then NegZero else Fin q
  end.

(** [page < totalPages] and [page > 1] *)
Definition below (page totalPages : num) : bool := num_lt page totalPages.

Definition above_one (page : num) : bool := num_lt (Fin 1) page.

(** [(page - 1) * limit], each operation rounded to a double *)
Definition skipped (page limit : num) : num :=
  num_mul (num_sub page (Fin 1)) limit.

Record pagination := mkPagination {
  currentPage : num;
  totalPages : num;
  totalItems : nat;
  itemsPerPage : num;
  hasNextPage : bool;
  hasPrevPage : bool
}.

Record paginated := mkPaginated {
  todos : value;
  page_info : pagination
}.

(** A destructuring default: [x = d] takes [d] when the property is
    [undefined]. *)
Definition or_default (v d : value) : value :=
  match v with VUndefined => d | _ => v end.

(** The option fields are [undefined] when [None]. *)
Record options := mkOptions {
  page : option num;
  limit : option num;
  sortBy : value;
  sortOrder : value
}.

Definition getPaginatedTodos (c : collection) (o : options) : result paginated :=
  let page := default (Fin 1) (page o) in
  let limit := default (Fin 10) (limit o) in
  let sortBy := or_default (sortBy o) (VStr "createdAt") in
  let sortOrder := or_default (sortOrder o) (VStr "desc") in
  let skip := skipped page limit in
  let direction := if strict_eq_str sortOrder "desc" then -1 else 1 in
  match (let? todos := find c (to_string sortBy) direction skip limit in
         let? total := countDocuments c VUndefined in
         let totalPages := ceil_div total limit in
         Ok (mkPaginated todos
               (mkPagination page totalPages total limit
                             (below page totalPages) (above_one page))))
  with
  | Ok r => Ok r
  | Throw error => Throw (Error "Failed to get paginated todos")
  end.

End Todo.

(* ===================================================================== *)
(** ** backend/controllers/todoController.js: the other six handlers *)
(* ===================================================================== *)

Module TodoController.
Import Controller.

(** [error.message] of what was caught: the text of an error made by this
    code, what the collection says for one of its own. *)
Definition message_of (c : Todo.collection) (error : exn) : string :=
  match error with
  | Error m | TypeError m | SyntaxError m => m
  | ValidationError _ => Todo.message c error
  end.

(** The catch block of the six handlers. *)
Definition internal (c : Todo.collection) (what : string) (r : result response)
  : response :=
  match r with
  | Ok resp => resp
  | Throw error =>
      mkResponse 500 (obj [("success", VBool false);
                           ("message", VStr ("Internal server error while " ++ what));
                           ("error", VStr (message_of c error))])
  end.

Definition success (status : Z) (message : string) (fields : list (string * value))
  : response :=
  mkResponse status
    (obj (("success", VBool true) :: ("message", VStr message) :: fields)).

(** The value of a decimal or hexadecimal digit. *)
Definition digit_value (a : ascii) : option Z :=
  let n := Z.of_nat (nat_of_ascii a) in
  if Z.leb 48 n && Z.leb n 57 then Some (n - 48)
  else if Z.leb 97 n && Z.leb n 122 then Some (n - 87)
  else if Z.leb 65 n && Z.leb n 90 then Some (n - 55)
  else None.

(** The number read from the longest prefix of digits; [acc] is [None]
    until a digit was read. *)
Fixpoint digits (radix : Z) (s : string) (acc : option Z) : option Z :=
  match s with
  | EmptyString => acc
  | String a s' =>
      match digit_value a with
      | Some d =>
          if Z.ltb d radix
          then digits radix s' (Some (default 0 acc * radix + d))
          else acc
      | None => acc
      end
  end.

(** [parseInt(v)] without a radix: NaN when no digit is read, else the
    double nearest to the integer read.  (For more than 20 significant
    decimal digits ECMAScript also allows an engine to read the further
    digits as zeros; V8, which runs this backend, rounds the integer
    itself.) *)
Definition parseInt (v : value) : num :=
  let s := trimStart (to_string v) in
  let (sign, s) :=
    match s with
    | String "-" s' => (-1, s')
    | String "+" s' => (1, s')
    | _ => (1, s)
    end in
  let (radix, s) :=
    match s with
    | String "0" (String "x" s') | String "0" (String "X" s') => (16, s')
    | _ => (10, s)
    end in
  match digits radix s None with
  | None => NaN
  | Some mathInt =>
      if Z.eqb mathInt 0 then signed_zero (Z.ltb sign 0)
      else round (sign * mathInt)
  end.

(** [x < n] and [x > n] *)
Definition less (x : num) (n : Z) : bool := num_lt x (Fin n).
Definition greater (x : num) (n : Z) : bool := num_lt (Fin n) x.

(** A number as [res.json] writes it: NaN and the infinities become
    [null], negative zero [0]. *)
Definition json_number (x : num) : value :=
  match x with
  | Fin z => VNum z
  | NegZero => VNum 0
  | PInf | NInf | NaN => VNull
  end.

Definition json_pagination (p : Todo.pagination) : value :=
  obj [("currentPage", json_number (Todo.currentPage p));
       ("totalPages", json_number (Todo.totalPages p));
       ("totalItems", VNum (Z.of_nat (Todo.totalItems p)));
       ("itemsPerPage", json_number (Todo.itemsPerPage p));
       ("hasNextPage", VBool (Todo.hasNextPage p));
       ("hasPrevPage", VBool (Todo.hasPrevPage p))].

Definition getAllTodos (c : Todo.collection) (req_query : value) : response :=
  internal c "retrieving todos"
    (let? page := get_prop req_query "page" in
     let? limit := get_prop req_query "limit" in
     let? sortBy := get_prop req_query "sortBy" in
     let? sortOrder := get_prop req_query "sortOrder" in
     let page := Todo.or_default page (VNum 1) in
     let limit := Todo.or_default limit (VNum 50) in
     let sortBy := Todo.or_default sortBy (VStr "createdAt") in
     let sortOrder := Todo.or_default sortOrder (VStr "desc") in
     let pageNum := parseInt page in
     let limitNum := parseInt limit in
     if less pageNum 1 || less limitNum 1 || greater limitNum 100 then
       Ok (failure 400
             "Invalid pagination parameters. Page must be >= 1, limit must be between 1-100")
     else
       let? result :=
         Todo.getPaginatedTodos c
           (Todo.mkOptions (Some pageNum) (Some limitNum) sortBy sortOrder) in
       Ok (success 200 "Todos retrieved successfully"
             [("data", Todo.todos result);
              ("pagination", json_pagination (Todo.page_info result))])).

Definition getTodoById (c : Todo.collection) (id : string) : response :=
  internal c "retrieving todo"
    (if negb (is_object_id id) then
       Ok (failure 400 "Invalid todo ID format")
     else
       let? todo := Todo.findById c id in
       if negb (truthy todo) then Ok (failure 404 "Todo not found")
       else Ok (success 200 "Todo retrieved successfully" [("data", todo)])).

Definition toggleTodoComplete (c : Todo.collection) (id : string) : response :=
  internal c "toggling todo completion"
    (if negb (is_object_id id) then
       Ok (failure 400 "Invalid todo ID format")
     else
       let? todo := Todo.findById c id in
       if negb (truthy todo) then Ok (failure 404 "Todo not found")
       else
         let? updatedTodo := Todo.toggleComplete c todo in
         let? completed := get_prop updatedTodo "completed" in
         Ok (success 200
               ("Todo marked as " ++
                (if truthy completed then "completed" else "pending"))
               [("data", updatedTodo)])).

Definition deleteTodo (c : Todo.collection) (id : string) : response :=
  internal c "deleting todo"
    (if negb (is_object_id id) then
       Ok (failure 400 "Invalid todo ID format")
     else
       let? deletedTodo := Todo.findByIdAndDelete c id in
       if negb (truthy deletedTodo) then Ok (failure 404 "Todo not found")
       else Ok (success 200 "Todo deleted successfully" [("data", deletedTodo)])).

Definition getTodoStats (c : Todo.collection) : response :=
  internal c "retrieving statistics"
    (let? stats := Todo.getStats c in
     Ok (success 200 "Todo statistics retrieved successfully" [("data", stats)])).

Definition deleteCompletedTodos (c : Todo.collection) : response :=
  internal c "deleting completed todos"
    (let? result := Todo.deleteMany c (obj [("completed", VBool true)]) in
     let? deletedCount := get_prop result "deletedCount" in
     Ok (success 200
           (to_string deletedCount ++ " completed todos deleted successfully")
           [("data", obj [("deletedCount", deletedCount)])])).

End TodoController.

(* ===================================================================== *)
(** ** The components that call the hook *)
(* ===================================================================== *)

Module TodoInput.

(** [handleSubmit]: [onAddTodo] and [loading] are the props, [inputValue]
    is the state of the input; the result is its state afterwards. *)
Definition handleSubmit (onAddTodo : string -> M world unit) (loading : bool)
  (inputValue : string) : M world string :=
  if truthy (VStr (trim inputValue)) && negb loading then
    onAddTodo (trim inputValue) ;;
    ret ""
  else ret inputValue.

(** [maxLength={500}] on the input *)
Definition maxLength : nat := 500.

End TodoInput.

Module TodoList.

(** [todos.filter(todo => todo.completed)] and
    [todos.filter(todo => !todo.completed)] *)
Definition completedTodos (todos : list value) : result (list value) :=
  filterM is_completed todos.
Definition pendingTodos (todos : list value) : result (list value) :=
  filterM (fun todo => let? c := get_prop todo "completed" in
                       Ok (negb (truthy c))) todos.

(** [handleDeleteCompleted], given the [completedTodos] of this render;
    [confirm] is what [window.confirm] answers. *)
Definition handleDeleteCompleted (onDeleteCompleted : M world unit)
  (confirm : bool) (completedTodos : list value) : M world unit :=
  if Z.ltb 0 (Z.of_nat (List.length completedTodos)) then
    if confirm then onDeleteCompleted else ret tt
  else ret tt.

End TodoList.

(* ===================================================================== *)
(** ** Notions for the backend *)
(* ===================================================================== *)

(** A text the backend stores: trimmed, not empty, at most 500 long. *)
Definition valid_text (t : string) : Prop :=
  trim t = t /\ (1 <= String.length t <= 500)%nat.

(** An update the backend passes to the store: a valid [text], a boolean
    [completed], or both, and nothing else. *)
Definition valid_patch (u : gmap string value) : Prop :=
  u <> ∅ /\
  forall k v, u !! k = Some v ->
    (k = "text" /\ exists t, v = VStr t /\ valid_text t) \/
    (k = "completed" /\ exists b, v = VBool b).

(** The answer of a handler is in the shape the client relies on: a
    [message], one of the five statuses, and a [success] flag that says
    whether the status is a 2xx. *)
Definition well_formed (r : Controller.response) : Prop :=
  prop (Controller.body r) "success"
    = VBool (Z.leb 200 (Controller.status r) && Z.ltb (Controller.status r) 300) /\
  In (Controller.status r) [200; 201; 400; 404; 500] /\
  exists m, prop (Controller.body r) "message" = VStr m.

(** What the store may be asked for one page: a limit between 1 and 100
    or NaN, and an offset that is not negative (it may be [Infinity]) or
    NaN. *)
Definition page_request (skip limit : num) : Prop :=
  match limit with
  | Fin l => 1 <= l <= 100
  | NaN => True
  | NegZero | PInf | NInf => False
  end /\
  match skip with
  | Fin s => 0 <= s
  | PInf | NaN => True
  | NegZero | NInf => False
  end.

(** Sample stores for the instances. *)

(** A store that answers every page request with no documents. *)
Definition empty_collection : Todo.collection :=
  Todo.mkCollection (fun _ _ _ _ => Ok (VArr [])) (fun _ => Ok 0%nat)
    (fun _ => Ok VNull) (fun _ => Ok VNull)
    (fun _ => Ok (obj [("deletedCount", VNum 0)]))
    (fun d => Ok d) (fun _ => "").

(** The same store, failing on a page request out of bounds. *)
Definition strict_collection : Todo.collection :=
  Todo.mkCollection
    (fun _ _ skip limit =>
       if match limit with
          | Fin l => Z.leb 1 l && Z.leb l 100
          | NaN => true
          | NegZero | PInf | NInf => false
          end
          && match skip with
             | Fin s => Z.leb 0 s
             | PInf | NaN => true
             | NegZero | NInf => false
             end
       then Ok (VArr [])
       else Throw (Error "page request out of bounds"))
    (fun _ => Ok 0%nat)
    (fun _ => Ok VNull) (fun _ => Ok VNull)
    (fun _ => Ok (obj [("deletedCount", VNum 0)]))
    (fun d => Ok d) (fun _ => "").

(* ===================================================================== *)
(** ** Basic facts *)
(* ===================================================================== *)

Lemma get_prop_ok v k : is_nullish v = false -> get_prop v k = Ok (prop v k).
Proof. destruct v; simpl; intros H; try discriminate; reflexivity. Qed.

Lemma get_prop_inv v k x : get_prop v k = Ok x -> is_nullish v = false /\ x = prop v k.
Proof. destruct v; simpl; intros H; inversion H; auto. Qed.

Lemma getTodosFromStorage_eq ls :
  getTodosFromStorage ls = (Ok (cachedTodos ls), ls).
Proof.
  unfold getTodosFromStorage, cachedTodos, try_catch, bind, getItem.
  destruct (ls !! STORAGE_KEY) as [[t|v]|]; simpl; try reflexivity.
  destruct t; reflexivity.
Qed.

Lemma getStatsFromStorage_eq ls :
  getStatsFromStorage ls = (Ok (cachedStats ls), ls).
Proof.
  unfold getStatsFromStorage, cachedStats, try_catch, bind, getItem.
  destruct (ls !! STATS_KEY) as [[t|v]|]; simpl; try reflexivity.
  destruct t; reflexivity.
Qed.

(** *** Writes the browser may refuse *)

Lemma saveTodosToStorage_eq c v ls :
  saveTodosToStorage c v ls = (Ok tt, kept c STORAGE_KEY (JSON_stringify v) ls).
Proof.
  unfold saveTodosToStorage, try_catch, setItem, kept.
  destruct (accepts c ls _ _); reflexivity.
Qed.

Lemma saveStatsToStorage_eq c s ls :
  saveStatsToStorage c s ls
  = (Ok tt, kept c STATS_KEY (JSON_stringify (stats_object s)) ls).
Proof.
  unfold saveStatsToStorage, try_catch, setItem, kept.
  destruct (accepts c ls _ _); reflexivity.
Qed.

Lemma kept_roomy c k x ls : roomy c -> kept c k x ls = <[k := x]> ls.
Proof. intros H. unfold kept. rewrite H. reflexivity. Qed.

Lemma kept_refusing c k x ls : refusing c -> kept c k x ls = ls.
Proof. intros H. unfold kept. rewrite H. reflexivity. Qed.

Lemma kept_other c k x ls k' : k' <> k -> kept c k x ls !! k' = ls !! k'.
Proof.
  intros H. unfold kept. destruct (accepts c ls k x); [|reflexivity].
  rewrite lookup_insert_ne by congruence. reflexivity.
Qed.





(** The tail of the mutations: both writes, best effort. *)
Lemma save_both_eq {A} c l (x : A) s ls :
  calculateStats (VArr l) = Ok s ->
  (saveTodosToStorage c (VArr l) ;;
   stats <- liftR (calculateStats (VArr l)) ;;
   saveStatsToStorage c stats ;; ret x) ls
  = (Ok x, kept c STATS_KEY (JSON_stringify (stats_object s))
             (kept c STORAGE_KEY (JSON_stringify (VArr l)) ls)).
Proof.
  intros Hs. unfold bind at 1. rewrite saveTodosToStorage_eq.
  unfold bind at 1, liftR. rewrite Hs.
  unfold bind. rewrite saveStatsToStorage_eq. reflexivity.
Qed.

(** *** The array methods and [calculateStats] on lists of records *)

Lemma filterM_pure (p : value -> result bool) (q : value -> bool) l :
  Forall (fun x => p x = Ok (q x)) l -> filterM p l = Ok (List.filter q l).
Proof.
  induction 1 as [|x l Hx _ IH]; simpl; [reflexivity|].
  rewrite Hx. simpl. rewrite IH. simpl. destruct (q x); reflexivity.
Qed.

Lemma mapM_pure {A} (f : value -> result A) (g : value -> A) l :
  Forall (fun x => f x = Ok (g x)) l -> mapM f l = Ok (map g l).
Proof.
  induction 1 as [|x l Hx _ IH]; simpl; [reflexivity|].
  rewrite Hx. simpl. rewrite IH. reflexivity.
Qed.

Lemma no_nullish_filter q l : no_nullish l -> no_nullish (List.filter q l).
Proof.
  unfold no_nullish. rewrite !Forall_forall. intros H x Hx.
  apply list_elem_of_In, filter_In in Hx. apply H, list_elem_of_In, Hx.
Qed.

Lemma is_completed_pure l :
  no_nullish l -> Forall (fun x => is_completed x = Ok (done x)) l.
Proof.
  intros H. eapply Forall_impl; [exact H|].
  intros x Hx. unfold is_completed, done.
  rewrite (get_prop_ok _ _ Hx). reflexivity.
Qed.

Lemma calculateStats_pure l :
  no_nullish l -> calculateStats (VArr l) = Ok (countStats l).
Proof.
  intros H. unfold calculateStats. simpl.
  rewrite (filterM_pure _ done) by (apply is_completed_pure, H).
  reflexivity.
Qed.

Lemma calculateStats_inv v s :
  calculateStats v = Ok s -> exists l, v = VArr l /\ total s = completed s + pending s.
Proof.
  unfold calculateStats. destruct v; simpl; try discriminate.
  destruct (filterM is_completed l); simpl; [|discriminate].
  intros H. inversion H; subst; simpl. eexists; split; [reflexivity|lia].
Qed.

(** *** Rules for showing that an operation keeps an invariant *)

Section Keeps.
Context (I : world -> Prop).

Lemma keeps_ret {A} (Q : A -> Prop) a : Q a -> keeps I Q (ret a).
Proof. intros H w Hw. split; [exact Hw|]. simpl. intros ? [= <-]. exact H. Qed.

Lemma keeps_throw {A} (Q : A -> Prop) e : keeps I Q (throw e).
Proof. intros w Hw. split; [exact Hw|]. simpl. discriminate. Qed.

Lemma keeps_liftR {A} (Q : A -> Prop) (r : result A) :
  (forall a, r = Ok a -> Q a) -> keeps I Q (liftR r).
Proof. intros H w Hw. split; [exact Hw|]. simpl. exact H. Qed.

Lemma keeps_gets {A} (Q : A -> Prop) (f : world -> A) :
  (forall w, I w -> Q (f w)) -> keeps I Q (gets f).
Proof. intros H w Hw. split; [exact Hw|]. simpl. intros ? [= <-]. auto. Qed.

Lemma keeps_modify (f : world -> world) :
  (forall w, I w -> I (f w)) -> keeps I (fun _ => True) (modify f).
Proof. intros H w Hw. split; [apply H, Hw|]. auto. Qed.

Lemma keeps_bind {A B} (Q1 : A -> Prop) (Q2 : B -> Prop) m (k : A -> M world B) :
  keeps I Q1 m -> (forall a, Q1 a -> keeps I Q2 (k a)) -> keeps I Q2 (bind m k).
Proof.
  intros Hm Hk w Hw. destruct (Hm w Hw) as [H1 H2]. unfold bind.
  destruct (m w) as [[a|e] w']; simpl in *.
  - apply Hk; auto.
  - split; [exact H1|discriminate].
Qed.

Lemma keeps_try_catch {A} (Q : A -> Prop) m (h : exn -> M world A) :
  keeps I Q m -> (forall e, keeps I Q (h e)) -> keeps I Q (try_catch m h).
Proof.
  intros Hm Hh w Hw. destruct (Hm w Hw) as [H1 H2]. unfold try_catch.
  destruct (m w) as [[a|e] w']; simpl in *.
  - split; [exact H1|]. intros ? [= <-]. auto.
  - apply Hh, H1.
Qed.

Lemma keeps_try_finally {A} (Q : A -> Prop) (m : M world A) f :
  keeps I Q m -> keeps I (fun _ => True) f -> keeps I Q (try_finally m f).
Proof.
  intros Hm Hf w Hw. destruct (Hm w Hw) as [H1 H2]. unfold try_finally.
  destruct (m w) as [r w']; simpl in *.
  destruct (Hf w' H1) as [H3 _].
  destruct (f w') as [[[]|e] w'']; simpl in *; split; auto; discriminate.
Qed.

End Keeps.

Lemma keeps_onStorage {A} (Q : A -> Prop) (m : M storage A) :
  (forall ls a, (m ls).1 = Ok a -> Q a) -> keeps consistent Q (onStorage m).
Proof.
  intros H w Hw. unfold onStorage.
  specialize (H (localStorage w)). destruct (m (localStorage w)) as [r ls'].
  simpl in *. split; [exact Hw|exact H].
Qed.

(** *** Every operation keeps the hook state consistent *)

Lemma mapM_Forall {A} (P : value -> Prop) (Q : A -> Prop) f l l' :
  Forall P l -> (forall x y, P x -> f x = Ok y -> Q y) ->
  mapM f l = Ok l' -> Forall Q l'.
Proof.
  intros Hl Hf. revert l'. induction Hl as [|x l Hx _ IH]; simpl; intros l' H.
  - inversion H. constructor.
  - destruct (f x) as [y|] eqn:Hy; simpl in H; [|discriminate].
    destruct (mapM f l) as [ys|]; simpl in H; [|discriminate].
    inversion H; subst. constructor; eauto.
Qed.

Lemma filterM_Forall (P : value -> Prop) p l l' :
  Forall P l -> filterM p l = Ok l' -> Forall P l'.
Proof.
  intros Hl. revert l'. induction Hl as [|x l Hx _ IH]; simpl; intros l' H.
  - inversion H. constructor.
  - destruct (p x) as [b|]; simpl in H; [|discriminate].
    destruct (filterM p l) as [ys|]; simpl in H; [|discriminate].
    inversion H; subst. destruct b; [constructor|]; auto.
Qed.

Lemma Forall_True {A} (l : list A) : Forall (fun _ => True) l.
Proof. induction l; constructor; auto. Qed.

Lemma withId_live x y : withId x = Ok y -> live y.
Proof.
  unfold withId. destruct (get_prop x "_id"); simpl; [|discriminate].
  destruct (if truthy a then _ else _); simpl; [|discriminate].
  intros [= <-]. reflexivity.
Qed.

Lemma adoptId_live x y : adoptId x = Ok y -> live y.
Proof.
  unfold adoptId. destruct (get_prop x "_id") as [a|] eqn:Ha; simpl; [|discriminate].
  apply get_prop_inv in Ha as [Hx _].
  destruct (truthy a).
  - destruct (get_prop x "id") as [b|]; simpl; [|discriminate].
    destruct (negb (truthy b)).
    + destruct x; simpl; try discriminate. intros [= <-]. reflexivity.
    + intros [= <-]. exact Hx.
  - intros [= <-]. exact Hx.
Qed.

Lemma addTodoToStorage_live c todo ls v :
  (addTodoToStorage c todo ls).1 = Ok v -> live v.
Proof.
  unfold addTodoToStorage, try_catch, bind.
  rewrite getTodosFromStorage_eq. unfold liftR.
  destruct (get_prop todo "id"); simpl; [|discriminate].
  destruct (get_prop todo "createdAt"); simpl; [|discriminate].
  destruct (as_array (cachedTodos ls)); simpl; [|discriminate].
  rewrite saveTodosToStorage_eq.
  destruct (calculateStats _); simpl; [|discriminate].
  rewrite saveStatsToStorage_eq. simpl.
  intros [= <-]. reflexivity.
Qed.

Lemma patched_live c old d v : patched c old d = Ok v -> live v.
Proof.
  unfold patched. destruct (get_prop old "id"); simpl; [|discriminate].
  destruct (if truthy a then _ else _); simpl; [|discriminate].
  intros [= <-]. reflexivity.
Qed.

Lemma updateTodoInStorage_live c id d ls v :
  (updateTodoInStorage c id d ls).1 = Ok v -> live v.
Proof.
  unfold updateTodoInStorage, try_catch, bind.
  rewrite getTodosFromStorage_eq. unfold liftR.
  destruct (as_array (cachedTodos ls)) as [l|]; simpl; [|discriminate].
  destruct (findIndexM (matches_id id) l) as [[i|]|]; simpl; try discriminate.
  destruct (patched c _ d) as [new|] eqn:Hp; simpl; [|discriminate].
  rewrite saveTodosToStorage_eq.
  destruct (calculateStats _); simpl; [|discriminate].
  rewrite saveStatsToStorage_eq. simpl.
  intros [= <-]. eapply patched_live, Hp.
Qed.

Lemma replaceById_live id u prev updated :
  live u -> no_nullish prev -> replaceById id u prev = Ok updated ->
  no_nullish updated.
Proof.
  intros Hu Hp. unfold replaceById. apply mapM_Forall with (P := live); [exact Hp|].
  intros x y Hx. destruct (get_prop x "id"); simpl; [|discriminate].
  intros [= <-]. destruct (strict_eq_str a id); assumption.
Qed.

Lemma append_live u prev updated :
  live u -> no_nullish prev -> append u prev = Ok updated -> no_nullish updated.
Proof.
  intros Hu Hp [= <-]. apply Forall_app. split; [exact Hp|]. constructor; [exact Hu|constructor].
Qed.

Lemma consistent_set l w :
  no_nullish l ->
  consistent (mkWorld l (countStats l) (loading w) (error w) (isOnline w) (localStorage w)).
Proof. intros H. split; simpl; [exact H|]. apply calculateStats_pure, H. Qed.

Lemma updateTodos_keeps f :
  (forall prev updated, no_nullish prev -> f prev = Ok updated -> no_nullish updated) ->
  keeps consistent (fun _ => True) (updateTodos f).
Proof.
  intros Hf w [Hn Hs]. unfold updateTodos, bind, gets, liftR, setStats, setTodos, modify.
  destruct (f (todos w)) as [updated|] eqn:Hu; simpl; [|split; [split|]; auto].
  specialize (Hf _ _ Hn Hu). rewrite (calculateStats_pure _ Hf). simpl.
  split; [|auto]. apply (consistent_set updated w Hf).
Qed.

Lemma showTodos_keeps d : keeps consistent (fun _ => True) (showTodos d).
Proof.
  intros w Hw. unfold showTodos, bind, liftR, setStats, setTodos, modify.
  destruct (as_array d) as [l|]; simpl; [|auto].
  destruct (mapM withId l) as [l1|] eqn:H1; simpl; [|auto].
  destruct (filterM hasValidId l1) as [l2|] eqn:H2; simpl; [|auto].
  assert (Hn : no_nullish l2).
  { eapply filterM_Forall; [|exact H2].
    eapply mapM_Forall; [apply Forall_True| |exact H1].
    intros x y _. apply withId_live. }
  rewrite (calculateStats_pure _ Hn). simpl. split; [|auto].
  apply (consistent_set l2 w Hn).
Qed.

Lemma setter_keeps (f : world -> world) :
  (forall w, todos (f w) = todos w) -> (forall w, stats (f w) = stats w) ->
  keeps consistent (fun _ => True) (modify f).
Proof.
  intros Ht Hs. apply keeps_modify. intros w [H1 H2]. split; rewrite Ht; [|rewrite Hs]; assumption.
Qed.

Lemma setError_keeps x : keeps consistent (fun _ => True) (setError x).
Proof. apply setter_keeps; reflexivity. Qed.
Lemma setLoading_keeps x : keeps consistent (fun _ => True) (setLoading x).
Proof. apply setter_keeps; reflexivity. Qed.
Lemma setIsOnline_keeps x : keeps consistent (fun _ => True) (setIsOnline x).
Proof. apply setter_keeps; reflexivity. Qed.

Lemma keeps_any {A} (r : result A) : keeps consistent (fun _ => True) (liftR r).
Proof. apply keeps_liftR. auto. Qed.

Lemma onStorage_keeps_any {A} (m : M storage A) :
  keeps consistent (fun _ => True) (onStorage m).
Proof. apply keeps_onStorage. auto. Qed.

Lemma gets_keeps {A} (f : world -> A) : keeps consistent (fun _ => True) (gets f).
Proof. apply keeps_gets. auto. Qed.

Lemma gets_todos_keeps : keeps consistent no_nullish (gets todos).
Proof. apply keeps_gets. intros w [H _]. exact H. Qed.

Lemma adoptId_keeps t : keeps consistent live (liftR (adoptId t)).
Proof. apply keeps_liftR. apply adoptId_live. Qed.

Lemma updateTodoInStorage_keeps c id d :
  keeps consistent live (onStorage (updateTodoInStorage c id d)).
Proof. apply keeps_onStorage. apply updateTodoInStorage_live. Qed.

(** One syntax-directed step of an invariant proof. *)
Ltac keeps_leaf :=
  lazymatch goal with
  | |- keeps _ _ (setError _) => apply setError_keeps
  | |- keeps _ _ (setLoading _) => apply setLoading_keeps
  | |- keeps _ _ (setIsOnline _) => apply setIsOnline_keeps
  | |- keeps _ _ (showTodos _) => apply showTodos_keeps
  | |- keeps _ live (liftR (adoptId _)) => apply adoptId_keeps
  | |- keeps _ live (onStorage (updateTodoInStorage _ _ _)) =>
      apply updateTodoInStorage_keeps
  | |- keeps _ no_nullish (gets todos) => apply gets_todos_keeps
  | |- keeps _ _ (liftR _) => apply keeps_any
  | |- keeps _ _ (onStorage _) => apply onStorage_keeps_any
  | |- keeps _ _ (gets _) => apply gets_keeps
  | |- keeps _ _ (throw _) => apply keeps_throw
  | |- keeps _ _ (ret _) => apply keeps_ret; exact Logic.I
  end.

Ltac keeps_step :=
  lazymatch goal with
  | |- keeps _ _ (bind (liftR (adoptId _)) _) =>
      eapply (keeps_bind consistent live); [keeps_leaf|intros ? ?]
  | |- keeps _ _ (bind (onStorage (updateTodoInStorage _ _ _)) _) =>
      eapply (keeps_bind consistent live); [keeps_leaf|intros ? ?]
  | |- keeps _ _ (bind (gets todos) _) =>
      eapply (keeps_bind consistent no_nullish); [keeps_leaf|intros ? ?]
  | |- keeps _ _ (bind _ _) =>
      eapply (keeps_bind consistent (fun _ => True)); [|intros ? _]
  | |- keeps _ _ (try_catch _ _) => apply keeps_try_catch; [|intros ?]
  | |- keeps _ _ (try_finally _ _) => apply keeps_try_finally
  | |- keeps _ _ (if ?b then _ else _) => destruct b
  | |- _ => keeps_leaf
  end.

Lemma getStatsFromAPI_keeps e : keeps consistent (fun _ => True) (getStatsFromAPI e).
Proof. unfold getStatsFromAPI. repeat keeps_step. Qed.

Lemma loadTodos_keeps e : keeps consistent (fun _ => True) (loadTodos e).
Proof.
  unfold loadTodos, loadTodos_try, loadTodos_catch.
  repeat keeps_step. apply getStatsFromAPI_keeps.
Qed.

Lemma withoutId_live id prev updated :
  no_nullish prev -> withoutId id prev = Ok updated -> no_nullish updated.
Proof. intros Hp. apply filterM_Forall, Hp. Qed.

Lemma notCompleted_live prev updated :
  no_nullish prev -> notCompleted prev = Ok updated -> no_nullish updated.
Proof. intros Hp. apply filterM_Forall, Hp. Qed.

Ltac keeps_update :=
  apply updateTodos_keeps; intros ? ?;
  first [ apply append_live; assumption
        | apply replaceById_live; assumption
        | apply withoutId_live
        | apply notCompleted_live ].

Lemma addTodo_keeps e text : keeps consistent (fun _ => True) (addTodo e text).
Proof. unfold addTodo. repeat keeps_step; keeps_update. Qed.

Lemma updateTodo_keeps e id d : keeps consistent (fun _ => True) (updateTodo e id d).
Proof. unfold updateTodo. repeat keeps_step; keeps_update. Qed.

Lemma toggleTodoComplete_keeps e id :
  keeps consistent (fun _ => True) (toggleTodoComplete e id).
Proof. unfold toggleTodoComplete. repeat keeps_step; keeps_update. Qed.

Lemma deleteTodo_keeps e id : keeps consistent (fun _ => True) (deleteTodo e id).
Proof. unfold deleteTodo. repeat keeps_step; keeps_update. Qed.

Lemma publish_keeps c l :
  no_nullish l ->
  keeps consistent (fun _ => True)
    (newStats <- liftR (calculateStats (VArr l)) ;;
     onStorage (saveStatsToStorage c newStats) ;;
     setTodos l ;; setStats newStats).
Proof.
  intros Hl w Hw. unfold bind, liftR.
  rewrite (calculateStats_pure _ Hl). unfold onStorage.
  rewrite saveStatsToStorage_eq. simpl.
  split; [|auto]. apply (consistent_set l w Hl).
Qed.

Lemma deleteCompletedTodos_keeps e :
  keeps consistent (fun _ => True) (deleteCompletedTodos e).
Proof.
  unfold deleteCompletedTodos. do 5 keeps_step; [keeps_step|].
  keeps_step.
  - repeat keeps_step. keeps_update.
  - eapply (keeps_bind consistent no_nullish).
    + apply keeps_liftR. intros l. apply notCompleted_live. assumption.
    + intros l Hl. keeps_step; [keeps_step|]. apply publish_keeps, Hl.
Qed.

Lemma perform_keeps o e : keeps consistent (fun _ => True) (perform o e).
Proof.
  destruct o; simpl.
  - apply loadTodos_keeps.
  - apply addTodo_keeps.
  - apply updateTodo_keeps.
  - apply toggleTodoComplete_keeps.
  - apply deleteTodo_keeps.
  - apply deleteCompletedTodos_keeps.
  - apply setError_keeps.
  - apply setIsOnline_keeps.
  - apply setIsOnline_keeps.
Qed.

Lemma initial_consistent onLine ls : consistent (initial onLine ls).
Proof. split; [constructor|reflexivity]. Qed.

Lemma run_consistent script w : consistent w -> consistent (run script w).
Proof.
  revert w. induction script as [|[o e] script IH]; simpl; intros w Hw; [exact Hw|].
  apply IH. apply (perform_keeps o e w Hw).
Qed.

Lemma reachable_consistent w : reachable w -> consistent w.
Proof.
  intros (script & onLine & ls & ->). apply run_consistent, initial_consistent.
Qed.

(** *** loadTodos *)

Lemma withId_inv x y : withId x = Ok y -> live x /\ y = identified x.
Proof.
  unfold withId, identified, or_else.
  destruct (get_prop x "_id") as [a|] eqn:Ha; simpl; [|discriminate].
  apply get_prop_inv in Ha as [Hx ->]. 
  destruct (truthy (prop x "_id")); simpl.
  - intros [= <-]. auto.
  - rewrite (get_prop_ok _ _ Hx). simpl. intros [= <-]. auto.
Qed.

Lemma withId_pure x : live x -> withId x = Ok (identified x).
Proof.
  intros Hx. unfold withId, identified, or_else.
  rewrite (get_prop_ok _ _ Hx). simpl.
  destruct (truthy (prop x "_id")); simpl; [reflexivity|].
  rewrite (get_prop_ok _ _ Hx). reflexivity.
Qed.

Lemma hasValidId_pure t : live t -> hasValidId t = Ok (resolvable t).
Proof. intros Ht. unfold hasValidId, resolvable. rewrite (get_prop_ok _ _ Ht). reflexivity. Qed.

Lemma hasValidId_inv t b : hasValidId t = Ok b -> b = resolvable t.
Proof.
  unfold hasValidId, resolvable. destruct (get_prop t "id") eqn:H; simpl; [|discriminate].
  apply get_prop_inv in H as [_ ->]. intros [= <-]. reflexivity.
Qed.

Lemma filterM_accepts (p : value -> result bool) (q : value -> bool) l l' :
  (forall x b, p x = Ok b -> b = q x) ->
  filterM p l = Ok l' -> Forall (fun x => q x = true) l'.
Proof.
  intros Hp. revert l'. induction l as [|x l IH]; simpl; intros l' H.
  - inversion H. constructor.
  - destruct (p x) as [b|] eqn:Hb; simpl in H; [|discriminate].
    destruct (filterM p l) as [ys|]; simpl in H; [|discriminate].
    inversion H; subst. apply Hp in Hb. destruct b; [constructor|]; auto.
Qed.

Lemma normalize_shown l t valid :
  mapM withId l = Ok t -> filterM hasValidId t = Ok valid -> shown valid.
Proof.
  intros Ht Hv. unfold shown. apply Forall_and. split.
  - eapply filterM_accepts; [|exact Hv]. apply hasValidId_inv.
  - eapply filterM_Forall; [|exact Hv].
    eapply mapM_Forall; [apply Forall_True| |exact Ht].
    intros x y _ H. apply withId_inv in H as [_ ->]. eauto.
Qed.

Lemma shown_live l : shown l -> no_nullish l.
Proof.
  intros H. eapply Forall_impl; [exact H|]. intros t [_ [raw ->]]. reflexivity.
Qed.

Lemma normalized_pure l :
  no_nullish l ->
  mapM withId l = Ok (map identified l) /\
  filterM hasValidId (map identified l) = Ok (normalized l).
Proof.
  intros Hl. split.
  - apply mapM_pure. eapply Forall_impl; [exact Hl|]. intros x. apply withId_pure.
  - apply filterM_pure. apply Forall_forall. intros t Ht.
    apply list_elem_of_In, in_map_iff in Ht as (raw & <- & _). apply hasValidId_pure. reflexivity.
Qed.

Lemma showTodos_cases d w :
  (exists valid, shown valid /\ showTodos d w = (Ok tt, showing valid w)) \/
  (exists e, showTodos d w = (Throw e, w)).
Proof.
  unfold showTodos, bind, liftR, setStats, setTodos, modify.
  destruct (as_array d) as [l|]; simpl; [|eauto].
  destruct (mapM withId l) as [t|] eqn:Ht; simpl; [|eauto].
  destruct (filterM hasValidId t) as [valid|] eqn:Hv; simpl; [|eauto].
  pose proof (normalize_shown _ _ _ Ht Hv) as Hs.
  rewrite (calculateStats_pure _ (shown_live _ Hs)). simpl.
  left. exists valid. split; [exact Hs|reflexivity].
Qed.

Lemma showTodos_pure l w :
  no_nullish l -> showTodos (VArr l) w = (Ok tt, showing (normalized l) w).
Proof.
  intros Hl. destruct (normalized_pure l Hl) as [H1 H2].
  unfold showTodos, bind, liftR, setStats, setTodos, modify. simpl.
  rewrite H1. simpl. rewrite H2. simpl.
  rewrite calculateStats_pure; [reflexivity|].
  apply no_nullish_filter. apply Forall_forall. intros t Ht.
  apply list_elem_of_In, in_map_iff in Ht as (raw & <- & _). reflexivity.
Qed.

Lemma getStatsFromAPI_state e w : exists r, getStatsFromAPI e w = (r, w).
Proof.
  unfold getStatsFromAPI, try_catch, bind, liftR, gets.
  destruct (api e Api.getTodoStats) as [response|]; simpl.
  - destruct (get_prop response "data"); simpl; [eauto|].
    destruct (calculateStats _); simpl; eauto.
  - destruct (calculateStats _); simpl; eauto.
Qed.

Lemma syncTodosWithStorage_ok c d ls :
  exists ls', syncTodosWithStorage c d ls = (Ok tt, ls').
Proof.
  unfold syncTodosWithStorage, try_catch, bind, liftR.
  rewrite saveTodosToStorage_eq.
  destruct (calculateStats d); simpl; [rewrite saveStatsToStorage_eq|]; eauto.
Qed.

Lemma loadTodos_unfold e :
  loadTodos e =
  (setLoading true ;; setError None ;;
   try_finally (try_catch (loadTodos_try e) (fun _ => loadTodos_catch))
               (setLoading false)).
Proof. reflexivity. Qed.

Lemma from_cache_eq (k : M world unit) w :
  (todosData <- onStorage getTodosFromStorage ;;
   statsData <- onStorage getStatsFromStorage ;;
   showTodos todosData ;; k) w
  = (showTodos (cachedTodos (localStorage w)) ;; k) w.
Proof.
  unfold bind at 1 2, onStorage.
  rewrite getTodosFromStorage_eq. simpl. rewrite getStatsFromStorage_eq. simpl.
  destruct w; reflexivity.
Qed.

Lemma loadTodos_catch_eq w :
  loadTodos_catch w =
  (showTodos (cachedTodos (localStorage w)) ;;
   setError (Some "Using offline data. Some features may be limited.")) w.
Proof. apply from_cache_eq. Qed.

Lemma loadTodos_try_offline e w :
  isOnline w = false ->
  loadTodos_try e w = showTodos (cachedTodos (localStorage w)) w.
Proof.
  intros H. unfold loadTodos_try. unfold bind at 1, gets. rewrite H.
  unfold bind at 1 2, onStorage.
  rewrite getTodosFromStorage_eq. simpl. rewrite getStatsFromStorage_eq. simpl.
  destruct w; reflexivity.
Qed.

(** The [try] block either gets through with a shown list, or throws with
    the state as it was. *)
Lemma bind_same_state {S A B} (m : M S A) (k : A -> M S B) s r :
  m s = (r, s) ->
  bind m k s = match r with Ok a => k a s | Throw x => (Throw x, s) end.
Proof. intros H. unfold bind. rewrite H. destruct r; reflexivity. Qed.

Lemma loadTodos_try_cases e w :
  (exists valid ls, shown valid /\
     loadTodos_try e w =
       (Ok tt, mkWorld valid (countStats valid) (loading w) (error w)
                       (isOnline w) ls)) \/
  (exists x, loadTodos_try e w = (Throw x, w)).
Proof.
  destruct (isOnline w) eqn:Hon.
  - unfold loadTodos_try.
    rewrite (bind_same_state _ _ w (Ok true)) by (unfold gets; rewrite Hon; reflexivity).
    rewrite (bind_same_state _ _ w (api e Api.getAllTodos)) by reflexivity.
    destruct (api e Api.getAllTodos) as [response|]; [|eauto].
    rewrite (bind_same_state _ _ w (get_prop response "data")) by reflexivity.
    destruct (get_prop response "data") as [d|]; [|eauto].
    rewrite (bind_same_state _ _ w (get_prop response "pagination")) by reflexivity.
    destruct (get_prop response "pagination") as [pagination|]; [|eauto].
    assert (Hs : exists r, (if truthy pagination
              then s <- liftR (calculateStats (or_else d (VArr []))) ;; ret (stats_object s)
              else getStatsFromAPI e) w = (r, w)).
    { destruct (truthy pagination); [|apply getStatsFromAPI_state].
      unfold bind, liftR, ret. destruct (calculateStats _); eauto. }
    destruct Hs as [r Hr]. rewrite (bind_same_state _ _ w r Hr).
    destruct r as [statsData|x]; [|eauto].
    unfold bind.
    destruct (showTodos_cases (or_else d (VArr [])) w) as [(valid & Hv & ->)|[x ->]]; [|eauto].
    unfold onStorage. simpl.
    destruct (syncTodosWithStorage_ok (rt e) (or_else d (VArr [])) (localStorage w)) as [ls' ->].
    left. exists valid, ls'. split; [exact Hv|]. simpl. rewrite Hon. reflexivity.
  - rewrite (loadTodos_try_offline e w Hon).
    destruct (showTodos_cases (cachedTodos (localStorage w)) w) as [(valid & Hv & ->)|[x ->]]; [|eauto].
    left. exists valid, (localStorage w). split; [exact Hv|].
    unfold showing. rewrite Hon. reflexivity.
Qed.

Lemma shown_consistent l : shown l -> calculateStats (VArr l) = Ok (countStats l).
Proof. intros H. apply calculateStats_pure, shown_live, H. Qed.

Lemma loadTodos_eq e w :
  loadTodos e w =
  match loadTodos_try e (loading_started w) with
  | (Ok a, s) => (Ok a, loaded s)
  | (Throw _, s) =>
      match loadTodos_catch s with
      | (r, s') => (r, loaded s')
      end
  end.
Proof.
  rewrite loadTodos_unfold.
  unfold bind at 1, setLoading, modify. unfold bind at 1, setError, modify.
  unfold try_finally, try_catch, loading_started. simpl.
  destruct (loadTodos_try e _) as [[[]|x] s]; [reflexivity|].
  destruct (loadTodos_catch s) as [r s']. reflexivity.
Qed.

Lemma loadTodos_cases e w :
  (exists valid ls err, shown valid /\
     loadTodos e w =
       (Ok tt, mkWorld valid (countStats valid) false err (isOnline w) ls)) \/
  (exists x w', loadTodos e w = (Throw x, w') /\
     forall l, ~ cache_holds (localStorage w) l).
Proof.
  rewrite loadTodos_eq.
  destruct (loadTodos_try_cases e (loading_started w)) as [(valid & ls & Hv & ->)|[x ->]].
  - left. exists valid, ls, None. split; [exact Hv|reflexivity].
  - rewrite loadTodos_catch_eq. unfold bind.
    destruct (showTodos_cases (cachedTodos (localStorage (loading_started w)))
                (loading_started w)) as [(valid & Hv & ->)|[y Hy]].
    + left. exists valid, (localStorage w), (Some "Using offline data. Some features may be limited.").
      split; [exact Hv|reflexivity].
    + right. rewrite Hy. exists y, (loaded (loading_started w)). split; [reflexivity|].
      intros l [Hc Hl]. simpl in Hy. rewrite Hc in Hy.
      rewrite (showTodos_pure _ _ Hl) in Hy. discriminate.
Qed.

Lemma getStatsFromAPI_ok e w :
  no_nullish (todos w) -> exists v, getStatsFromAPI e w = (Ok v, w).
Proof.
  intros Hn. unfold getStatsFromAPI, try_catch, bind, liftR, gets.
  destruct (api e Api.getTodoStats) as [response|]; simpl;
    try destruct (get_prop response "data"); simpl;
    try rewrite (calculateStats_pure _ Hn); simpl; eauto.
Qed.

(** *** localStorage.js on a cache that holds a list of records *)

Lemma matches_id_pure id r : live r -> matches_id id r = Ok (answers id r).
Proof.
  intros Hr. unfold matches_id, answers. rewrite (get_prop_ok _ _ Hr). simpl.
  destruct (strict_eq_str (prop r "id") id); [reflexivity|].
  rewrite (get_prop_ok _ _ Hr). reflexivity.
Qed.

Lemma differs_id_pure id r : live r -> differs_id id r = Ok (negb (answers id r)).
Proof.
  intros Hr. unfold differs_id, answers, strict_neq_str.
  rewrite (get_prop_ok _ _ Hr). simpl.
  destruct (strict_eq_str (prop r "id") id); simpl; [reflexivity|].
  rewrite (get_prop_ok _ _ Hr). reflexivity.
Qed.

Lemma findIndexM_pure id l :
  no_nullish l -> findIndexM (matches_id id) l = Ok (firstAnswering id l).
Proof.
  induction 1 as [|r l Hr _ IH]; simpl; [reflexivity|].
  rewrite (matches_id_pure _ _ Hr). simpl.
  destruct (answers id r); [reflexivity|]. rewrite IH. reflexivity.
Qed.

Lemma firstAnswering_Some id l i :
  firstAnswering id l = Some i ->
  exists old, l !! i = Some old /\ answers id old = true.
Proof.
  revert i. induction l as [|r l IH]; simpl; intros i H; [discriminate|].
  destruct (answers id r) eqn:Hr.
  - inversion H; subst. eauto.
  - destruct (firstAnswering id l) as [j|]; simpl in H; [|discriminate].
    inversion H; subst. apply IH. reflexivity.
Qed.

Lemma firstAnswering_None id l :
  firstAnswering id l = None <-> Forall (fun r => answers id r = false) l.
Proof.
  induction l as [|r l IH]; simpl.
  - split; [constructor|reflexivity].
  - destruct (answers id r) eqn:Hr.
    + split; [discriminate|]. intros H. inversion H; congruence.
    + destruct (firstAnswering id l); simpl.
      * split; [discriminate|]. intros H. inversion H; subst.
        apply IH in H3. discriminate.
      * split; [|reflexivity]. intros _. constructor; [exact Hr|]. apply IH. reflexivity.
Qed.

Lemma patched_pure c old d : live old -> patched c old d = Ok (patchedWith c old d).
Proof.
  intros Ho. unfold patched, patchedWith, or_else. rewrite (get_prop_ok _ _ Ho). simpl.
  destruct (truthy (prop old "id")); simpl; [reflexivity|].
  rewrite (get_prop_ok _ _ Ho). reflexivity.
Qed.


Lemma save_both_then {A} c l ls (k : M storage A) :
  no_nullish l ->
  (saveTodosToStorage c (VArr l) ;;
   stats <- liftR (calculateStats (VArr l)) ;;
   saveStatsToStorage c stats ;; k) ls = k (saved c l ls).
Proof.
  intros Hl. unfold bind at 1. rewrite saveTodosToStorage_eq.
  unfold bind at 1, liftR. rewrite (calculateStats_pure _ Hl).
  unfold bind. rewrite saveStatsToStorage_eq. reflexivity.
Qed.

Lemma addTodoToStorage_pure c todo ls l :
  cache_holds ls l -> live todo ->
  addTodoToStorage c todo ls =
    (Ok (created c todo), saved c (l ++ [created c todo]) ls).
Proof.
  intros [Hc Hl] Ht. unfold addTodoToStorage, try_catch.
  rewrite (bind_same_state _ _ _ _ (getTodosFromStorage_eq ls)).
  rewrite (bind_same_state _ _ _ (get_prop todo "id")) by reflexivity.
  rewrite (get_prop_ok _ _ Ht).
  rewrite (bind_same_state _ _ _ (get_prop todo "createdAt")) by reflexivity.
  rewrite (get_prop_ok _ _ Ht).
  rewrite (bind_same_state _ _ _ (as_array (cachedTodos ls))) by reflexivity.
  rewrite Hc. simpl as_array. cbv iota.
  rewrite save_both_then; [reflexivity|].
  apply Forall_app. split; [exact Hl|]. constructor; [reflexivity|constructor].
Qed.

Lemma updateTodoInStorage_found c id d ls l i old :
  cache_holds ls l -> firstAnswering id l = Some i -> l !! i = Some old ->
  updateTodoInStorage c id d ls =
    (Ok (patchedWith c old d), saved c (<[i := patchedWith c old d]> l) ls).
Proof.
  intros [Hc Hl] Hi Ho. unfold updateTodoInStorage, try_catch.
  rewrite (bind_same_state _ _ _ _ (getTodosFromStorage_eq ls)).
  rewrite (bind_same_state _ _ _ (as_array (cachedTodos ls))) by reflexivity.
  rewrite Hc. simpl as_array. cbv iota.
  rewrite (bind_same_state _ _ _ (findIndexM (matches_id id) l)) by reflexivity.
  rewrite (findIndexM_pure _ _ Hl), Hi. rewrite Ho. simpl default.
  assert (Hlive : live old).
  { unfold no_nullish in Hl. rewrite Forall_lookup in Hl. apply (Hl i), Ho. }
  rewrite (bind_same_state _ _ _ (patched c old d)) by reflexivity.
  rewrite (patched_pure _ _ _ Hlive).
  rewrite save_both_then; [reflexivity|].
  apply Forall_insert; [exact Hl|reflexivity].
Qed.

Lemma updateTodoInStorage_missing c id d ls l :
  cache_holds ls l -> firstAnswering id l = None ->
  updateTodoInStorage c id d ls =
    (Throw (Error "Todo not found in localStorage"), ls).
Proof.
  intros [Hc Hl] Hi. unfold updateTodoInStorage, try_catch.
  rewrite (bind_same_state _ _ _ _ (getTodosFromStorage_eq ls)).
  rewrite (bind_same_state _ _ _ (as_array (cachedTodos ls))) by reflexivity.
  rewrite Hc. simpl as_array. cbv iota.
  rewrite (bind_same_state _ _ _ (findIndexM (matches_id id) l)) by reflexivity.
  rewrite (findIndexM_pure _ _ Hl), Hi. reflexivity.
Qed.

Lemma filter_all {A} (q : A -> bool) l :
  Forall (fun x => q x = true) l -> List.filter q l = l.
Proof. induction 1 as [|x l Hx _ IH]; simpl; [reflexivity|]. rewrite Hx, IH. reflexivity. Qed.

Lemma filter_length_lt {A} (q : A -> bool) l :
  Exists (fun x => q x = false) l -> (List.length (List.filter q l) < List.length l)%nat.
Proof.
  induction 1 as [x l Hx|x l _ IH]; simpl.
  - rewrite Hx. pose proof (filter_length_le q l). lia.
  - destruct (q x); simpl; lia.
Qed.

Lemma deleteTodoFromStorage_missing c id ls l :
  cache_holds ls l -> Forall (fun r => answers id r = false) l ->
  deleteTodoFromStorage c id ls =
    (Throw (Error "Todo not found in localStorage"), ls).
Proof.
  intros [Hc Hl] Hno. unfold deleteTodoFromStorage, try_catch.
  rewrite (bind_same_state _ _ _ _ (getTodosFromStorage_eq ls)).
  rewrite (bind_same_state _ _ _ (as_array (cachedTodos ls))) by reflexivity.
  rewrite Hc. simpl as_array. cbv iota.
  rewrite (bind_same_state _ _ _ (filterM (differs_id id) l)) by reflexivity.
  rewrite (filterM_pure _ (fun r => negb (answers id r))).
  2:{ eapply Forall_impl; [exact Hl|]. intros r. apply differs_id_pure. }
  rewrite filter_all.
  2:{ eapply Forall_impl; [exact Hno|]. intros r ->. reflexivity. }
  rewrite Nat.eqb_refl. reflexivity.
Qed.

Lemma deleteTodoFromStorage_found c id ls l :
  cache_holds ls l -> Exists (fun r => answers id r = true) l ->
  deleteTodoFromStorage c id ls = (Ok true, saved c (others id l) ls).
Proof.
  intros [Hc Hl] Hex. unfold deleteTodoFromStorage, try_catch.
  rewrite (bind_same_state _ _ _ _ (getTodosFromStorage_eq ls)).
  rewrite (bind_same_state _ _ _ (as_array (cachedTodos ls))) by reflexivity.
  rewrite Hc. simpl as_array. cbv iota.
  rewrite (bind_same_state _ _ _ (filterM (differs_id id) l)) by reflexivity.
  rewrite (filterM_pure _ (fun r => negb (answers id r))).
  2:{ eapply Forall_impl; [exact Hl|]. intros r. apply differs_id_pure. }
  fold (others id l).
  assert (Hlt : (List.length (others id l) < List.length l)%nat).
  { apply filter_length_lt. eapply Exists_impl; [exact Hex|]. intros r ->. reflexivity. }
  destruct (Nat.eqb_spec (List.length (others id l)) (List.length l)) as [Heq|_]; [lia|].
  simpl negb. cbv iota.
  assert (Ho : no_nullish (others id l)) by (apply no_nullish_filter, Hl).
  cbn [negb]. rewrite (save_both_then _ _ _ _ Ho). reflexivity.
Qed.

(** *** The updaters, where they cannot throw *)

Lemma updateTodos_pure f updated w :
  f (todos w) = Ok updated -> no_nullish updated ->
  updateTodos f w =
    (Ok tt, mkWorld updated (countStats updated) (loading w) (error w)
                    (isOnline w) (localStorage w)).
Proof.
  intros Hf Hu. unfold updateTodos, bind, gets, liftR, setStats, setTodos, modify.
  rewrite Hf. simpl. rewrite (calculateStats_pure _ Hu). reflexivity.
Qed.


Lemma withoutId_pure id l : no_nullish l -> withoutId id l = Ok (without id l).
Proof.
  intros Hl. unfold withoutId, without. apply filterM_pure.
  eapply Forall_impl; [exact Hl|]. intros t Ht. rewrite (get_prop_ok _ _ Ht). reflexivity.
Qed.

Lemma notCompleted_pure l : no_nullish l -> notCompleted l = Ok (pendingOnly l).
Proof.
  intros Hl. unfold notCompleted, pendingOnly. apply filterM_pure.
  eapply Forall_impl; [exact Hl|]. intros t Ht. unfold done.
  rewrite (get_prop_ok _ _ Ht). reflexivity.
Qed.


(** *** deleteTodo, offline *)

Lemma filterM_differs_no_match id l l' :
  Forall (fun r => answers id r = false) l ->
  filterM (differs_id id) l = Ok l' -> l' = l.
Proof.
  intros Hno. revert l'. induction Hno as [|r l Hr _ IH]; simpl; intros l' H.
  - inversion H. reflexivity.
  - destruct (differs_id id r) as [b|] eqn:Hb; simpl in H; [|discriminate].
    destruct (filterM (differs_id id) l) as [ys|]; simpl in H; [|discriminate].
    assert (b = true) as ->.
    { destruct (is_nullish r) eqn:Hn.
      - destruct r; try discriminate Hn; discriminate Hb.
      - rewrite (differs_id_pure _ _ Hn), Hr in Hb. simpl in Hb. congruence. }
    inversion H; subst. f_equal. apply IH. reflexivity.
Qed.

Lemma deleteTodoFromStorage_no_match c id ls :
  Forall (fun r => answers id r = false) (cachedRecords ls) ->
  exists x, deleteTodoFromStorage c id ls = (Throw x, ls).
Proof.
  intros Hno. unfold deleteTodoFromStorage, try_catch.
  rewrite (bind_same_state _ _ _ _ (getTodosFromStorage_eq ls)).
  rewrite (bind_same_state _ _ _ (as_array (cachedTodos ls))) by reflexivity.
  unfold cachedRecords in Hno.
  destruct (cachedTodos ls) as [| | | | |l|]; simpl; eauto.
  rewrite (bind_same_state _ _ _ (filterM (differs_id id) l)) by reflexivity.
  destruct (filterM (differs_id id) l) as [l'|] eqn:Hf; [|eauto].
  apply (filterM_differs_no_match _ _ _ Hno) in Hf as ->.
  rewrite Nat.eqb_refl. simpl. eauto.
Qed.

Lemma deleteTodo_offline_eq e id w :
  isOnline w = false ->
  deleteTodo e id w =
  match deleteTodoFromStorage (rt e) id (localStorage w) with
  | (Ok _, ls) =>
      match updateTodos (withoutId id)
              (mkWorld (todos w) (stats w) (loading w) None false ls) with
      | (Ok a, s) => (Ok a, s)
      | (Throw _, s) =>
          (Ok tt, with_error (Some "Failed to delete todo. Please try again.") s)
      end
  | (Throw _, ls) =>
      (Ok tt, mkWorld (todos w) (stats w) (loading w)
                      (Some "Failed to delete todo. Please try again.") false ls)
  end.
Proof.
  intros Hoff. unfold deleteTodo.
  unfold bind at 1, setError at 1, modify. unfold try_catch.
  unfold bind at 1, gets. simpl. rewrite Hoff.
  unfold bind at 1, onStorage. simpl.
  destruct (deleteTodoFromStorage (rt e) id (localStorage w)) as [[b|x] ls];
    [|reflexivity].
  destruct (updateTodos _ _) as [[[]|x] s]; reflexivity.
Qed.


Lemma answers_jsonify id r : answers id (jsonify r) = answers id r.
Proof.
  assert (H : forall k, strict_eq_str (prop (jsonify r) k) id
                        = strict_eq_str (prop r k) id).
  { intros k. destruct r; simpl; try reflexivity.
    rewrite lookup_omap. destruct (o !! k) as [[]|]; reflexivity. }
  unfold answers. rewrite !H. reflexivity.
Qed.

Lemma cachedTodos_kept_stats c x ls :
  cachedTodos (kept c STATS_KEY x ls) = cachedTodos ls.
Proof. unfold cachedTodos. rewrite kept_other by discriminate. reflexivity. Qed.

(** What the todos entry reads after the two writes: the new list when
    the browser took it, the old entry otherwise. *)
Lemma cachedTodos_after c l ls :
  cachedTodos (saved c l ls) =
    if accepts c ls STORAGE_KEY (JSON_stringify (VArr l))
    then jsonify (VArr l) else cachedTodos ls.
Proof.
  unfold saved. rewrite cachedTodos_kept_stats. unfold kept.
  destruct (accepts c ls _ _); [|reflexivity].
  unfold cachedTodos. rewrite lookup_insert_eq. reflexivity.
Qed.

Lemma cachedTodos_after_write c l' ls l :
  cache_holds ls l ->
  cachedTodos (saved c l' ls) =
    if takes c ls l' then jsonify (VArr l') else VArr l.
Proof. intros [Hc _]. rewrite cachedTodos_after, Hc. reflexivity. Qed.

Lemma cachedRecords_written c id l ls :
  takes c ls l = true ->
  no_nullish l -> Forall (fun r => answers id r = false) l ->
  Forall (fun r => answers id r = false) (cachedRecords (saved c l ls)).
Proof.
  intros Ha Hl Hno. unfold cachedRecords. rewrite cachedTodos_after.
  unfold takes in Ha. rewrite Ha. simpl.
  apply Forall_forall. intros r Hr.
  apply list_elem_of_In, in_map_iff in Hr as (x & <- & Hx).
  unfold no_nullish in Hl. rewrite Forall_forall in Hl, Hno.
  apply list_elem_of_In in Hx. specialize (Hl x Hx). specialize (Hno x Hx).
  assert (Hj : match x with VUndefined => VNull | _ => jsonify x end = jsonify x)
    by (destruct x; try discriminate; reflexivity).
  rewrite Hj, answers_jsonify. exact Hno.
Qed.

Lemma cachedRecords_saved c id l ls :
  roomy c -> no_nullish l -> Forall (fun r => answers id r = false) l ->
  Forall (fun r => answers id r = false) (cachedRecords (saved c l ls)).
Proof. intros Hc. apply cachedRecords_written, Hc. Qed.

Lemma others_no_match id l : Forall (fun r => answers id r = false) (others id l).
Proof.
  apply Forall_forall. intros r Hr. apply list_elem_of_In, filter_In in Hr as [_ Hr].
  destruct (answers id r); [discriminate|reflexivity].
Qed.

(** *** deleteCompletedTodos *)

Lemma deleteCompletedTodos_done e w :
  no_nullish (todos w) ->
  (isOnline w = true -> is_ok (api e Api.deleteCompletedTodos) = true) ->
  deleteCompletedTodos e w =
    (Ok tt, updated_world (pendingOnly (todos w))
              (saved (rt e) (pendingOnly (todos w)) (localStorage w)) w).
Proof.
  intros Hn Hapi. unfold deleteCompletedTodos.
  unfold bind at 1, gets. unfold bind at 1, setError at 1, modify. unfold try_catch.
  unfold bind at 1, gets. simpl.
  assert (Hp : no_nullish (pendingOnly (todos w))) by (apply no_nullish_filter, Hn).
  destruct (isOnline w) eqn:Hon.
  - specialize (Hapi eq_refl).
    unfold bind at 1, liftR at 1.
    destruct (api e Api.deleteCompletedTodos) as [response|]; [|discriminate].
    unfold bind at 1.
    rewrite (updateTodos_pure _ (pendingOnly (todos w)))
      by (simpl; auto using notCompleted_pure).
    unfold bind, liftR. rewrite (notCompleted_pure _ Hn).
    unfold onStorage. rewrite saveTodosToStorage_eq. simpl.
    rewrite (calculateStats_pure _ Hp). rewrite saveStatsToStorage_eq.
    unfold updated_world. rewrite Hon. reflexivity.
  - unfold bind, liftR. rewrite (notCompleted_pure _ Hn).
    unfold onStorage. rewrite saveTodosToStorage_eq. simpl.
    rewrite (calculateStats_pure _ Hp). rewrite saveStatsToStorage_eq.
    unfold updated_world. rewrite Hon. reflexivity.
Qed.

Lemma deleteCompletedTodos_failed e w x :
  isOnline w = true -> api e Api.deleteCompletedTodos = Throw x ->
  deleteCompletedTodos e w =
    (Ok tt, with_error
              (Some "Failed to delete completed todos. Please try again.") w).
Proof.
  intros Hon Hx. unfold deleteCompletedTodos.
  unfold bind at 1, gets. unfold bind at 1, setError at 1, modify. unfold try_catch.
  unfold bind at 1, gets. simpl. rewrite Hon.
  unfold bind at 1, liftR at 1. rewrite Hx.
  unfold with_error. rewrite Hon. reflexivity.
Qed.

Lemma pendingOnly_none_done l : Forall (fun t => done t = false) (pendingOnly l).
Proof.
  apply Forall_forall. intros t Ht. apply list_elem_of_In, filter_In in Ht as [_ Ht].
  destruct (done t); [discriminate|reflexivity].
Qed.

Lemma pendingOnly_fixed l :
  Forall (fun t => done t = false) l -> pendingOnly l = l.
Proof.
  intros H. apply filter_all. eapply Forall_impl; [exact H|]. intros t ->. reflexivity.
Qed.

Lemma none_done_count l :
  Forall (fun t => done t = false) l -> completed (countStats l) = 0.
Proof.
  intros H. unfold countStats. simpl.
  replace (List.filter done l) with (@nil value); [reflexivity|].
  induction H as [|t l Ht _ IH]; simpl; [reflexivity|]. rewrite Ht. exact IH.
Qed.

(** *** toggleTodoComplete and updateTodo, offline *)










(** *** The backend's validation, seen through the client *)




Lemma jsonify_text s :
  get_prop (jsonify (obj [("text", VStr s)])) "text" = Ok (VStr s).
Proof.
  unfold obj. simpl. rewrite lookup_omap, lookup_insert_eq. reflexivity.
Qed.







Lemma updateTodo_online_rejected e id d w x :
  isOnline w = true -> api e (Api.updateTodo id d) = Throw x ->
  updateTodo e id d w =
    (Ok tt, with_error (Some "Failed to update todo. Please try again.") w).
Proof.
  destruct w as [ts st lo er on ls0]. simpl. intros -> Hx.
  unfold updateTodo.
  unfold bind at 1, setError at 1, modify. unfold try_catch.
  unfold bind at 1, gets. simpl.
  unfold bind at 1, liftR at 1. rewrite Hx. reflexivity.
Qed.

(* ===================================================================== *)
(** ** The claims *)
(* ===================================================================== *)

(** Two facts about the sample caches, used by the instances below. *)
Lemma sample_cache_holds : cache_holds (cache_of sample_record) [sample_record].
Proof. split; [vm_compute; reflexivity|repeat constructor]. Defined.


(* --------------------------------------------------------------------- *)

(** C1.  After every script of operations (load, add, update, toggle,
    remove, removeCompleted, clearError and the two connectivity events),
    whatever the remote, the runtime and the cache do, the statistics shown
    are exactly what [calculateStats] computes from the list shown, and
    [total = completed + pending]. *)
Theorem stats_always_recomputed (script : list (op * env)) (onLine : bool) (ls : storage) :
  let w := run script (initial onLine ls) in
  calculateStats (VArr (todos w)) = Ok (stats w) /\
  total (stats w) = completed (stats w) + pending (stats w).
Proof.
  intros w.
  destruct (run_consistent script _ (initial_consistent onLine ls)) as [_ H].
  fold w in H. split; [exact H|].
  apply calculateStats_inv in H as (l & _ & H). exact H.
Qed.

(* --------------------------------------------------------------------- *)

(** C2.  Whenever [loadTodos] returns normally, on any of its three paths,
    every entry it shows has a truthy [id] other than the text
    ["undefined"] and is a source entry with its [_id], when truthy,
    copied onto [id]; and the statistics are [calculateStats] of the list
    shown.  It does return normally whenever the cache holds a list of
    records (a missing or unparseable entry counts as the empty list). *)
Theorem load_shows_resolvable_items (e : env) (w : world) :
  let r := loadTodos e w in
  (forall l, cache_holds (localStorage w) l -> r.1 = Ok tt) /\
  (r.1 = Ok tt ->
     Forall (fun t => resolvable t = true /\ exists raw, t = identified raw)
            (todos r.2) /\
     calculateStats (VArr (todos r.2)) = Ok (stats r.2)).
Proof.
  simpl.
  destruct (loadTodos_cases e w) as [(valid & ls & err & Hv & ->)|(x & w' & -> & Hc)]; simpl.
  - split; [reflexivity|]. intros _. split; [exact Hv|apply shown_consistent, Hv].
  - split; [|discriminate]. intros l Hl. destruct (Hc l Hl).
Qed.

Lemma load_shows_resolvable_items_witness :
  (loadTodos sample_env (sample_world false)).1 = Ok tt /\
  Forall (fun t => resolvable t = true /\ exists raw, t = identified raw)
         (todos (loadTodos sample_env (sample_world false)).2) /\
  calculateStats (VArr (todos (loadTodos sample_env (sample_world false)).2))
    = Ok (stats (loadTodos sample_env (sample_world false)).2).
Proof.
  pose proof (load_shows_resolvable_items sample_env (sample_world false)) as H.
  cbv zeta in H. destruct H as [H1 H2].
  assert (Hok := H1 [sample_record] sample_cache_holds).
  split; [exact Hok|exact (H2 Hok)].
Defined.

(* --------------------------------------------------------------------- *)

(** C3, counterexample.  Offline, with an empty cache, [loadTodos] returns
    normally and leaves the error cleared: no advisory is set. *)
Lemma offline_load_sets_no_advisory :
  isOnline (initial false ∅) = false /\
  (loadTodos sample_env (initial false ∅)).1 = Ok tt /\
  error (loadTodos sample_env (initial false ∅)).2 = None /\
  error (loadTodos sample_env (initial false ∅)).2 <> Some offline_advisory.
Proof. vm_compute. repeat split; discriminate. Qed.

(** C3, as amended.  With a cache that holds the list [l] of records:
    offline, [loadTodos] returns normally, shows [normalized l] and leaves
    the error cleared; online with a failing fetch it returns normally,
    shows [normalized l] and sets the offline advisory; and the online
    path, when the fetch answers the list [l'], shows [normalized l']:
    the same normalisation on all paths. *)
Theorem load_degrades_to_cache (e : env) (w : world) (l : list value) :
  cache_holds (localStorage w) l ->
  (isOnline w = false ->
     loadTodos e w =
       (Ok tt, mkWorld (normalized l) (countStats (normalized l)) false None
                       false (localStorage w))) /\
  (isOnline w = true ->
   forall x, api e Api.getAllTodos = Throw x ->
     loadTodos e w =
       (Ok tt, mkWorld (normalized l) (countStats (normalized l)) false
                       (Some offline_advisory) true (localStorage w))) /\
  (isOnline w = true ->
   forall response l', api e Api.getAllTodos = Ok response ->
     get_prop response "data" = Ok (VArr l') ->
     no_nullish l' -> no_nullish (todos w) ->
     (loadTodos e w).1 = Ok tt /\
     todos (loadTodos e w).2 = normalized l' /\
     error (loadTodos e w).2 = None).
Proof.
  intros [Hc Hl]. split; [|split].
  - intros Hoff. rewrite loadTodos_eq.
    rewrite loadTodos_try_offline by exact Hoff. simpl. rewrite Hc.
    rewrite (showTodos_pure _ _ Hl). unfold showing, loaded. simpl.
    rewrite Hoff. reflexivity.
  - intros Hon x Hx. rewrite loadTodos_eq.
    assert (Ht : loadTodos_try e (loading_started w) = (Throw x, loading_started w)).
    { unfold loadTodos_try.
      rewrite (bind_same_state _ _ _ (Ok true)) by (unfold gets; simpl; rewrite Hon; reflexivity).
      rewrite (bind_same_state _ _ _ (api e Api.getAllTodos)) by reflexivity.
      rewrite Hx. reflexivity. }
    rewrite Ht. rewrite loadTodos_catch_eq. unfold bind. simpl. rewrite Hc.
    rewrite (showTodos_pure _ _ Hl). unfold showing, loaded. simpl.
    rewrite Hon. reflexivity.
  - intros Hon response l' Hr Hd Hl' Hn. rewrite loadTodos_eq.
    assert (Ht : exists ls, loadTodos_try e (loading_started w) =
                   (Ok tt, mkWorld (normalized l') (countStats (normalized l')) true None
                                   (isOnline w) ls)).
    { unfold loadTodos_try.
      rewrite (bind_same_state _ _ _ (Ok true)) by (unfold gets; simpl; rewrite Hon; reflexivity).
      rewrite (bind_same_state _ _ _ (api e Api.getAllTodos)) by reflexivity.
      rewrite Hr.
      rewrite (bind_same_state _ _ _ (get_prop response "data")) by reflexivity.
      rewrite Hd.
      rewrite (bind_same_state _ _ _ (get_prop response "pagination")) by reflexivity.
      destruct (get_prop response "pagination") as [pagination|] eqn:Hp.
      2:{ destruct response; simpl in *; discriminate. }
      assert (Hs : exists v, (if truthy pagination
                then s <- liftR (calculateStats (or_else (VArr l') (VArr []))) ;; ret (stats_object s)
                else getStatsFromAPI e) (loading_started w) = (Ok v, loading_started w)).
      { destruct (truthy pagination); [|apply getStatsFromAPI_ok, Hn].
        unfold bind, liftR, ret. unfold or_else. simpl.
        rewrite (calculateStats_pure _ Hl'). eauto. }
      destruct Hs as [v Hv]. rewrite (bind_same_state _ _ _ _ Hv).
      unfold bind. unfold or_else at 1. simpl truthy. cbv iota.
      rewrite (showTodos_pure _ _ Hl'). unfold onStorage. simpl.
      destruct (syncTodosWithStorage_ok (rt e) (or_else (VArr l') (VArr [])) (localStorage w)) as [ls' ->].
      eauto. }
    destruct Ht as [ls ->]. simpl. auto.
Qed.

Lemma load_degrades_to_cache_witness :
  loadTodos sample_env (sample_world false)
    = (Ok tt, mkWorld (normalized [sample_record])
                (countStats (normalized [sample_record])) false None false
                (cache_of sample_record)) /\
  loadTodos sample_env (sample_world true)
    = (Ok tt, mkWorld (normalized [sample_record])
                (countStats (normalized [sample_record])) false
                (Some offline_advisory) true (cache_of sample_record)) /\
  todos (loadTodos (mkEnv (fun _ => Ok (obj [("data", VArr [done_record])]))
                          sample_runtime) (sample_world true)).2
    = normalized [done_record].
Proof.
  destruct (load_degrades_to_cache sample_env (sample_world false)
              [sample_record] sample_cache_holds) as (H1 & _ & _).
  destruct (load_degrades_to_cache sample_env (sample_world true)
              [sample_record] sample_cache_holds) as (_ & H2 & _).
  destruct (load_degrades_to_cache
              (mkEnv (fun _ => Ok (obj [("data", VArr [done_record])])) sample_runtime)
              (sample_world true) [sample_record] sample_cache_holds)
    as (_ & _ & H3).
  split; [|split].
  - apply H1. reflexivity.
  - apply (H2 eq_refl (Error "Network Error: Unable to connect to server")).
    reflexivity.
  - apply (H3 eq_refl (obj [("data", VArr [done_record])]) [done_record]).
    + reflexivity.
    + vm_compute. reflexivity.
    + repeat constructor.
    + repeat constructor.
Defined.

(* --------------------------------------------------------------------- *)

(** C4.  A text whose trimmed form is empty is refused before anything
    else happens, online or offline: the error becomes the empty-text
    message, and the list, the statistics and the cache stay as they
    were. *)
Theorem add_blank_rejected (e : env) (text : string) (w : world) :
  trim text = "" ->
  addTodo e text w = (Ok tt, with_error (Some "Todo text cannot be empty") w).
Proof. intros H. unfold addTodo. rewrite H. reflexivity. Qed.

Lemma add_blank_rejected_witness :
  addTodo sample_env "   " (initial true ∅) =
    (Ok tt, with_error (Some "Todo text cannot be empty") (initial true ∅)).
Proof. apply (add_blank_rejected sample_env "   " (initial true ∅)). reflexivity. Defined.

(* --------------------------------------------------------------------- *)




(* --------------------------------------------------------------------- *)




(* --------------------------------------------------------------------- *)




(* --------------------------------------------------------------------- *)

(** C8, counterexample.  Offline, with the record cached and shown and a
    browser that refuses the write, [deleteTodo] reports no error and the
    entry leaves the list shown, but the record is still in the cache. *)
Lemma refused_write_keeps_deleted_record :
  isOnline (sample_world false) = false /\
  cachedRecords (localStorage (sample_world false)) = [sample_record] /\
  answers "a1" sample_record = true /\
  (deleteTodo (mkEnv unreachable full_runtime) "a1" (sample_world false)).1 = Ok tt /\
  error (deleteTodo (mkEnv unreachable full_runtime) "a1" (sample_world false)).2
    = None /\
  todos (deleteTodo (mkEnv unreachable full_runtime) "a1" (sample_world false)).2
    = [] /\
  cachedRecords
    (localStorage
       (deleteTodo (mkEnv unreachable full_runtime) "a1" (sample_world false)).2)
    = [sample_record].
Proof. vm_compute. repeat split. Qed.

(** C8, as amended.  Offline: when no cached record answers to [id],
    [deleteTodo] fails (the error is set) and the list, the statistics and
    the cache stay as they were; the error thrown by the storage layer is
    "Todo not found in localStorage".  When a cached record answers, every
    entry with that [id] is removed from the list shown and no error is
    reported; the list without the answering records is written to the
    cache, which holds no such record when the browser takes the write
    and keeps all its records when the write is refused. *)
Theorem remove_offline (e : env) (id : string) (w : world) :
  isOnline w = false ->
  (Forall (fun r => answers id r = false) (cachedRecords (localStorage w)) ->
     deleteTodo e id w =
       (Ok tt, with_error (Some "Failed to delete todo. Please try again.") w)) /\
  (forall l, cache_holds (localStorage w) l ->
     Forall (fun r => answers id r = false) l ->
     deleteTodoFromStorage (rt e) id (localStorage w) =
       (Throw (Error "Todo not found in localStorage"), localStorage w)) /\
  (forall l, cache_holds (localStorage w) l ->
     Exists (fun r => answers id r = true) l ->
     no_nullish (todos w) ->
     let ls := saved (rt e) (others id l) (localStorage w) in
     deleteTodo e id w = (Ok tt, updated_world (without id (todos w)) ls w) /\
     Forall (fun t => strict_eq_str (prop t "id") id = false)
            (without id (todos w)) /\
     (takes (rt e) (localStorage w) (others id l) = true ->
      Forall (fun r => answers id r = false) (cachedRecords ls)) /\
     (takes (rt e) (localStorage w) (others id l) = false ->
      cachedRecords ls = l)).
Proof.
  intros Hoff. split; [|split].
  - intros Hno. rewrite (deleteTodo_offline_eq _ _ _ Hoff).
    destruct (deleteTodoFromStorage_no_match (rt e) _ _ Hno) as [x ->].
    unfold with_error. rewrite Hoff. reflexivity.
  - intros l Hc Hno. apply (deleteTodoFromStorage_missing _ _ _ _ Hc Hno).
  - intros l Hc Hex Hn ls. split; [|split; [|split]].
    + rewrite (deleteTodo_offline_eq _ _ _ Hoff).
      rewrite (deleteTodoFromStorage_found _ _ _ _ Hc Hex).
      rewrite (updateTodos_pure _ (without id (todos w))).
      * unfold updated_world. simpl. rewrite Hoff. reflexivity.
      * apply withoutId_pure, Hn.
      * apply no_nullish_filter, Hn.
    + apply Forall_forall. intros t Ht. apply list_elem_of_In, filter_In in Ht as [_ Ht].
      unfold strict_neq_str in Ht. destruct (strict_eq_str _ _); [discriminate|reflexivity].
    + intros Ha. apply cachedRecords_written;
        [exact Ha|apply no_nullish_filter, Hc|apply others_no_match].
    + intros Ha. subst ls. unfold cachedRecords.
      rewrite (cachedTodos_after_write _ _ _ _ Hc), Ha. reflexivity.
Qed.

Lemma remove_offline_witness :
  deleteTodo sample_env "missing" (sample_world false)
    = (Ok tt, with_error (Some "Failed to delete todo. Please try again.")
                         (sample_world false)) /\
  deleteTodoFromStorage sample_runtime "missing" (cache_of sample_record)
    = (Throw (Error "Todo not found in localStorage"), cache_of sample_record) /\
  (deleteTodo sample_env "a1" (sample_world false)
     = (Ok tt, updated_world (without "a1" [sample_record])
                 (saved sample_runtime (others "a1" [sample_record])
                        (cache_of sample_record))
                 (sample_world false)) /\
   Forall (fun r => answers "a1" r = false)
          (cachedRecords (saved sample_runtime (others "a1" [sample_record])
                                (cache_of sample_record)))) /\
  (deleteTodo (mkEnv unreachable full_runtime) "a1" (sample_world false)
     = (Ok tt, updated_world (without "a1" [sample_record])
                 (saved full_runtime (others "a1" [sample_record])
                        (cache_of sample_record))
                 (sample_world false)) /\
   cachedRecords (saved full_runtime (others "a1" [sample_record])
                        (cache_of sample_record))
     = [sample_record]).
Proof.
  destruct (remove_offline sample_env "missing" (sample_world false) eq_refl)
    as (H1 & H2 & _).
  destruct (remove_offline sample_env "a1" (sample_world false) eq_refl)
    as (_ & _ & H3).
  destruct (remove_offline (mkEnv unreachable full_runtime) "a1"
              (sample_world false) eq_refl) as (_ & _ & H4).
  assert (Hex : Exists (fun r => answers "a1" r = true) [sample_record])
    by (constructor; vm_compute; reflexivity).
  assert (Hn : no_nullish [sample_record]) by (repeat constructor).
  split; [|split; [|split]].
  - apply H1. vm_compute. repeat constructor.
  - apply (H2 [sample_record] sample_cache_holds). repeat constructor.
  - destruct (H3 [sample_record] sample_cache_holds Hex Hn) as (Ha & _ & Hb & _).
    split; [exact Ha|apply Hb; reflexivity].
  - destruct (H4 [sample_record] sample_cache_holds Hex Hn) as (Ha & _ & _ & Hb).
    split; [exact Ha|apply Hb; reflexivity].
Defined.

(* --------------------------------------------------------------------- *)

(** C9, counterexample.  Online with a remote that cannot be reached, the
    call reports the failure and the completed entry is still shown. *)
Lemma failed_bulk_delete_keeps_completed :
  isOnline (mixed_world true) = true /\
  is_ok (api sample_env Api.deleteCompletedTodos) = false /\
  todos (deleteCompletedTodos sample_env (mixed_world true)).2
    = [sample_record; done_record] /\
  done done_record = true /\
  error (deleteCompletedTodos sample_env (mixed_world true)).2
    = Some "Failed to delete completed todos. Please try again.".
Proof. vm_compute. repeat split. Qed.

(** C9, as amended.  From a state whose entries are all records (every
    reachable state is one, [reachable_consistent]): a first
    [deleteCompletedTodos] that goes through (offline, or online with the
    bulk delete request succeeding) leaves exactly the entries that are
    not completed, with the statistics recomputed from them and
    [completed = 0], and a second call right after it, whatever its own
    request comes to, changes neither the list nor the statistics.  Online
    with a failing request the call changes neither and sets the error. *)
Theorem removeCompleted_idempotent (e1 e2 : env) (w : world) :
  no_nullish (todos w) ->
  ((isOnline w = true -> is_ok (api e1 Api.deleteCompletedTodos) = true) ->
   let w1 := (deleteCompletedTodos e1 w).2 in
   let w2 := (deleteCompletedTodos e2 w1).2 in
   todos w1 = pendingOnly (todos w) /\
   Forall (fun t => done t = false) (todos w1) /\
   calculateStats (VArr (todos w1)) = Ok (stats w1) /\
   completed (stats w1) = 0 /\
   todos w2 = todos w1 /\
   stats w2 = stats w1) /\
  (isOnline w = true ->
   forall x, api e1 Api.deleteCompletedTodos = Throw x ->
   deleteCompletedTodos e1 w =
     (Ok tt, with_error
               (Some "Failed to delete completed todos. Please try again.") w)).
Proof.
  intros Hn. split.
  - intros Hapi w1 w2. subst w2 w1.
    rewrite (deleteCompletedTodos_done e1 w Hn Hapi).
    set (w1 := updated_world _ _ w).
    assert (Hp : no_nullish (pendingOnly (todos w))) by (apply no_nullish_filter, Hn).
    assert (Hd := pendingOnly_none_done (todos w)).
    change ((Ok (), w1).2) with w1.
    split; [reflexivity|]. split; [exact Hd|].
    split; [apply calculateStats_pure, Hp|].
    split; [apply none_done_count, Hd|].
    destruct (isOnline w1) eqn:Hon;
      [destruct (api e2 Api.deleteCompletedTodos) as [r|x] eqn:Hr|].
    + rewrite (deleteCompletedTodos_done e2 w1 Hp) by (intros _; rewrite Hr; reflexivity).
      simpl. rewrite (pendingOnly_fixed _ Hd). auto.
    + rewrite (deleteCompletedTodos_failed e2 w1 x Hon Hr). auto.
    + rewrite (deleteCompletedTodos_done e2 w1 Hp) by (rewrite Hon; discriminate).
      simpl. rewrite (pendingOnly_fixed _ Hd). auto.
  - intros Hon x Hx. apply (deleteCompletedTodos_failed e1 w x Hon Hx).
Qed.

Lemma removeCompleted_idempotent_witness :
  todos (deleteCompletedTodos (mkEnv accepting sample_runtime) (mixed_world true)).2
    = pendingOnly [sample_record; done_record] /\
  todos (deleteCompletedTodos sample_env
           (deleteCompletedTodos (mkEnv accepting sample_runtime)
              (mixed_world true)).2).2
    = todos (deleteCompletedTodos (mkEnv accepting sample_runtime)
               (mixed_world true)).2 /\
  stats (deleteCompletedTodos sample_env
           (deleteCompletedTodos (mkEnv accepting sample_runtime)
              (mixed_world true)).2).2
    = stats (deleteCompletedTodos (mkEnv accepting sample_runtime)
               (mixed_world true)).2 /\
  deleteCompletedTodos sample_env (mixed_world true)
    = (Ok tt, with_error
                (Some "Failed to delete completed todos. Please try again.")
                (mixed_world true)).
Proof.
  assert (Hn : no_nullish [sample_record; done_record]) by (repeat constructor).
  destruct (removeCompleted_idempotent (mkEnv accepting sample_runtime) sample_env
              (mixed_world true) Hn) as [H _].
  destruct (removeCompleted_idempotent sample_env sample_env
              (mixed_world true) Hn) as [_ H'].
  specialize (H (fun _ => eq_refl)). cbv zeta in H.
  destruct H as (H1 & _ & _ & _ & H5 & H6).
  split; [exact H1|]. split; [exact H5|]. split; [exact H6|].
  apply (H' eq_refl (Error "Network Error: Unable to connect to server")).
  reflexivity.
Defined.

(* --------------------------------------------------------------------- *)

(** C10 (the code departs from the claim).  The two cache readers never
    throw, and they answer the empty list and the zero statistics when the
    key is missing or its text does not parse ([getTodosFromStorage_eq],
    [getStatsFromStorage_eq]).  But a stored text that is valid JSON of
    another shape is handed back as it is: with the object [{}] under the
    todos key and [null] under the stats key, [getTodosFromStorage]
    returns that object, which is no list, and [getStatsFromStorage]
    returns [null], which is no statistics record.  The caller then fails:
    an offline [loadTodos] throws out of its catch block. *)
Theorem cache_readers_return_foreign_json :
  getTodosFromStorage foreign_cache = (Ok (VObj ∅), foreign_cache) /\
  getStatsFromStorage foreign_cache = (Ok VNull, foreign_cache) /\
  as_array (VObj ∅) = Throw (TypeError "not a function") /\
  (loadTodos sample_env (initial false foreign_cache)).1
    = Throw (TypeError "not a function").
Proof. vm_compute. repeat split. Qed.

(* ===================================================================== *)
(** ** More of the code *)
(* ===================================================================== *)

(** *** localStorage.js: reads after writes *)

Lemma live_jsonify v : live v -> live (jsonify v).
Proof. destruct v; simpl; auto. Qed.



Lemma jsonify_list l :
  no_nullish l -> jsonify (VArr l) = VArr (reread l).
Proof.
  intros Hl. simpl. f_equal. unfold reread. apply map_ext_in.
  intros x Hx. unfold no_nullish in Hl. rewrite Forall_forall in Hl.
  specialize (Hl x (proj2 (list_elem_of_In _ _) Hx)).
  destruct x; try discriminate; reflexivity.
Qed.

Lemma reread_live l : no_nullish l -> no_nullish (reread l).
Proof.
  intros Hl. unfold reread. apply Forall_forall. intros x Hx.
  apply list_elem_of_In, in_map_iff in Hx as (y & <- & Hy).
  apply live_jsonify. unfold no_nullish in Hl. rewrite Forall_forall in Hl.
  apply Hl, list_elem_of_In, Hy.
Qed.



Lemma saved_holds c l ls :
  takes c ls l = true -> no_nullish l -> cache_holds (saved c l ls) (reread l).
Proof.
  intros Ha Hl. split; [|apply reread_live, Hl].
  rewrite cachedTodos_after. unfold takes in Ha. rewrite Ha. apply jsonify_list, Hl.
Qed.


(** *** localStorage.js: clearing, appending, a cache that holds no list *)

Lemma foreign_cache_no_list : forall l, cachedTodos foreign_cache <> VArr l.
Proof. intros l. vm_compute. discriminate. Defined.

(** X1.  [clearTodosFromStorage] returns normally; afterwards
    [getTodosFromStorage] gives the empty list and [getStatsFromStorage]
    the zero statistics, and every other key of localStorage holds what it
    held. *)
Theorem clear_resets_cache (ls : storage) :
  let ls' := (clearTodosFromStorage ls).2 in
  (clearTodosFromStorage ls).1 = Ok tt /\
  getTodosFromStorage ls' = (Ok (VArr []), ls') /\
  getStatsFromStorage ls' = (Ok (stats_object zero_stats), ls') /\
  forall k, k <> STORAGE_KEY -> k <> STATS_KEY -> ls' !! k = ls !! k.
Proof.
  simpl. split; [reflexivity|]. split; [|split].
  - rewrite getTodosFromStorage_eq. unfold cachedTodos.
    rewrite lookup_delete_ne by discriminate. rewrite lookup_delete_eq. reflexivity.
  - rewrite getStatsFromStorage_eq. unfold cachedStats.
    rewrite lookup_delete_eq. reflexivity.
  - intros k H1 H2. rewrite !lookup_delete_ne by congruence. reflexivity.
Qed.








(** [syncTodosWithStorage] in one equation: it swallows a refused write
    and a failing [calculateStats] alike. *)
Lemma syncTodosWithStorage_eq c todos ls :
  syncTodosWithStorage c todos ls =
    (Ok tt,
     match calculateStats todos with
     | Ok s => kept c STATS_KEY (JSON_stringify (stats_object s))
                 (kept c STORAGE_KEY (JSON_stringify todos) ls)
     | Throw _ => kept c STORAGE_KEY (JSON_stringify todos) ls
     end).
Proof.
  unfold syncTodosWithStorage, try_catch. unfold bind at 1.
  rewrite saveTodosToStorage_eq. unfold bind, liftR.
  destruct (calculateStats todos) as [s|e]; [|reflexivity].
  rewrite saveStatsToStorage_eq. reflexivity.
Qed.



(** X3.  On a cache holding a list of records, [addTodoToStorage] of an
    object returns a record with a truthy [id] (the object's own when it is
    truthy, a fresh ["local_..."] one otherwise), with the object's
    [createdAt] when that is truthy and the current time otherwise, with
    the current time as [updatedAt], and with every other field of the
    object as it is.  The list read back afterwards is the old one with
    that record appended when the browser took the write, and the old one
    when it refused. *)
Theorem addTodoToStorage_appends (c : runtime) (o : gmap string value)
  (ls : storage) (l : list value) :
  cache_holds ls l ->
  exists new,
    (addTodoToStorage c (VObj o) ls).1 = Ok new /\
    truthy (prop new "id") = true /\
    prop new "id" = or_else (prop (VObj o) "id") (VStr (local_id c)) /\
    prop new "createdAt"
      = or_else (prop (VObj o) "createdAt") (VStr (iso_created c)) /\
    prop new "updatedAt" = VStr (iso_now c) /\
    (forall k, k <> "id" -> k <> "createdAt" -> k <> "updatedAt" ->
       prop new k = prop (VObj o) k) /\
    getTodosFromStorage (addTodoToStorage c (VObj o) ls).2
      = (Ok (if takes c ls (l ++ [new])
             then VArr (reread l ++ [jsonify new]) else VArr l),
         (addTodoToStorage c (VObj o) ls).2).
Proof.
  intros Hc. exists (created c (VObj o)).
  rewrite (addTodoToStorage_pure c (VObj o) ls l Hc eq_refl). simpl fst. simpl snd.
  split; [reflexivity|]. split; [|split; [|split; [|split; [|split]]]].
  - unfold created, prop. rewrite lookup_insert_ne by discriminate.
    rewrite lookup_insert_ne by discriminate. rewrite lookup_insert_eq. simpl.
    unfold or_else. destruct (truthy (default VUndefined (o !! "id"))) eqn:E; [exact E|].
    reflexivity.
  - unfold created, prop. rewrite lookup_insert_ne by discriminate.
    rewrite lookup_insert_ne by discriminate. rewrite lookup_insert_eq. reflexivity.
  - unfold created, prop. rewrite lookup_insert_ne by discriminate.
    rewrite lookup_insert_eq. reflexivity.
  - unfold created, prop. rewrite lookup_insert_eq. reflexivity.
  - intros k H1 H2 H3. unfold created, prop. simpl spread.
    rewrite !lookup_insert_ne by congruence. reflexivity.
  - rewrite getTodosFromStorage_eq, (cachedTodos_after_write _ _ _ _ Hc).
    destruct Hc as [_ Hl].
    assert (Hn : no_nullish (l ++ [created c (VObj o)])).
    { apply Forall_app. split; [exact Hl|repeat constructor]. }
    rewrite (jsonify_list _ Hn). unfold reread. rewrite map_app. reflexivity.
Qed.

Lemma addTodoToStorage_appends_witness :
  exists new,
    (addTodoToStorage sample_runtime (VObj (spread done_record))
       (cache_of sample_record)).1 = Ok new /\
    truthy (prop new "id") = true /\
    prop new "id" = VStr "b2" /\
    prop new "text" = VStr "walk dog" /\
    getTodosFromStorage
      (addTodoToStorage sample_runtime (VObj (spread done_record))
         (cache_of sample_record)).2
    = (Ok (VArr (reread [sample_record] ++ [jsonify new])),
       (addTodoToStorage sample_runtime (VObj (spread done_record))
          (cache_of sample_record)).2).
Proof.
  destruct (addTodoToStorage_appends sample_runtime (spread done_record)
              (cache_of sample_record) [sample_record] sample_cache_holds)
    as (new & H1 & H2 & H3 & _ & _ & H6 & H7).
  exists new. split; [exact H1|]. split; [exact H2|]. split; [exact H3|].
  split; [apply (H6 "text"); discriminate|exact H7].
Defined.

Lemma no_list_as_array ls :
  (forall l, cachedTodos ls <> VArr l) ->
  as_array (cachedTodos ls) = Throw (TypeError "not a function").
Proof.
  intros Hno. destruct (cachedTodos ls) eqn:E; try reflexivity.
  destruct (Hno l). reflexivity.
Qed.

Lemma addTodoToStorage_no_list c todo ls :
  (forall l, cachedTodos ls <> VArr l) ->
  exists m, addTodoToStorage c todo ls = (Throw (TypeError m), ls).
Proof.
  intros Hno. unfold addTodoToStorage, try_catch.
  rewrite (bind_same_state _ _ _ _ (getTodosFromStorage_eq ls)).
  rewrite (bind_same_state _ _ _ (get_prop todo "id")) by reflexivity.
  destruct (get_prop todo "id") as [tid|[]] eqn:E1;
    try (destruct todo; discriminate E1); [|eauto].
  rewrite (bind_same_state _ _ _ (get_prop todo "createdAt")) by reflexivity.
  destruct (get_prop todo "createdAt") as [tc|[]] eqn:E2;
    try (destruct todo; discriminate E2); [|eauto].
  rewrite (bind_same_state _ _ _ (as_array (cachedTodos ls))) by reflexivity.
  rewrite (no_list_as_array _ Hno). eauto.
Qed.

Lemma updateTodoInStorage_no_list c id d ls :
  (forall l, cachedTodos ls <> VArr l) ->
  updateTodoInStorage c id d ls = (Throw (TypeError "not a function"), ls).
Proof.
  intros Hno. unfold updateTodoInStorage, try_catch.
  rewrite (bind_same_state _ _ _ _ (getTodosFromStorage_eq ls)).
  rewrite (bind_same_state _ _ _ (as_array (cachedTodos ls))) by reflexivity.
  rewrite (no_list_as_array _ Hno). reflexivity.
Qed.

Lemma deleteTodoFromStorage_no_list c id ls :
  (forall l, cachedTodos ls <> VArr l) ->
  deleteTodoFromStorage c id ls = (Throw (TypeError "not a function"), ls).
Proof.
  intros Hno. unfold deleteTodoFromStorage, try_catch.
  rewrite (bind_same_state _ _ _ _ (getTodosFromStorage_eq ls)).
  rewrite (bind_same_state _ _ _ (as_array (cachedTodos ls))) by reflexivity.
  rewrite (no_list_as_array _ Hno). reflexivity.
Qed.

(** X4.  When the todos entry of the cache holds valid JSON that is not an
    array, [addTodoToStorage], [updateTodoInStorage] and
    [deleteTodoFromStorage] each throw a TypeError and write nothing. *)
Theorem storage_mutations_need_a_list (c : runtime) (todo : value) (id : string)
  (d : value) (ls : storage) :
  (forall l, cachedTodos ls <> VArr l) ->
  (exists m, addTodoToStorage c todo ls = (Throw (TypeError m), ls)) /\
  updateTodoInStorage c id d ls = (Throw (TypeError "not a function"), ls) /\
  deleteTodoFromStorage c id ls = (Throw (TypeError "not a function"), ls).
Proof.
  intros Hno. split; [|split].
  - apply addTodoToStorage_no_list, Hno.
  - apply updateTodoInStorage_no_list, Hno.
  - apply deleteTodoFromStorage_no_list, Hno.
Qed.

Lemma storage_mutations_need_a_list_witness :
  (exists m, addTodoToStorage sample_runtime sample_record foreign_cache
             = (Throw (TypeError m), foreign_cache)) /\
  updateTodoInStorage sample_runtime "a1" (VObj ∅) foreign_cache
    = (Throw (TypeError "not a function"), foreign_cache) /\
  deleteTodoFromStorage sample_runtime "a1" foreign_cache
    = (Throw (TypeError "not a function"), foreign_cache).
Proof.
  apply (storage_mutations_need_a_list sample_runtime sample_record "a1" (VObj ∅)
           foreign_cache foreign_cache_no_list).
Defined.

Lemma answers_object id r : answers id r = true -> exists o, r = VObj o.
Proof.
  destruct r; try (vm_compute; discriminate). eauto.
Qed.

Lemma reread_length l : List.length (reread l) = List.length l.
Proof. unfold reread. apply length_map. Qed.

Lemma reread_lookup l (j : nat) : reread l !! j = jsonify <$> l !! j.
Proof. unfold reread. apply list_lookup_fmap. Qed.

(** The list read back after the two writes. *)
Lemma saved_reads_back c l' ls l :
  cache_holds ls l -> no_nullish l' ->
  getTodosFromStorage (saved c l' ls)
  = (Ok (if takes c ls l' then VArr (reread l') else VArr l), saved c l' ls).
Proof.
  intros Hc Hl. rewrite getTodosFromStorage_eq, (cachedTodos_after_write _ _ _ _ Hc).
  rewrite (jsonify_list _ Hl). unfold takes. reflexivity.
Qed.

(** X5.  On a cache holding a list of records one of which answers to
    [id], [updateTodoInStorage] builds a new record from the first such
    record: every field of the patch (other than [id] and [updatedAt])
    has the patch's value, every other field the old one, [updatedAt] is
    the current time, and the record still answers to [id] when the patch
    has no [_id].  It writes the list with that record at the same
    position: this list has the same length and the same records at the
    other positions, and it is what is read back when the browser took
    the write; the old list is read back when it refused. *)
Theorem updateTodoInStorage_rewrites_one (c : runtime) (id : string)
  (d : value) (ls : storage) (l : list value) (i : nat) (old : value) :
  cache_holds ls l -> firstAnswering id l = Some i -> l !! i = Some old ->
  let r := updateTodoInStorage c id d ls in
  let new := patchedWith c old d in
  r.1 = Ok new /\
  getTodosFromStorage r.2
    = (Ok (if takes c ls (<[i := new]> l)
           then VArr (reread (<[i := new]> l)) else VArr l), r.2) /\
  List.length (reread (<[i := new]> l)) = List.length l /\
  (forall j, j <> i -> reread (<[i := new]> l) !! j = jsonify <$> l !! j) /\
  reread (<[i := new]> l) !! i = Some (jsonify new) /\
  prop new "updatedAt" = VStr (iso_now c) /\
  (forall k, k <> "id" -> k <> "updatedAt" ->
     prop new k = match spread d !! k with
                  | Some v => v
                  | None => prop old k
                  end) /\
  (id <> "" -> spread d !! "_id" = None -> answers id new = true).
Proof.
  intros Hc Hi Ho r new. subst r.
  rewrite (updateTodoInStorage_found c id d ls l i old Hc Hi Ho). simpl fst. simpl snd.
  fold new.
  destruct (firstAnswering_Some _ _ _ Hi) as (old' & Ho' & Hans).
  rewrite Ho in Ho'. inversion Ho'; subst old'. clear Ho'.
  destruct (answers_object _ _ Hans) as [oo ->].
  assert (Hlt : (i < List.length l)%nat) by (apply lookup_lt_is_Some; eauto).
  assert (Hn : no_nullish (<[i := new]> l)).
  { apply Forall_insert; [apply Hc|reflexivity]. }
  split; [reflexivity|]. split; [apply (saved_reads_back _ _ _ _ Hc Hn)|].
  split; [rewrite reread_length; apply length_insert|].
  split; [intros j Hj; rewrite reread_lookup, list_lookup_insert_ne by congruence;
          reflexivity|].
  split; [rewrite reread_lookup, list_lookup_insert_eq by exact Hlt; reflexivity|].
  split; [subst new; unfold patchedWith, prop; rewrite lookup_insert_eq; reflexivity|].
  split.
  - intros k H1 H2. subst new. unfold patchedWith, prop.
    rewrite !lookup_insert_ne by congruence. rewrite lookup_union.
    simpl spread. destruct (spread d !! k), (oo !! k); reflexivity.
  - intros Hid Hd. subst new. unfold answers, patchedWith, prop.
    rewrite lookup_insert_ne by discriminate. rewrite lookup_insert_eq.
    rewrite lookup_insert_ne by discriminate. rewrite lookup_insert_ne by discriminate.
    rewrite lookup_union, Hd. simpl spread.
    unfold answers, prop in Hans.
    destruct (oo !! "id") as [a|] eqn:Ea; simpl in *.
    + destruct (strict_eq_str a id) eqn:E1.
      * destruct a; try discriminate E1. simpl in E1.
        apply String.eqb_eq in E1. subst s.
        unfold or_else. simpl.
        destruct (String.eqb_spec id "") as [E|_]; [contradiction|]. simpl.
        rewrite String.eqb_refl. reflexivity.
      * simpl in Hans. unfold or_else. destruct (truthy a).
        { rewrite E1. simpl. destruct (oo !! "_id"); simpl in *; [|discriminate].
          rewrite Hans. reflexivity. }
        { destruct (oo !! "_id"); simpl in *; [|discriminate].
          rewrite Hans. reflexivity. }
    + destruct (oo !! "_id"); simpl in *; [|discriminate].
      unfold or_else. simpl. rewrite Hans. reflexivity.
Qed.

Lemma updateTodoInStorage_rewrites_one_witness :
  (let new := patchedWith sample_runtime sample_record
                (obj [("completed", VBool true)]) in
   let r := updateTodoInStorage sample_runtime "a1"
              (obj [("completed", VBool true)]) (cache_of sample_record) in
   r.1 = Ok new /\
   getTodosFromStorage r.2
     = (Ok (VArr (reread (<[0%nat := new]> [sample_record]))), r.2)) /\
  (let r := updateTodoInStorage full_runtime "a1"
              (obj [("completed", VBool true)]) (cache_of sample_record) in
   getTodosFromStorage r.2 = (Ok (VArr [sample_record]), r.2)).
Proof.
  split.
  - destruct (updateTodoInStorage_rewrites_one sample_runtime "a1"
                (obj [("completed", VBool true)]) (cache_of sample_record)
                [sample_record] 0%nat sample_record sample_cache_holds
                eq_refl eq_refl) as (H1 & H2 & _).
    split; [exact H1|exact H2].
  - destruct (updateTodoInStorage_rewrites_one full_runtime "a1"
                (obj [("completed", VBool true)]) (cache_of sample_record)
                [sample_record] 0%nat sample_record sample_cache_holds
                eq_refl eq_refl) as (_ & H2 & _).
    exact H2.
Defined.

Lemma saved_holds_others c id l ls :
  takes c ls (others id l) = true -> no_nullish l ->
  cache_holds (saved c (others id l) ls) (reread (others id l)).
Proof. intros Ha Hl. apply saved_holds; [exact Ha|apply no_nullish_filter, Hl]. Qed.

Lemma reread_no_match id l :
  Forall (fun r => answers id r = false) l ->
  Forall (fun r => answers id r = false) (reread l).
Proof.
  intros H. unfold reread. apply Forall_map. eapply Forall_impl; [exact H|].
  intros r Hr. simpl. rewrite answers_jsonify. exact Hr.
Qed.

(** X6.  On a cache holding a list of records one of which answers to
    [id], [deleteTodoFromStorage id] returns [true].  When the browser
    took its write of the list without the answering records, no cached
    record answers to [id] any more: a second delete and an update of that
    id, in whatever runtime, both throw "Todo not found in localStorage"
    and leave the cache as it is.  When the browser refused that write,
    the old list, with the answering record, is still read back. *)
Theorem deleted_id_is_gone (c c' : runtime) (id : string) (d : value)
  (ls : storage) (l : list value) :
  cache_holds ls l -> Exists (fun r => answers id r = true) l ->
  let ls' := (deleteTodoFromStorage c id ls).2 in
  (deleteTodoFromStorage c id ls).1 = Ok true /\
  (takes c ls (others id l) = true ->
   getTodosFromStorage ls' = (Ok (VArr (reread (others id l))), ls') /\
   deleteTodoFromStorage c' id ls'
     = (Throw (Error "Todo not found in localStorage"), ls') /\
   updateTodoInStorage c' id d ls'
     = (Throw (Error "Todo not found in localStorage"), ls')) /\
  (takes c ls (others id l) = false ->
   getTodosFromStorage ls' = (Ok (VArr l), ls')).
Proof.
  intros Hc Hex ls'. subst ls'.
  rewrite (deleteTodoFromStorage_found _ _ _ _ Hc Hex). simpl fst. simpl snd.
  assert (Hf : no_nullish (others id l)) by (apply no_nullish_filter, Hc).
  split; [reflexivity|]. split.
  - intros Ha.
    pose proof (saved_holds_others c id l ls Ha (proj2 Hc)) as Hh.
    pose proof (reread_no_match id _ (others_no_match id l)) as Hno.
    split; [|split].
    + rewrite (saved_reads_back _ _ _ _ Hc Hf), Ha. reflexivity.
    + apply (deleteTodoFromStorage_missing _ _ _ _ Hh Hno).
    + apply (updateTodoInStorage_missing _ _ _ _ _ Hh). apply firstAnswering_None, Hno.
  - intros Ha. rewrite (saved_reads_back _ _ _ _ Hc Hf), Ha. reflexivity.
Qed.

Lemma deleted_id_is_gone_witness :
  deleteTodoFromStorage sample_runtime "a1"
    (deleteTodoFromStorage sample_runtime "a1" (cache_of sample_record)).2
  = (Throw (Error "Todo not found in localStorage"),
     (deleteTodoFromStorage sample_runtime "a1" (cache_of sample_record)).2) /\
  getTodosFromStorage
    (deleteTodoFromStorage full_runtime "a1" (cache_of sample_record)).2
  = (Ok (VArr [sample_record]),
     (deleteTodoFromStorage full_runtime "a1" (cache_of sample_record)).2).
Proof.
  assert (Hex : Exists (fun r => answers "a1" r = true) [sample_record])
    by (constructor; vm_compute; reflexivity).
  split.
  - destruct (deleted_id_is_gone sample_runtime sample_runtime "a1" VNull
                (cache_of sample_record) [sample_record] sample_cache_holds Hex)
      as (_ & H & _).
    destruct (H eq_refl) as (_ & H2 & _). exact H2.
  - destruct (deleted_id_is_gone full_runtime sample_runtime "a1" VNull
                (cache_of sample_record) [sample_record] sample_cache_holds Hex)
      as (_ & _ & H).
    exact (H eq_refl).
Defined.

(** X7.  [syncTodosWithStorage] never throws.  It writes its argument
    under the todos key and, when [calculateStats] accepts the argument,
    the statistics under the statistics key; each write changes its entry
    only if the browser takes it, and a refused write or a failing
    [calculateStats] is swallowed.  So for a list of records the cache
    becomes [saved], and for anything [calculateStats] rejects only the
    todos entry can change. *)
Theorem syncTodosWithStorage_total (c : runtime) (todos : value) (ls : storage) :
  (syncTodosWithStorage c todos ls).1 = Ok tt /\
  (forall l, todos = VArr l -> no_nullish l ->
     (syncTodosWithStorage c todos ls).2 = saved c l ls) /\
  ((forall s, calculateStats todos <> Ok s) ->
     (syncTodosWithStorage c todos ls).2
       = if accepts c ls STORAGE_KEY (JSON_stringify todos)
         then <[STORAGE_KEY := JSON_stringify todos]> ls else ls) /\
  (roomy c -> forall l, todos = VArr l -> no_nullish l ->
     (syncTodosWithStorage c todos ls).2
       = <[STATS_KEY := JSON_stringify (stats_object (countStats l))]>
           (<[STORAGE_KEY := JSON_stringify todos]> ls)) /\
  (refusing c -> (syncTodosWithStorage c todos ls).2 = ls).
Proof.
  rewrite syncTodosWithStorage_eq. simpl fst. simpl snd.
  split; [reflexivity|]. split; [|split; [|split]].
  - intros l -> Hl. rewrite (calculateStats_pure _ Hl). reflexivity.
  - intros Hno.
    destruct (calculateStats todos) as [s|e] eqn:E; [destruct (Hno s); reflexivity|].
    reflexivity.
  - intros Hr l -> Hl. rewrite (calculateStats_pure _ Hl).
    rewrite !(kept_roomy _ _ _ _ Hr). reflexivity.
  - intros Hr.
    destruct (calculateStats todos); rewrite !(kept_refusing _ _ _ _ Hr); reflexivity.
Qed.

(** *** What the operations of the hook leave alone *)

Lemma getTodosFromStorage_own : own_keys_only getTodosFromStorage.
Proof. intros ls k H1 H2. rewrite getTodosFromStorage_eq. reflexivity. Qed.

Lemma getStatsFromStorage_own : own_keys_only getStatsFromStorage.
Proof. intros ls k H1 H2. rewrite getStatsFromStorage_eq. reflexivity. Qed.

Lemma saveTodosToStorage_own c v : own_keys_only (saveTodosToStorage c v).
Proof.
  intros ls k H1 H2. rewrite saveTodosToStorage_eq. simpl.
  apply kept_other. exact H1.
Qed.

Lemma saveStatsToStorage_own c s : own_keys_only (saveStatsToStorage c s).
Proof.
  intros ls k H1 H2. rewrite saveStatsToStorage_eq. simpl.
  apply kept_other. exact H2.
Qed.

Lemma save_both_own {A} c v (x : A) ls k :
  k <> STORAGE_KEY -> k <> STATS_KEY ->
  ((saveTodosToStorage c v ;;
    stats <- liftR (calculateStats v) ;;
    saveStatsToStorage c stats ;; ret x) ls).2 !! k = ls !! k.
Proof.
  intros H1 H2. unfold bind at 1. rewrite saveTodosToStorage_eq.
  unfold bind at 1, liftR.
  destruct (calculateStats v); [|apply kept_other; exact H1].
  unfold bind at 1. rewrite saveStatsToStorage_eq. simpl.
  rewrite kept_other by exact H2. apply kept_other. exact H1.
Qed.

Lemma syncTodosWithStorage_own c v : own_keys_only (syncTodosWithStorage c v).
Proof.
  intros ls k H1 H2. rewrite syncTodosWithStorage_eq. simpl.
  destruct (calculateStats v); rewrite ?(kept_other _ STATS_KEY) by exact H2;
    apply kept_other; exact H1.
Qed.

Lemma try_rethrow_snd {S A} (m : M S A) s :
  (try_catch m (fun error => throw error) s).2 = (m s).2.
Proof. unfold try_catch, throw. destruct (m s) as [[a|e] s']; reflexivity. Qed.

Lemma addTodoToStorage_own c todo : own_keys_only (addTodoToStorage c todo).
Proof.
  intros ls k H1 H2. unfold addTodoToStorage. rewrite try_rethrow_snd.
  rewrite (bind_same_state _ _ _ _ (getTodosFromStorage_eq ls)).
  rewrite (bind_same_state _ _ _ (get_prop todo "id")) by reflexivity.
  destruct (get_prop todo "id") as [tid|]; [|reflexivity].
  rewrite (bind_same_state _ _ _ (get_prop todo "createdAt")) by reflexivity.
  destruct (get_prop todo "createdAt") as [tc|]; [|reflexivity].
  rewrite (bind_same_state _ _ _ (as_array (cachedTodos ls))) by reflexivity.
  destruct (as_array (cachedTodos ls)) as [l|]; [|reflexivity].
  apply save_both_own; assumption.
Qed.

Lemma updateTodoInStorage_own c id d : own_keys_only (updateTodoInStorage c id d).
Proof.
  intros ls k H1 H2. unfold updateTodoInStorage. rewrite try_rethrow_snd.
  rewrite (bind_same_state _ _ _ _ (getTodosFromStorage_eq ls)).
  rewrite (bind_same_state _ _ _ (as_array (cachedTodos ls))) by reflexivity.
  destruct (as_array (cachedTodos ls)) as [l|]; [|reflexivity].
  rewrite (bind_same_state _ _ _ (findIndexM (matches_id id) l)) by reflexivity.
  destruct (findIndexM (matches_id id) l) as [[i|]|]; [|reflexivity|reflexivity].
  rewrite (bind_same_state _ _ _ (patched c (default VUndefined (l !! i)) d)) by reflexivity.
  destruct (patched c (default VUndefined (l !! i)) d) as [new|]; [|reflexivity].
  apply save_both_own; assumption.
Qed.

Lemma deleteTodoFromStorage_own c id : own_keys_only (deleteTodoFromStorage c id).
Proof.
  intros ls k H1 H2. unfold deleteTodoFromStorage. rewrite try_rethrow_snd.
  rewrite (bind_same_state _ _ _ _ (getTodosFromStorage_eq ls)).
  rewrite (bind_same_state _ _ _ (as_array (cachedTodos ls))) by reflexivity.
  destruct (as_array (cachedTodos ls)) as [l|]; [|reflexivity].
  rewrite (bind_same_state _ _ _ (filterM (differs_id id) l)) by reflexivity.
  destruct (filterM (differs_id id) l) as [f|]; [|reflexivity].
  destruct (negb _); [|reflexivity].
  apply save_both_own; assumption.
Qed.

Lemma same_outside_refl w : same_outside w w.
Proof. split; [reflexivity|]. intros; reflexivity. Qed.

Lemma onStorage_outside {A} w0 (m : M storage A) :
  own_keys_only m -> keeps (same_outside w0) (fun _ => True) (onStorage m).
Proof.
  intros Hm w [H1 H2]. unfold onStorage.
  specialize (Hm (localStorage w)). destruct (m (localStorage w)) as [r ls'].
  cbn [fst snd] in *. split; [|auto]. split; [exact H1|].
  intros k Hk1 Hk2. cbn [localStorage]. rewrite (Hm k Hk1 Hk2). apply H2; assumption.
Qed.

Ltac own_keys :=
  first [ apply getTodosFromStorage_own | apply getStatsFromStorage_own
        | apply saveTodosToStorage_own | apply saveStatsToStorage_own
        | apply syncTodosWithStorage_own | apply addTodoToStorage_own
        | apply updateTodoInStorage_own | apply deleteTodoFromStorage_own ].

(** One syntax-directed step of a proof that an operation keeps an
    invariant; the setters and the storage calls are left as goals. *)
Ltac frame_step :=
  lazymatch goal with
  | |- keeps _ _ (bind _ _) => eapply (keeps_bind _ (fun _ => True)); [|intros ? _]
  | |- keeps _ _ (try_catch _ _) => apply keeps_try_catch; [|intros ?]
  | |- keeps _ _ (try_finally _ _) => apply keeps_try_finally
  | |- keeps _ _ (if ?b then _ else _) => destruct b
  | |- keeps _ _ (liftR _) => apply keeps_liftR; auto
  | |- keeps _ _ (gets _) => apply keeps_gets; auto
  | |- keeps _ _ (throw _) => apply keeps_throw
  | |- keeps _ _ (ret _) => apply keeps_ret; exact Logic.I
  | |- keeps _ _ (modify _) => apply keeps_modify
  end.

Ltac unfold_hook :=
  unfold loadTodos, loadTodos_try, loadTodos_catch, getStatsFromAPI, showTodos,
    addTodo, updateTodo, toggleTodoComplete, deleteTodo, deleteCompletedTodos,
    clearError, updateTodos, setTodos, setStats, setLoading, setError, setIsOnline.

Ltac outside_leaf :=
  lazymatch goal with
  | |- keeps _ _ (onStorage _) => apply onStorage_outside; own_keys
  | |- _ => intros ? ?; assumption
  end.

Lemma onStorage_loading {A} b (m : M storage A) :
  keeps (fun w => loading w = b) (fun _ => True) (onStorage m).
Proof.
  intros w H. unfold onStorage. destruct (m (localStorage w)).
  simpl. split; [exact H|auto].
Qed.

Lemma perform_outside w0 o e :
  o <> OpOnline -> o <> OpOffline ->
  keeps (same_outside w0) (fun _ => True) (perform o e).
Proof.
  intros H1 H2. destruct o; try congruence; simpl; unfold_hook;
    repeat frame_step; outside_leaf.
Qed.

Ltac loading_leaf :=
  lazymatch goal with
  | |- keeps _ _ (onStorage _) => apply onStorage_loading
  | |- _ => intros ? ?; assumption
  end.

Lemma perform_loading b o e :
  o <> OpLoad ->
  keeps (fun w => loading w = b) (fun _ => True) (perform o e).
Proof.
  intros H1. destruct o; try congruence; simpl; unfold_hook;
    repeat frame_step; loading_leaf.
Qed.

Lemma classic_op o :
  (o = OpOnline \/ o = OpOffline) \/ (o <> OpOnline /\ o <> OpOffline).
Proof. destruct o; try (right; split; discriminate); left; auto. Qed.

Lemma loadTodos_loading e w : loading (loadTodos e w).2 = false.
Proof.
  unfold loadTodos, bind, setLoading, setError, modify, try_finally. simpl.
  destruct (try_catch _ _ _) as [r w']. reflexivity.
Qed.

(** X8.  No operation of the hook writes a localStorage key other than the
    two the application owns; only the connectivity events change
    [isOnline]; only [loadTodos] changes [loading], and it always ends
    with [loading = false], also when it throws. *)
Theorem operations_stay_in_their_keys (o : op) (e : env) (w : world) :
  let w' := (perform o e w).2 in
  (forall k, k <> STORAGE_KEY -> k <> STATS_KEY ->
     localStorage w' !! k = localStorage w !! k) /\
  (o <> OpOnline -> o <> OpOffline -> isOnline w' = isOnline w) /\
  (o <> OpLoad -> loading w' = loading w) /\
  (o = OpLoad -> loading w' = false).
Proof.
  simpl. split; [|split; [|split]].
  - destruct (classic_op o) as [Hc|Hc].
    + destruct Hc as [-> | ->]; simpl; intros; reflexivity.
    + destruct Hc as [H1 H2].
      apply (perform_outside w o e H1 H2 w (same_outside_refl w)).
  - intros H1 H2. apply (perform_outside w o e H1 H2 w (same_outside_refl w)).
  - intros H1. apply (perform_loading (loading w) o e H1 w eq_refl).
  - intros ->. apply loadTodos_loading.
Qed.

(** *** Failures of the hook's operations *)

Lemma caught_ok {S} (m : M S unit) (h : exn -> M S unit) s :
  (forall e s', (h e s').1 = Ok tt) -> (try_catch m h s).1 = Ok tt.
Proof.
  intros H. unfold try_catch. destruct (m s) as [[[]|e] s']; [reflexivity|apply H].
Qed.

Lemma mutations_return o e w : o <> OpLoad -> (perform o e w).1 = Ok tt.
Proof.
  intros Ho. destruct o; try congruence; simpl; try reflexivity.
  - unfold addTodo. destruct (negb _); [reflexivity|].
    unfold bind at 1. unfold setError at 1. unfold modify at 1.
    apply caught_ok. reflexivity.
  - unfold updateTodo. unfold bind at 1. unfold setError at 1. unfold modify at 1.
    apply caught_ok. reflexivity.
  - unfold toggleTodoComplete. unfold bind at 1. unfold gets at 1.
    unfold bind at 1. unfold setError at 1. unfold modify at 1.
    apply caught_ok. reflexivity.
  - unfold deleteTodo. unfold bind at 1. unfold setError at 1. unfold modify at 1.
    apply caught_ok. reflexivity.
  - unfold deleteCompletedTodos. unfold bind at 1. unfold gets at 1.
    unfold bind at 1. unfold setError at 1. unfold modify at 1.
    apply caught_ok. reflexivity.
Qed.

(** After a setter that establishes [I], what keeps [I] ends in [I]. *)
Lemma reset_then_keeps {A} (I : world -> Prop) (f : world -> world)
  (k : unit -> M world A) w :
  (forall w, I (f w)) -> keeps I (fun _ => True) (k tt) ->
  I (bind (modify f) k w).2.
Proof. intros Hf Hk. unfold bind, modify. apply Hk, Hf. Qed.

Lemma onStorage_error {A} (I : option string -> Prop) (m : M storage A) :
  keeps (fun w => I (error w)) (fun _ => True) (onStorage m).
Proof.
  intros w H. unfold onStorage. destruct (m (localStorage w)).
  simpl. split; [exact H|auto].
Qed.

Ltac error_leaf :=
  lazymatch goal with
  | |- keeps _ _ (onStorage _) => apply onStorage_error
  | |- _ => intros ? ?; first [assumption | simpl; tauto]
  end.

Ltac error_body := repeat frame_step; error_leaf.

Lemma perform_error o e w :
  o <> OpOnline -> o <> OpOffline ->
  among (advisories o) (error (perform o e w).2).
Proof.
  intros H1 H2. destruct o; try congruence; simpl perform; simpl advisories.
  - unfold loadTodos. unfold setLoading at 1. unfold bind at 1, modify at 1.
    unfold setError at 1.
    apply (reset_then_keeps
             (fun w => among ["Using offline data. Some features may be limited."]
                             (error w))); [intros; exact Logic.I|].
    unfold_hook. error_body.
  - unfold addTodo. destruct (negb _); [simpl; tauto|].
    unfold setError at 1.
    apply (reset_then_keeps
             (fun w => among ["Todo text cannot be empty";
                              "Failed to add todo. Please try again."] (error w)));
      [intros; exact Logic.I|].
    unfold_hook. error_body.
  - unfold updateTodo. unfold setError at 1.
    apply (reset_then_keeps
             (fun w => among ["Failed to update todo. Please try again."] (error w)));
      [intros; exact Logic.I|].
    unfold_hook. error_body.
  - unfold toggleTodoComplete. unfold bind at 1, gets at 1. unfold setError at 1.
    apply (reset_then_keeps
             (fun w => among ["Failed to toggle todo. Please try again."] (error w)));
      [intros; exact Logic.I|].
    unfold_hook. error_body.
  - unfold deleteTodo. unfold setError at 1.
    apply (reset_then_keeps
             (fun w => among ["Failed to delete todo. Please try again."] (error w)));
      [intros; exact Logic.I|].
    unfold_hook. error_body.
  - unfold deleteCompletedTodos. unfold bind at 1, gets at 1. unfold setError at 1.
    apply (reset_then_keeps
             (fun w => among ["Failed to delete completed todos. Please try again."]
                             (error w)));
      [intros; exact Logic.I|].
    unfold_hook. error_body.
  - exact Logic.I.
Qed.

(** X9.  The five mutations and [clearError] never throw to their caller,
    and whatever went wrong (a rejected request, a thrown TypeError, a
    cache that cannot be used) shows only as the operation's own fixed
    message: after any operation [error] is [null] or one of the texts
    written in that operation. *)
Theorem failures_show_as_advisories (o : op) (e : env) (w : world) :
  (o <> OpLoad -> (perform o e w).1 = Ok tt) /\
  (o <> OpOnline -> o <> OpOffline ->
     among (advisories o) (error (perform o e w).2)).
Proof.
  split; [apply mutations_return|apply perform_error].
Qed.

Lemma among_all o x :
  among (advisories o) x -> among all_advisories x.
Proof.
  destruct x as [m|]; [|auto]. simpl.
  destruct o; simpl; intros H; repeat (destruct H as [<-|H]; [tauto|]);
    try contradiction.
Qed.

Lemma run_error script w :
  among all_advisories (error w) ->
  among all_advisories (error (run script w)).
Proof.
  revert w. induction script as [|[o e] script IH]; simpl; intros w Hw; [exact Hw|].
  apply IH.
  destruct (classic_op o) as [[-> | ->]|[H1 H2]]; [exact Hw|exact Hw|].
  apply (among_all o), perform_error; assumption.
Qed.

(** X10.  In every state the hook can reach, [error] is [null] or one of
    seven fixed texts: no message of the server and no text of a thrown
    exception is ever shown. *)
Theorem error_is_a_fixed_text (script : list (op * env)) (onLine : bool)
  (ls : storage) :
  among all_advisories (error (run script (initial onLine ls))).
Proof. apply run_error. exact Logic.I. Qed.

(** *** The online branches of the mutations *)

Lemma adoptId_adopted d : live d -> adoptId d = Ok (adopted d).
Proof.
  intros Hd. unfold adoptId, adopted. rewrite !(get_prop_ok _ _ Hd). simpl.
  destruct d; try discriminate Hd; try reflexivity.
  simpl. destruct (truthy (default VUndefined (o !! "_id"))); simpl; [|reflexivity].
  destruct (truthy (default VUndefined (o !! "id"))); reflexivity.
Qed.

Lemma adopted_live d : live d -> live (adopted d).
Proof.
  intros Hd. destruct d; try discriminate Hd; try reflexivity.
  unfold adopted. destruct (_ && _); reflexivity.
Qed.

Lemma adopted_id_object d :
  truthy (prop (adopted d) "id") = true -> exists o, d = VObj o.
Proof. destruct d; simpl; try discriminate. eauto. Qed.

Lemma prop_live v k : live (prop v k) -> live v.
Proof. destruct v; simpl; try discriminate; reflexivity. Qed.

Lemma addTodo_online_eq e text w :
  isOnline w = true -> trim text <> "" ->
  addTodo e text w =
    try_catch
      (response <- liftR (api e (Api.createTodo (obj [("text", VStr (trim text))]))) ;;
       newTodo <- liftR (get_prop response "data") ;;
       newTodo <- liftR (adoptId newTodo) ;;
       i <- liftR (get_prop newTodo "id") ;;
       if negb (truthy i) then
         throw (Error "Invalid todo response from server")
       else
         updateTodos (append newTodo) ;;
         _ <- onStorage (addTodoToStorage (rt e) newTodo) ;;
         ret tt)
      (fun error => setError (Some "Failed to add todo. Please try again."))
      (with_error None w).
Proof.
  destruct w as [ts st lo er on ls0]. simpl. intros -> Hne.
  unfold addTodo. simpl.
  destruct (String.eqb_spec (trim text) "") as [E|_]; [contradiction|]. simpl.
  unfold bind at 1, setError at 1, modify. unfold try_catch.
  unfold bind at 1, gets. reflexivity.
Qed.

(** X11.  Online, when the answer to the create request carries no record
    with a truthy [id] or [_id] (whatever its shape), [addTodo] appends
    nothing, writes nothing to the cache and sets the add advisory. *)
Theorem add_online_needs_an_id (e : env) (text : string) (w : world)
  (response : value) :
  isOnline w = true -> trim text <> "" ->
  api e (Api.createTodo (obj [("text", VStr (trim text))])) = Ok response ->
  truthy (prop (prop response "data") "id") = false ->
  truthy (prop (prop response "data") "_id") = false ->
  addTodo e text w =
    (Ok tt, with_error (Some "Failed to add todo. Please try again.") w).
Proof.
  intros Hon Hne Hr Hid H_id. rewrite (addTodo_online_eq _ _ _ Hon Hne).
  unfold try_catch. unfold bind at 1, liftR at 1. rewrite Hr.
  unfold bind at 1, liftR at 1.
  destruct (is_nullish response) eqn:Hresp.
  { destruct response; try discriminate Hresp; reflexivity. }
  rewrite (get_prop_ok _ _ Hresp).
  unfold bind at 1, liftR at 1.
  destruct (is_nullish (prop response "data")) eqn:Hd.
  { destruct (prop response "data"); try discriminate Hd; reflexivity. }
  rewrite (adoptId_adopted _ Hd).
  assert (Ha : adopted (prop response "data") = prop response "data").
  { unfold adopted. destruct (prop response "data"); try reflexivity.
    rewrite H_id. reflexivity. }
  rewrite Ha. unfold bind at 1, liftR at 1. rewrite (get_prop_ok _ _ Hd).
  rewrite Hid. reflexivity.
Qed.

Lemma add_online_needs_an_id_witness :
  addTodo (mkEnv accepting sample_runtime) "milk" (sample_world true) =
    (Ok tt, with_error (Some "Failed to add todo. Please try again.")
                       (sample_world true)).
Proof.
  apply (add_online_needs_an_id (mkEnv accepting sample_runtime) "milk"
           (sample_world true) (obj [("success", VBool true)]));
    vm_compute; first [reflexivity | discriminate].
Defined.

Lemma app_live u l : live u -> no_nullish l -> no_nullish (l ++ [u]).
Proof. intros Hu Hl. apply Forall_app. split; [exact Hl|repeat constructor; exact Hu]. Qed.

(** X12.  Online, when the create request is answered with a record that
    has a truthy [id] (its own, or its [_id] copied onto it), [addTodo]
    appends that record to the list.  With a cache holding a list of
    records, the list with the record appended is written to the cache,
    which holds it when the browser takes the write and keeps the old
    list when it refuses; no error is set either way.  With a cache
    holding something else the record stays in the list shown, the cache
    is left as it is, and the add advisory is set although the item was
    created. *)
Theorem add_online_appends (e : env) (text : string) (w : world)
  (response : value) :
  isOnline w = true -> trim text <> "" ->
  api e (Api.createTodo (obj [("text", VStr (trim text))])) = Ok response ->
  truthy (prop (adopted (prop response "data")) "id") = true ->
  no_nullish (todos w) ->
  let newTodo := adopted (prop response "data") in
  (forall l, cache_holds (localStorage w) l ->
     let ls := saved (rt e) (l ++ [created (rt e) newTodo]) (localStorage w) in
     addTodo e text w = (Ok tt, updated_world (todos w ++ [newTodo]) ls w) /\
     cachedTodos ls =
       if takes (rt e) (localStorage w) (l ++ [created (rt e) newTodo])
       then jsonify (VArr (l ++ [created (rt e) newTodo])) else VArr l) /\
  ((forall l, cachedTodos (localStorage w) <> VArr l) ->
     addTodo e text w =
       (Ok tt, with_error (Some "Failed to add todo. Please try again.")
                 (updated_world (todos w ++ [newTodo]) (localStorage w) w))).
Proof.
  intros Hon Hne Hr Hid Hn newTodo.
  destruct (adopted_id_object _ Hid) as [o Ho].
  assert (Hd : live (prop response "data")) by (rewrite Ho; reflexivity).
  pose proof (prop_live _ _ Hd) as Hresp.
  pose proof (adopted_live _ Hd) as Hnew. fold newTodo in Hnew, Hid.
  assert (Hstart :
    addTodo e text w =
      try_catch
        (_ <- onStorage (addTodoToStorage (rt e) newTodo) ;; ret tt)
        (fun error => setError (Some "Failed to add todo. Please try again."))
        (updated_world (todos w ++ [newTodo]) (localStorage w) w)).
  { rewrite (addTodo_online_eq _ _ _ Hon Hne).
    unfold try_catch. unfold bind at 1, liftR at 1. rewrite Hr.
    unfold bind at 1, liftR at 1. rewrite (get_prop_ok _ _ Hresp).
    unfold bind at 1, liftR at 1. rewrite (adoptId_adopted _ Hd). fold newTodo.
    unfold bind at 1, liftR at 1. rewrite (get_prop_ok _ _ Hnew), Hid.
    cbn [negb]. unfold bind at 1.
    rewrite (updateTodos_pure (append newTodo) (todos w ++ [newTodo]));
      [|reflexivity|apply app_live; assumption].
    reflexivity. }
  rewrite Hstart. clear Hstart. clearbody newTodo.
  unfold try_catch, bind, onStorage, updated_world, ret.
  cbn [todos stats loading error isOnline localStorage].
  split.
  - intros l Hc. split; [|apply (cachedTodos_after_write _ _ _ _ Hc)].
    rewrite (addTodoToStorage_pure _ _ _ _ Hc Hnew). reflexivity.
  - intros Hno.
    destruct (addTodoToStorage_no_list (rt e) newTodo (localStorage w) Hno) as [m ->].
    reflexivity.
Qed.

Lemma add_online_appends_witness :
  (let ls := saved sample_runtime
               ([sample_record] ++ [created sample_runtime (adopted done_record)])
               (cache_of sample_record) in
   addTodo (mkEnv (fun _ => Ok (obj [("data", done_record)])) sample_runtime)
           "walk dog" (sample_world true)
   = (Ok tt, updated_world ([sample_record] ++ [adopted done_record]) ls
               (sample_world true)) /\
   cachedTodos ls
   = jsonify (VArr ([sample_record]
                    ++ [created sample_runtime (adopted done_record)]))) /\
  (let ls := saved full_runtime
               ([sample_record] ++ [created full_runtime (adopted done_record)])
               (cache_of sample_record) in
   addTodo (mkEnv (fun _ => Ok (obj [("data", done_record)])) full_runtime)
           "walk dog" (sample_world true)
   = (Ok tt, updated_world ([sample_record] ++ [adopted done_record]) ls
               (sample_world true)) /\
   cachedTodos ls = VArr [sample_record]).
Proof.
  assert (Hne : trim "walk dog" <> "") by (vm_compute; discriminate).
  assert (Hn : no_nullish [sample_record]) by (repeat constructor).
  split.
  - apply (add_online_appends
             (mkEnv (fun _ => Ok (obj [("data", done_record)])) sample_runtime)
             "walk dog" (sample_world true) (obj [("data", done_record)])
             eq_refl Hne eq_refl eq_refl Hn).
    exact sample_cache_holds.
  - apply (add_online_appends
             (mkEnv (fun _ => Ok (obj [("data", done_record)])) full_runtime)
             "walk dog" (sample_world true) (obj [("data", done_record)])
             eq_refl Hne eq_refl eq_refl Hn).
    exact sample_cache_holds.
Defined.










(** *** loadTodos and the statistics request *)

Lemma stats_step_ignored e (pagination : value) v (k : M world unit) w :
  no_nullish (todos w) ->
  (statsData <-
     (if truthy pagination
      then s <- liftR (calculateStats v) ;; ret (stats_object s)
      else getStatsFromAPI e) ;; k) w
  = if truthy pagination
    then match calculateStats v with
         | Ok _ => k w
         | Throw x => (Throw x, w)
         end
    else k w.
Proof.
  intros Hn. unfold bind at 1. destruct (truthy pagination).
  - unfold bind, liftR, ret. destruct (calculateStats v); reflexivity.
  - destruct (getStatsFromAPI_ok e w Hn) as [x ->]. reflexivity.
Qed.

Lemma bind_cong {S A B} (m : M S A) (k1 k2 : A -> M S B) s :
  (forall a s', m s = (Ok a, s') -> k1 a s' = k2 a s') ->
  bind m k1 s = bind m k2 s.
Proof.
  intros H. unfold bind. destruct (m s) as [[a|x] s']; [|reflexivity].
  apply H. reflexivity.
Qed.

Lemma loadTodos_try_same e1 e2 w :
  no_nullish (todos w) ->
  api e1 Api.getAllTodos = api e2 Api.getAllTodos -> rt e1 = rt e2 ->
  loadTodos_try e1 w = loadTodos_try e2 w.
Proof.
  intros Hn He Hrt. unfold loadTodos_try. rewrite Hrt.
  apply bind_cong. intros online w1 [= <- <-].
  destruct (isOnline w); [|reflexivity].
  rewrite He.
  apply bind_cong. intros response w1 [= _ <-].
  apply bind_cong. intros d w1 [= _ <-].
  apply bind_cong. intros p w1 [= _ <-].
  rewrite !(stats_step_ignored _ _ _ _ _ Hn). reflexivity.
Qed.

Lemma alike_refl {A} (x : result A * world) : alike x x.
Proof. repeat split. Qed.

Lemma bind_alike {A B} (m : M world A) (k1 k2 : A -> M world B) s :
  (forall a s', m s = (Ok a, s') -> alike (k1 a s') (k2 a s')) ->
  alike (bind m k1 s) (bind m k2 s).
Proof.
  intros H. unfold bind. destruct (m s) as [[a|x] s']; [|apply alike_refl].
  apply H. reflexivity.
Qed.

Lemma syncTodosWithStorage_alike c1 c2 v w :
  alike (onStorage (syncTodosWithStorage c1 v) w)
        (onStorage (syncTodosWithStorage c2 v) w).
Proof.
  unfold onStorage. rewrite !syncTodosWithStorage_eq.
  repeat split. intros H. discriminate H.
Qed.

Lemma loadTodos_try_alike e1 e2 w :
  no_nullish (todos w) ->
  api e1 Api.getAllTodos = api e2 Api.getAllTodos ->
  alike (loadTodos_try e1 w) (loadTodos_try e2 w).
Proof.
  intros Hn He. unfold loadTodos_try.
  apply bind_alike. intros online w1 [= <- <-].
  destruct (isOnline w); [|apply alike_refl].
  rewrite He.
  apply bind_alike. intros response w1 [= _ <-].
  apply bind_alike. intros d w1 [= _ <-].
  apply bind_alike. intros p w1 [= _ <-].
  rewrite !(stats_step_ignored _ _ _ _ _ Hn).
  destruct (truthy p); [destruct (calculateStats _); [|apply alike_refl]|];
    (apply bind_alike; intros [] w1 _; apply syncTodosWithStorage_alike).
Qed.

(** X16.  What [loadTodos] shows never comes from the statistics request:
    two remotes that answer the list request alike give the same result,
    list, statistics, loading flag and error, whatever they answer to
    [getTodoStats] and whatever the browser does with the writes; in the
    same browser they give the same cache too. *)
Theorem load_ignores_remote_stats (e1 e2 : env) (w : world) :
  no_nullish (todos w) ->
  api e1 Api.getAllTodos = api e2 Api.getAllTodos ->
  (loadTodos e1 w).1 = (loadTodos e2 w).1 /\
  todos (loadTodos e1 w).2 = todos (loadTodos e2 w).2 /\
  stats (loadTodos e1 w).2 = stats (loadTodos e2 w).2 /\
  loading (loadTodos e1 w).2 = loading (loadTodos e2 w).2 /\
  error (loadTodos e1 w).2 = error (loadTodos e2 w).2 /\
  isOnline (loadTodos e1 w).2 = isOnline (loadTodos e2 w).2 /\
  (rt e1 = rt e2 -> loadTodos e1 w = loadTodos e2 w).
Proof.
  intros Hn He.
  assert (Hsame : rt e1 = rt e2 -> loadTodos e1 w = loadTodos e2 w).
  { intros Hrt. rewrite !loadTodos_eq.
    rewrite (loadTodos_try_same e1 e2 (loading_started w) Hn He Hrt). reflexivity. }
  assert (Hal : alike (loadTodos e1 w) (loadTodos e2 w)).
  { pose proof (loadTodos_try_alike e1 e2 (loading_started w) Hn He) as H.
    rewrite !loadTodos_eq.
    destruct (loadTodos_try e1 (loading_started w)) as [[a1|x1] s1];
      destruct (loadTodos_try e2 (loading_started w)) as [[a2|x2] s2];
      destruct H as (H1 & H2 & H3 & H4 & H5 & H6 & H7); cbn [fst snd] in *;
      try discriminate H1.
    - unfold alike, loaded. cbn [fst snd todos stats loading error isOnline].
      repeat split; try assumption. intros Hx. discriminate Hx.
    - rewrite (H7 eq_refl). apply alike_refl. }
  destruct Hal as (H1 & H2 & H3 & H4 & H5 & H6 & _).
  repeat split; assumption.
Qed.

Lemma load_ignores_remote_stats_witness :
  loadTodos (mkEnv accepting sample_runtime) (sample_world true)
  = loadTodos
      (mkEnv (fun rq => match rq with
                        | Api.getTodoStats => Throw (Error "no statistics")
                        | _ => accepting rq
                        end) sample_runtime)
      (sample_world true) /\
  todos (loadTodos (mkEnv accepting sample_runtime) (sample_world true)).2
  = todos (loadTodos
             (mkEnv (fun rq => match rq with
                               | Api.getTodoStats => Throw (Error "no statistics")
                               | _ => accepting rq
                               end) full_runtime)
             (sample_world true)).2.
Proof.
  assert (Hn : no_nullish (todos (sample_world true))) by (repeat constructor).
  split.
  - apply (load_ignores_remote_stats (mkEnv accepting sample_runtime)
             (mkEnv (fun rq => match rq with
                               | Api.getTodoStats => Throw (Error "no statistics")
                               | _ => accepting rq
                               end) sample_runtime)
             (sample_world true) Hn eq_refl).
    reflexivity.
  - apply (load_ignores_remote_stats (mkEnv accepting sample_runtime)
             (mkEnv (fun rq => match rq with
                               | Api.getTodoStats => Throw (Error "no statistics")
                               | _ => accepting rq
                               end) full_runtime)
             (sample_world true) Hn eq_refl).
Defined.

(** *** String.prototype.trim *)

Lemma units_inj s t : units s = units t -> s = t.
Proof.
  revert t. induction s as [|a s IH]; intros [|b t]; simpl; try discriminate;
    [reflexivity|].
  intros [= -> H]. f_equal. apply IH, H.
Qed.

Lemma units_length s : List.length (units s) = String.length s.
Proof. induction s as [|a s IH]; simpl; [reflexivity|]. rewrite IH. reflexivity. Qed.

Lemma units_rev_app s t :
  units (String.rev_app s t) = (List.rev (units s) ++ units t)%list.
Proof.
  revert t. induction s as [|a s IH]; intros t; simpl; [reflexivity|].
  rewrite IH. simpl. rewrite <- app_assoc. reflexivity.
Qed.

Lemma units_rev s : units (String.rev s) = List.rev (units s).
Proof. unfold String.rev. rewrite units_rev_app. simpl. apply app_nil_r. Qed.

Lemma units_trimStart s : units (trimStart s) = dropSpace (units s).
Proof.
  induction s as [|a s IH]; simpl; [reflexivity|].
  destruct (is_white_space a); [exact IH|reflexivity].
Qed.

Lemma units_trim s :
  units (trim s) = List.rev (dropSpace (List.rev (dropSpace (units s)))).
Proof.
  unfold trim, trimEnd. rewrite units_rev, units_trimStart, units_rev, units_trimStart.
  reflexivity.
Qed.

Lemma dropSpace_suffix l : exists ws, l = (ws ++ dropSpace l)%list.
Proof.
  induction l as [|a l [ws IH]]; simpl; [exists []; reflexivity|].
  destruct (is_white_space a).
  - exists (a :: ws). simpl. f_equal. exact IH.
  - exists []. reflexivity.
Qed.

Lemma dropSpace_length l : (List.length (dropSpace l) <= List.length l)%nat.
Proof.
  induction l as [|a l IH]; simpl; [lia|].
  destruct (is_white_space a); simpl; lia.
Qed.

Lemma dropSpace_head l a l' : dropSpace l = a :: l' -> is_white_space a = false.
Proof.
  induction l as [|b l IH]; simpl; [discriminate|].
  destruct (is_white_space b) eqn:E; [exact IH|].
  intros [= <- _]. exact E.
Qed.

Lemma dropSpace_fixed l a l' : dropSpace l = a :: l' -> dropSpace (a :: l') = a :: l'.
Proof. intros H. simpl. rewrite (dropSpace_head _ _ _ H). reflexivity. Qed.

Lemma dropSpace_idem l : dropSpace (dropSpace l) = dropSpace l.
Proof.
  destruct (dropSpace l) as [|a l'] eqn:E; [reflexivity|].
  apply (dropSpace_fixed _ _ _ E).
Qed.

Lemma trim_length s : (String.length (trim s) <= String.length s)%nat.
Proof.
  rewrite <- !units_length, units_trim. rewrite length_rev.
  etransitivity; [apply dropSpace_length|]. rewrite length_rev.
  apply dropSpace_length.
Qed.

Lemma trim_idempotent s : trim (trim s) = trim s.
Proof.
  apply units_inj. rewrite (units_trim (trim s)), (units_trim s).
  set (l := dropSpace (units s)).
  set (T := List.rev (dropSpace (List.rev l))).
  assert (HT : dropSpace T = T).
  { destruct T as [|a T'] eqn:ET; [reflexivity|].
    destruct (dropSpace_suffix (List.rev l)) as [ws Hws].
    assert (Hl : l = (T ++ List.rev ws)%list).
    { rewrite <- (rev_involutive l), Hws, rev_app_distr. subst T. rewrite ET.
      reflexivity. }
    rewrite ET in Hl. simpl in Hl. subst l.
    simpl. rewrite (dropSpace_head _ _ _ Hl). reflexivity. }
  rewrite HT. subst T. rewrite rev_involutive, dropSpace_idem. reflexivity.
Qed.

(** *** What the backend passes to the store *)

Lemma blank_false_text text :
  Controller.blank text = Ok false -> Controller.too_long text = false ->
  exists t, Controller.js_trim text = Ok t /\ valid_text t.
Proof.
  unfold Controller.blank. destruct (negb (truthy text)) eqn:Ht; [discriminate|].
  destruct text; simpl; try discriminate.
  intros Hb Hl. exists (trim s). split; [reflexivity|].
  split; [apply trim_idempotent|]. split.
  - destruct (String.length (trim s)); [discriminate|lia].
  - pose proof (trim_length s).
    destruct (Z.ltb_spec 500 (Z.of_nat (String.length s))); [discriminate|lia].
Qed.

(** X17.  [createTodo] hands the store only validated text: whatever the
    request body holds, [save] is consulted at most on a document whose
    text is trimmed, not empty and at most 500 long, so two stores that
    agree on such documents are answered alike. *)
Theorem createTodo_saves_valid_text (req_body : value)
  (save1 save2 : value -> result value) :
  (forall t, valid_text t ->
     save1 (obj [("text", VStr t)]) = save2 (obj [("text", VStr t)])) ->
  Controller.createTodo req_body save1 = Controller.createTodo req_body save2.
Proof.
  intros H. unfold Controller.createTodo.
  destruct (get_prop req_body "text") as [text|x]; [|reflexivity]. simpl.
  destruct (Controller.blank text) as [[|]|x] eqn:Hb; try reflexivity. simpl.
  destruct (Controller.too_long text) eqn:Hl; [reflexivity|].
  destruct (blank_false_text _ Hb Hl) as (t & -> & Ht). simpl.
  rewrite (H t Ht). reflexivity.
Qed.

Lemma text_of_document t : prop (obj [("text", VStr t)]) "text" = VStr t.
Proof. unfold prop, obj. simpl. rewrite lookup_insert_eq. reflexivity. Qed.

Lemma createTodo_saves_valid_text_witness :
  Controller.createTodo (obj [("text", VStr "  buy milk ")]) (fun doc => Ok doc)
  = Controller.createTodo (obj [("text", VStr "  buy milk ")])
      (fun doc => if strict_eq_str (prop doc "text") ""
                  then Throw (Error "empty text stored") else Ok doc).
Proof.
  apply createTodo_saves_valid_text. intros t [_ [Ht _]].
  rewrite text_of_document. simpl.
  destruct t; [simpl in Ht; lia|reflexivity].
Defined.

Lemma undefined_or_not v : v = VUndefined \/ v <> VUndefined.
Proof. destruct v; [left; reflexivity|right; discriminate..]. Qed.

Lemma checked_text_cases text :
  (exists resp, Controller.checked_text text ∅ = Ok (inl resp)) \/
  (exists x, Controller.checked_text text ∅ = Throw x) \/
  (text = VUndefined /\ Controller.checked_text text ∅ = Ok (inr ∅)) \/
  (exists t, valid_text t /\
             Controller.checked_text text ∅ = Ok (inr (<["text" := VStr t]> ∅))).
Proof.
  destruct (undefined_or_not text) as [->|Hne].
  { right. right. left. split; reflexivity. }
  assert (E : Controller.checked_text text ∅ =
              (let? b := Controller.blank text in
               if b then Ok (inl (Controller.failure 400 "Todo text cannot be empty"))
               else if Controller.too_long text then
                 Ok (inl (Controller.failure 400 "Todo text cannot exceed 500 characters"))
               else let? t := Controller.js_trim text in
                    Ok (inr (<["text" := VStr t]> ∅)))).
  { destruct text; try reflexivity. contradiction. }
  rewrite E. clear E.
  destruct (Controller.blank text) as [[|]|x] eqn:Hb; simpl; eauto.
  destruct (Controller.too_long text) eqn:Hl; eauto.
  destruct (blank_false_text _ Hb Hl) as (t & -> & Ht). simpl.
  right. right. right. eauto.
Qed.

Lemma valid_patch_text t : valid_text t -> valid_patch (<["text" := VStr t]> ∅).
Proof.
  intros Ht. split.
  - intros E. apply (f_equal (fun m => m !! "text")) in E.
    rewrite lookup_insert_eq, lookup_empty in E. discriminate.
  - intros k v Hk. apply lookup_insert_Some in Hk as [[<- <-]|[_ Hk]].
    + left. eauto.
    + rewrite lookup_empty in Hk. discriminate.
Qed.

Lemma valid_patch_completed b (u : gmap string value) :
  u = ∅ \/ valid_patch u -> valid_patch (<["completed" := VBool b]> u).
Proof.
  intros Hu. split.
  - intros E. apply (f_equal (fun m => m !! "completed")) in E.
    rewrite lookup_insert_eq, lookup_empty in E. discriminate.
  - intros k v Hk. apply lookup_insert_Some in Hk as [[<- <-]|[_ Hk]].
    + right. eauto.
    + destruct Hu as [->|[_ Hu]]; [rewrite lookup_empty in Hk; discriminate|].
      apply (Hu k v Hk).
Qed.

(** X18.  [updateTodo] hands the store only a well-formed id and a
    validated update: a trimmed, non-empty text of at most 500
    characters, a boolean [completed], or both, and never an empty
    update.  Two stores that agree on such requests are answered alike. *)
Theorem updateTodo_sends_valid_patch (id : string) (req_body : value)
  (store1 store2 : string -> value -> result value) :
  (forall u, Controller.is_object_id id = true -> valid_patch u ->
     store1 id (VObj u) = store2 id (VObj u)) ->
  Controller.updateTodo id req_body store1 = Controller.updateTodo id req_body store2.
Proof.
  intros H. unfold Controller.updateTodo.
  destruct (get_prop req_body "text") as [text|x]; [|reflexivity]. simpl.
  destruct (get_prop req_body "completed") as [completed|x]; [|reflexivity]. simpl.
  destruct (Controller.is_object_id id) eqn:Hid; [|reflexivity]. simpl.
  assert (H' : forall u, valid_patch u -> store1 id (VObj u) = store2 id (VObj u))
    by (intros u; apply H; reflexivity).
  clear H. rename H' into H.
  destruct (checked_text_cases text)
    as [[resp ->]|[[x ->]|[[-> ->]|(t & Ht & ->)]]]; try reflexivity; simpl.
  - destruct (undefined_or_not completed) as [->|Hc]; [reflexivity|].
    assert (E : match completed with
                | VUndefined => (∅ : gmap string value)
                | _ => <["completed" := VBool (truthy completed)]> ∅
                end = <["completed" := VBool (truthy completed)]> ∅).
    { destruct completed; try reflexivity. contradiction. }
    rewrite E. clear E.
    destruct (Nat.eqb _ 0); [reflexivity|].
    rewrite (H _ (valid_patch_completed _ ∅ (or_introl eq_refl))). reflexivity.
  - set (u := match completed with
              | VUndefined => <["text" := VStr t]> ∅
              | _ => <["completed" := VBool (truthy completed)]>
                       (<["text" := VStr t]> ∅)
              end).
    assert (Hu : valid_patch u).
    { subst u. destruct completed;
        first [ apply valid_patch_text, Ht
              | apply valid_patch_completed; right; apply valid_patch_text, Ht ]. }
    destruct (Nat.eqb _ 0); [reflexivity|].
    rewrite (H u Hu). reflexivity.
Qed.

Lemma updateTodo_sends_valid_patch_witness :
  Controller.updateTodo "0123456789abcdef01234567"
    (obj [("text", VStr " call mum "); ("completed", VNum 1)])
    (fun _ d => Ok d)
  = Controller.updateTodo "0123456789abcdef01234567"
      (obj [("text", VStr " call mum "); ("completed", VNum 1)])
      (fun _ d => if strict_eq_str (prop d "text") ""
                  then Throw (Error "empty text stored") else Ok d).
Proof.
  apply updateTodo_sends_valid_patch. intros u _ [_ Hu].
  unfold prop. destruct (u !! "text") as [v|] eqn:E; [|reflexivity].
  destruct (Hu _ _ E) as [(_ & t & -> & _ & Ht & _)|[Hk _]]; [|discriminate Hk].
  simpl. destruct t; [simpl in Ht; lia|reflexivity].
Defined.

(** *** The shape of the answers *)

Lemma failure_well_formed s m :
  In s [400; 404] -> well_formed (Controller.failure s m).
Proof.
  intros Hs. unfold well_formed, Controller.failure. simpl.
  split; [|split].
  - destruct Hs as [<-|[<-|[]]]; reflexivity.
  - destruct Hs as [<-|[<-|[]]]; simpl; tauto.
  - eexists. reflexivity.
Qed.

Lemma success_well_formed s m fields :
  In s [200; 201] ->
  Forall (fun f => f.1 <> "success" /\ f.1 <> "message") fields ->
  well_formed (TodoController.success s m fields).
Proof.
  intros Hs Hf. unfold well_formed, TodoController.success, obj.
  cbn [Controller.body Controller.status prop].
  split; [|split].
  - simpl. rewrite lookup_insert_eq. simpl.
    destruct Hs as [<-|[<-|[]]]; reflexivity.
  - destruct Hs as [<-|[<-|[]]]; simpl; tauto.
  - exists m. simpl. rewrite lookup_insert_ne by discriminate.
    rewrite lookup_insert_eq. reflexivity.
Qed.

Lemma on_error_well_formed what e : well_formed (Controller.on_error what e).
Proof.
  destruct e; unfold well_formed; simpl; (split; [reflexivity|split; [tauto|]]);
    eexists; reflexivity.
Qed.

Lemma run_well_formed what r :
  (forall resp, r = Ok resp -> well_formed resp) ->
  well_formed (Controller.run what r).
Proof.
  intros H. destruct r as [resp|e]; simpl; [apply H; reflexivity|].
  apply on_error_well_formed.
Qed.

Lemma internal_well_formed c what r :
  (forall resp, r = Ok resp -> well_formed resp) ->
  well_formed (TodoController.internal c what r).
Proof.
  intros H. destruct r as [resp|e]; simpl; [apply H; reflexivity|].
  unfold well_formed. simpl. split; [reflexivity|]. split; [tauto|].
  eexists. reflexivity.
Qed.

Ltac shape :=
  repeat match goal with
         | |- forall resp, _ = Ok resp -> well_formed resp =>
             let resp := fresh "resp" in let H := fresh "H" in intros resp H
         | H : rbind ?r _ = Ok _ |- _ =>
             let E := fresh "E" in destruct r eqn:E; simpl in H; [|discriminate H]
         | H : (if ?b then _ else _) = Ok _ |- _ => destruct b
         | H : (match ?c with inl _ => _ | inr _ => _ end) = Ok _ |- _ => destruct c
         | H : Ok _ = Ok _ |- _ => injection H as <-
         | |- well_formed (Controller.failure _ _) =>
             apply failure_well_formed; simpl; tauto
         | |- well_formed
                (Controller.mkResponse ?s
                   (obj (("success", VBool true) :: ("message", VStr ?m) :: ?f))) =>
             change (well_formed (TodoController.success s m f))
         | |- well_formed (TodoController.success _ _ _) =>
             apply success_well_formed;
             [simpl; tauto|repeat constructor; simpl; discriminate]
         end.

Lemma createTodo_well_formed body save :
  well_formed (Controller.createTodo body save).
Proof.
  unfold Controller.createTodo. apply run_well_formed. shape.
Qed.

Lemma checked_text_failure text u r :
  Controller.checked_text text u = Ok (inl r) ->
  exists m, r = Controller.failure 400 m.
Proof.
  assert (H : forall (b : result bool),
            (let? b := b in
             if b then Ok (inl (Controller.failure 400 "Todo text cannot be empty"))
             else if Controller.too_long text then
               Ok (inl (Controller.failure 400 "Todo text cannot exceed 500 characters"))
             else let? t := Controller.js_trim text in
                  Ok (inr (<["text" := VStr t]> u))) = Ok (inl r) ->
            exists m, r = Controller.failure 400 m).
  { intros [[|]|x]; simpl; try discriminate.
    - intros [= <-]. eauto.
    - destruct (Controller.too_long text); [intros [= <-]; eauto|].
      destruct (Controller.js_trim text); simpl; discriminate. }
  unfold Controller.checked_text.
  destruct text; [simpl; discriminate|apply (H (Controller.blank _))..].
Qed.

Lemma updateTodo_well_formed id body store :
  well_formed (Controller.updateTodo id body store).
Proof.
  unfold Controller.updateTodo. apply run_well_formed. shape.
  match goal with
  | H : Controller.checked_text _ _ = Ok (inl _) |- _ =>
      destruct (checked_text_failure _ _ _ H) as [m ->]
  end.
  shape.
Qed.

Lemma getAllTodos_well_formed c q : well_formed (TodoController.getAllTodos c q).
Proof. unfold TodoController.getAllTodos. apply internal_well_formed. shape. Qed.

Lemma getTodoById_well_formed c id : well_formed (TodoController.getTodoById c id).
Proof. unfold TodoController.getTodoById. apply internal_well_formed. shape. Qed.

Lemma toggleTodoComplete_well_formed c id :
  well_formed (TodoController.toggleTodoComplete c id).
Proof. unfold TodoController.toggleTodoComplete. apply internal_well_formed. shape. Qed.

Lemma deleteTodo_well_formed c id : well_formed (TodoController.deleteTodo c id).
Proof. unfold TodoController.deleteTodo. apply internal_well_formed. shape. Qed.

Lemma getTodoStats_well_formed c : well_formed (TodoController.getTodoStats c).
Proof. unfold TodoController.getTodoStats. apply internal_well_formed. shape. Qed.

Lemma deleteCompletedTodos_well_formed c :
  well_formed (TodoController.deleteCompletedTodos c).
Proof. unfold TodoController.deleteCompletedTodos. apply internal_well_formed. shape. Qed.

Lemma interceptor_resolves r :
  well_formed r ->
  match Api.interceptor (Api.Responded r) with
  | Ok data => data = Controller.body r /\ prop data "success" = VBool true
  | Throw _ => prop (Controller.body r) "success" = VBool false
  end.
Proof.
  intros (Hs & Hin & _). unfold Api.interceptor.
  destruct (Z.leb 200 (Controller.status r) && Z.ltb (Controller.status r) 300) eqn:E.
  - split; [reflexivity|exact Hs].
  - destruct (Z.eqb _ 400); [exact Hs|].
    destruct (Z.eqb _ 404); [exact Hs|].
    destruct (Z.eqb _ 500); exact Hs.
Qed.

(** X19.  Every handler of the backend answers in the same shape, whatever
    the request and the store do: a status among 200, 201, 400, 404 and
    500, a [message], and a [success] flag that is true exactly on the
    2xx answers.  So the client's interceptor resolves exactly the answers
    with [success: true], to the body itself, and rejects the others. *)
Theorem answers_are_well_formed (c : Todo.collection) (id : string)
  (req_body req_query : value) (save : value -> result value)
  (store : string -> value -> result value) :
  Forall (fun r =>
            well_formed r /\
            match Api.interceptor (Api.Responded r) with
            | Ok data => data = Controller.body r /\ prop data "success" = VBool true
            | Throw _ => prop (Controller.body r) "success" = VBool false
            end)
    [ TodoController.getAllTodos c req_query;
      TodoController.getTodoById c id;
      Controller.createTodo req_body save;
      Controller.updateTodo id req_body store;
      TodoController.toggleTodoComplete c id;
      TodoController.deleteTodo c id;
      TodoController.getTodoStats c;
      TodoController.deleteCompletedTodos c ].
Proof.
  repeat (constructor; [split; [|apply interceptor_resolves]|]);
    try (constructor; fail).
  all: first [ apply getAllTodos_well_formed | apply getTodoById_well_formed
             | apply createTodo_well_formed | apply updateTodo_well_formed
             | apply toggleTodoComplete_well_formed | apply deleteTodo_well_formed
             | apply getTodoStats_well_formed | apply deleteCompletedTodos_well_formed ].
Qed.

(** *** Identifiers *)

Lemma local_id_not_object_id c : Controller.is_object_id (local_id c) = false.
Proof.
  unfold Controller.is_object_id, local_id. simpl.
  apply andb_false_r.
Qed.

Lemma updateTodo_malformed_id id body store :
  Controller.is_object_id id = false -> live body ->
  Controller.updateTodo id body store
    = Controller.failure 400 "Invalid todo ID format".
Proof.
  intros Hid Hb. unfold Controller.updateTodo.
  rewrite !(get_prop_ok _ _ Hb). simpl. rewrite Hid. reflexivity.
Qed.

(** X20.  A request whose id is not 24 hexadecimal digits is answered 400
    "Invalid todo ID format" by the four handlers that take an id, without
    the store being consulted.  The ids the client makes up offline
    (["local_..."]) are of that kind. *)
Theorem malformed_ids_are_rejected (c : Todo.collection) (id : string)
  (req_body : value) (store : string -> value -> result value) (k : runtime) :
  (Controller.is_object_id id = false ->
     TodoController.getTodoById c id
       = Controller.failure 400 "Invalid todo ID format" /\
     TodoController.toggleTodoComplete c id
       = Controller.failure 400 "Invalid todo ID format" /\
     TodoController.deleteTodo c id
       = Controller.failure 400 "Invalid todo ID format" /\
     (live req_body ->
        Controller.updateTodo id req_body store
          = Controller.failure 400 "Invalid todo ID format")) /\
  Controller.is_object_id (local_id k) = false.
Proof.
  split; [|apply local_id_not_object_id].
  intros Hid. unfold TodoController.getTodoById, TodoController.toggleTodoComplete,
    TodoController.deleteTodo. rewrite Hid. simpl.
  repeat split. intros Hb. apply updateTodo_malformed_id; assumption.
Qed.

(** X21.  An item made offline cannot be edited once the client is online
    against this backend: its ["local_..."] id fails the id check, the
    request is rejected with "Bad Request: Invalid todo ID format", and
    [updateTodo] leaves the list, the statistics and the cache as they
    are and sets the update advisory. *)
Theorem offline_items_cannot_be_updated_online (e : env) (b : Api.backend)
  (k : runtime) (d : value) (w : world) :
  isOnline w = true -> api e = Api.served b ->
  Api.answering b = true ->
  Api.params_id b (local_id k) = Some (local_id k) ->
  live d ->
  Api.served b (Api.updateTodo (local_id k) d)
    = Throw (Error "Bad Request: Invalid todo ID format") /\
  updateTodo e (local_id k) d w
    = (Ok tt, with_error (Some "Failed to update todo. Please try again.") w).
Proof.
  intros Hon He Ha Hp Hd.
  assert (Hs : Api.served b (Api.updateTodo (local_id k) d)
               = Throw (Error "Bad Request: Invalid todo ID format")).
  { unfold Api.served. rewrite Ha, Hp.
    rewrite (updateTodo_malformed_id _ _ _ (local_id_not_object_id k)
               (live_jsonify _ Hd)).
    reflexivity. }
  split; [exact Hs|].
  eapply updateTodo_online_rejected; [exact Hon|rewrite He; exact Hs].
Qed.

Lemma offline_items_cannot_be_updated_online_witness :
  updateTodo (mkEnv (Api.served sample_backend) sample_runtime)
             (local_id sample_runtime) (obj [("text", VStr "later")])
             (sample_world true)
  = (Ok tt, with_error (Some "Failed to update todo. Please try again.")
                       (sample_world true)).
Proof.
  apply (offline_items_cannot_be_updated_online
           (mkEnv (Api.served sample_backend) sample_runtime) sample_backend
           sample_runtime (obj [("text", VStr "later")]) (sample_world true));
    reflexivity.
Defined.

(** *** Pagination *)

Lemma round_exact z : Z.abs z < 2 ^ 53 -> round z = Fin z.
Proof.
  intros Hz. unfold round. cbv zeta.
  destruct (Z.leb_spec (Z.log2 (Z.abs z) - 52) 0) as [_|H]; [reflexivity|].
  exfalso. destruct (Z.eq_dec (Z.abs z) 0) as [E|E].
  - rewrite E in H. simpl in H. lia.
  - assert (Z.log2 (Z.abs z) < 53) by (apply Z.log2_lt_pow2; lia). lia.
Qed.

(** Rounding keeps the sign: a number that is not negative rounds to one
    that is not negative, or to [Infinity]. *)
Lemma round_nonneg z :
  0 <= z -> (exists m, round z = Fin m /\ 0 <= m) \/ round z = PInf.
Proof.
  intros Hz. unfold round. cbv zeta.
  destruct (Z.leb (Z.log2 (Z.abs z) - 52) 0); [left; eauto|].
  set (ulp := 2 ^ (Z.log2 (Z.abs z) - 52)).
  match goal with
  | |- context [Z.leb (2 ^ 1024) (?q0 * ulp)] => set (q := q0)
  end.
  destruct (Z.leb (2 ^ 1024) (q * ulp)).
  - right. destruct (Z.ltb_spec z 0); [lia|reflexivity].
  - left. eexists. split; [reflexivity|].
    assert (Hu : 0 <= ulp) by (apply Z.pow_nonneg; lia).
    assert (Hd : 0 <= Z.abs z / ulp) by (apply Z_div_nonneg_nonneg; lia).
    assert (Hq : 0 <= q) by (subst q; destruct (_ || _); lia).
    assert (0 <= Z.sgn z) by lia. nia.
Qed.

Lemma skipped_exact p l :
  1 <= p -> 1 <= l -> p * l < 2 ^ 53 ->
  Todo.skipped (Fin p) (Fin l) = Fin ((p - 1) * l).
Proof.
  intros Hp Hl Hb. unfold Todo.skipped.
  assert (H1 : num_sub (Fin p) (Fin 1) = Fin (p - 1)).
  { change (num_sub (Fin p) (Fin 1)) with (round (p - 1)).
    apply round_exact. nia. }
  rewrite H1. unfold num_mul. cbn [finite negative].
  destruct (Z.eqb_spec ((p - 1) * l) 0) as [E|_].
  - rewrite E. destruct (Z.ltb_spec (p - 1) 0), (Z.ltb_spec l 0); try lia. reflexivity.
  - apply round_exact. nia.
Qed.

Lemma ceil_div_bounds (t : nat) (l : Z) :
  1 <= l ->
  exists tp, Todo.ceil_div t (Fin l) = Fin tp /\
             (tp - 1) * l < Z.of_nat t <= tp * l.
Proof.
  intros Hl. unfold Todo.ceil_div.
  destruct (Z.eqb_spec l 0) as [E|_]; [lia|].
  destruct (Z.ltb_spec l 0); [lia|]. rewrite andb_false_r.
  eexists. split; [reflexivity|].
  pose proof (Z.mul_div_le (- Z.of_nat t) l ltac:(lia)).
  pose proof (Z.mul_succ_div_gt (- Z.of_nat t) l ltac:(lia)).
  nia.
Qed.

Lemma next_page_iff p l t tp :
  1 <= l -> (tp - 1) * l < t <= tp * l -> Z.ltb p tp = Z.ltb (p * l) t.
Proof.
  intros Hl Ht.
  destruct (Z.ltb_spec p tp), (Z.ltb_spec (p * l) t); try reflexivity; nia.
Qed.

Lemma getPaginatedTodos_page (c : Todo.collection) (p l : Z) (t : nat)
  (sortBy sortOrder docs : value) :
  1 <= p -> 1 <= l -> p * l < 2 ^ 53 ->
  let o := Todo.mkOptions (Some (Fin p)) (Some (Fin l)) sortBy sortOrder in
  Todo.find c
    (to_string (Todo.or_default sortBy (VStr "createdAt")))
    (if strict_eq_str (Todo.or_default sortOrder (VStr "desc")) "desc"
     then -1 else 1)
    (Fin ((p - 1) * l)) (Fin l) = Ok docs ->
  Todo.countDocuments c VUndefined = Ok t ->
  0 <= (p - 1) * l /\
  exists tp,
    (tp - 1) * l < Z.of_nat t <= tp * l /\
    Todo.getPaginatedTodos c o =
      Ok (Todo.mkPaginated docs
            (Todo.mkPagination (Fin p) (Fin tp) t (Fin l)
               (Z.ltb (p * l) (Z.of_nat t)) (Z.ltb 1 p))).
Proof.
  intros Hp Hl Hb o Hf Hc. split; [nia|].
  destruct (ceil_div_bounds t l Hl) as (tp & Htp & Ht).
  exists tp. split; [exact Ht|].
  unfold Todo.getPaginatedTodos, o. cbn [Todo.page Todo.limit Todo.sortBy
    Todo.sortOrder from_option]. unfold Datatypes.id.
  rewrite (skipped_exact p l Hp Hl Hb).
  rewrite Hf. cbn [rbind]. rewrite Hc. cbn [rbind]. rewrite Htp.
  unfold Todo.below, Todo.above_one. cbn [num_lt finite from_option].
  unfold Datatypes.id.
  rewrite (next_page_iff p l (Z.of_nat t) tp Hl Ht). reflexivity.
Qed.

(** X22.  For a page number [p >= 1] and a page size [l >= 1] with
    [p * l] below 2^53, where the arithmetic on doubles is exact: when the
    store answers both queries, [getPaginatedTodos] asks for the documents
    from offset [(p - 1) * l] on, and reports [totalPages] as the least
    number of pages of size [l] that hold all [t] documents,
    [hasNextPage] exactly when documents remain after this page
    ([p * l < t]) and [hasPrevPage] exactly when [p > 1].  Beyond 2^53
    the offset asked for is the rounded one: for page 2^53 + 2 and size 3
    it is 3 * 2^53, and for the page [Infinity] it is [Infinity]. *)
Theorem pagination_metadata (c : Todo.collection) (p l : Z) (t : nat)
  (sortBy sortOrder docs : value) :
  (1 <= p -> 1 <= l -> p * l < 2 ^ 53 ->
   let o := Todo.mkOptions (Some (Fin p)) (Some (Fin l)) sortBy sortOrder in
   Todo.find c
     (to_string (Todo.or_default sortBy (VStr "createdAt")))
     (if strict_eq_str (Todo.or_default sortOrder (VStr "desc")) "desc"
      then -1 else 1)
     (Fin ((p - 1) * l)) (Fin l) = Ok docs ->
   Todo.countDocuments c VUndefined = Ok t ->
   0 <= (p - 1) * l /\
   exists tp,
     (tp - 1) * l < Z.of_nat t <= tp * l /\
     Todo.getPaginatedTodos c o =
       Ok (Todo.mkPaginated docs
             (Todo.mkPagination (Fin p) (Fin tp) t (Fin l)
                (Z.ltb (p * l) (Z.of_nat t)) (Z.ltb 1 p)))) /\
  Todo.skipped (Fin (2 ^ 53 + 2)) (Fin 3) = Fin (3 * 2 ^ 53) /\
  Todo.skipped PInf (Fin 3) = PInf.
Proof.
  split; [apply getPaginatedTodos_page|]. split; vm_compute; reflexivity.
Qed.

Lemma pagination_metadata_witness :
  Todo.getPaginatedTodos
    (Todo.mkCollection (fun _ _ _ _ => Ok (VArr [])) (fun _ => Ok 120%nat)
       (fun _ => Ok VNull) (fun _ => Ok VNull) (fun _ => Ok VNull)
       (fun d => Ok d) (fun _ => ""))
    (Todo.mkOptions (Some (Fin 3)) (Some (Fin 50)) VUndefined VUndefined)
  = Ok (Todo.mkPaginated (VArr [])
          (Todo.mkPagination (Fin 3) (Fin 3) 120 (Fin 50) false true)).
Proof.
  destruct (pagination_metadata
              (Todo.mkCollection (fun _ _ _ _ => Ok (VArr [])) (fun _ => Ok 120%nat)
                 (fun _ => Ok VNull) (fun _ => Ok VNull) (fun _ => Ok VNull)
                 (fun d => Ok d) (fun _ => ""))
              3 50 120 VUndefined VUndefined (VArr [])) as [H _].
  destruct H as (_ & tp & _ & H);
    [lia|lia|vm_compute; reflexivity|reflexivity|reflexivity|].
  vm_compute. reflexivity.
Defined.

Lemma validated_page_request (pageNum limitNum : num) :
  TodoController.less pageNum 1 || TodoController.less limitNum 1
    || TodoController.greater limitNum 100 = false ->
  page_request (Todo.skipped pageNum limitNum) limitNum.
Proof.
  intros H. apply orb_false_elim in H as [H H3]. apply orb_false_elim in H as [H1 H2].
  unfold TodoController.less, TodoController.greater in *.
  assert (Hl : match limitNum with
               | Fin l => 1 <= l <= 100
               | NaN => True
               | _ => False
               end).
  { destruct limitNum; cbn in H2, H3; try discriminate; [|exact Logic.I].
    apply Z.ltb_ge in H2, H3. lia. }
  split; [destruct limitNum; tauto|].
  unfold Todo.skipped.
  destruct pageNum as [p| | | |]; cbn in H1; try discriminate.
  - apply Z.ltb_ge in H1.
    change (num_sub (Fin p) (Fin 1)) with (round (p - 1)).
    destruct (round_nonneg (p - 1) ltac:(lia)) as [(q & -> & Hq)| ->].
    + destruct limitNum as [l| | | |]; try contradiction; [|exact Logic.I].
      unfold num_mul. cbn [finite negative].
      destruct (Z.eqb ((q * l)) 0).
      * destruct (Z.ltb_spec q 0), (Z.ltb_spec l 0); try lia. simpl. lia.
      * destruct (round_nonneg (q * l) ltac:(nia)) as [(s & -> & Hs)| ->];
          [exact Hs|exact Logic.I].
    + destruct limitNum as [l| | | |]; try contradiction; [|exact Logic.I].
      unfold num_mul. cbn [finite negative].
      destruct (Z.eqb_spec l 0); [lia|].
      destruct (Z.ltb_spec l 0); [lia|]. exact Logic.I.
  - destruct limitNum as [l| | | |]; try contradiction; [|exact Logic.I].
    change (num_sub PInf (Fin 1)) with PInf.
    unfold num_mul. cbn [finite negative].
    destruct (Z.eqb_spec l 0); [lia|].
    destruct (Z.ltb_spec l 0); [lia|]. exact Logic.I.
  - destruct limitNum; try contradiction; exact Logic.I.
Qed.

Lemma getPaginatedTodos_same c1 c2 pageNum limitNum sortBy sortOrder :
  (forall key direction skip limit, page_request skip limit ->
     Todo.find c1 key direction skip limit = Todo.find c2 key direction skip limit) ->
  Todo.countDocuments c1 VUndefined = Todo.countDocuments c2 VUndefined ->
  page_request (Todo.skipped pageNum limitNum) limitNum ->
  Todo.getPaginatedTodos c1
    (Todo.mkOptions (Some pageNum) (Some limitNum) sortBy sortOrder)
  = Todo.getPaginatedTodos c2
      (Todo.mkOptions (Some pageNum) (Some limitNum) sortBy sortOrder).
Proof.
  intros Hf Hc Hr. unfold Todo.getPaginatedTodos.
  cbn [Todo.page Todo.limit Todo.sortBy Todo.sortOrder from_option].
  unfold Datatypes.id. rewrite (Hf _ _ _ _ Hr), Hc. reflexivity.
Qed.

Lemma get_prop_throws v k x : get_prop v k = Throw x -> exists m, x = TypeError m.
Proof. destruct v; simpl; intros [= <-]; eauto. Qed.

Lemma getPaginatedTodos_throws c o x :
  Todo.getPaginatedTodos c o = Throw x -> x = Error "Failed to get paginated todos".
Proof.
  unfold Todo.getPaginatedTodos.
  destruct (let? todos := _ in _); [discriminate|]. intros [= <-]. reflexivity.
Qed.

(** X23.  [getAllTodos] asks the store only for a page size between 1 and
    100, or NaN where [parseInt] found no number, from an offset that is
    not negative (it is [Infinity] for a page number too long for a
    double) or NaN: two stores that agree on such requests are answered
    alike.  Without [page] and [limit] in the query it asks for offset 0
    and size 50, newest first, and reports [hasNextPage] exactly when
    there are more than 50 documents.  A [page] in which [parseInt] finds
    no number is not turned down: it reaches the store as NaN and is
    answered 200 when the store resolves. *)
Theorem getAllTodos_page_requests (c1 c2 : Todo.collection) (req_query : value) :
  (forall key direction skip limit, page_request skip limit ->
     Todo.find c1 key direction skip limit = Todo.find c2 key direction skip limit) ->
  Todo.countDocuments c1 VUndefined = Todo.countDocuments c2 VUndefined ->
  TodoController.getAllTodos c1 req_query = TodoController.getAllTodos c2 req_query /\
  (forall docs t,
     Todo.find c1 "createdAt" (-1) (Fin 0) (Fin 50) = Ok docs ->
     Todo.countDocuments c1 VUndefined = Ok t ->
     exists tp,
       (tp - 1) * 50 < Z.of_nat t <= tp * 50 /\
       TodoController.getAllTodos c1 (VObj ∅) =
         TodoController.success 200 "Todos retrieved successfully"
           [("data", docs);
            ("pagination",
             TodoController.json_pagination
               (Todo.mkPagination (Fin 1) (Fin tp) t (Fin 50)
                                  (Z.ltb 50 (Z.of_nat t)) false))]) /\
  (forall s docs t,
     TodoController.parseInt (VStr s) = NaN ->
     Todo.find c1 "createdAt" (-1) NaN (Fin 50) = Ok docs ->
     Todo.countDocuments c1 VUndefined = Ok t ->
     Controller.status (TodoController.getAllTodos c1 (obj [("page", VStr s)]))
       = 200).
Proof.
  intros Hf Hc. split; [|split].
  - unfold TodoController.getAllTodos.
    destruct (get_prop req_query "page") as [page|x] eqn:E1;
      [|apply get_prop_throws in E1 as [m ->]; reflexivity]. cbn [rbind].
    destruct (get_prop req_query "limit") as [limit|x] eqn:E2;
      [|apply get_prop_throws in E2 as [m ->]; reflexivity]. cbn [rbind].
    destruct (get_prop req_query "sortBy") as [sortBy|x] eqn:E3;
      [|apply get_prop_throws in E3 as [m ->]; reflexivity]. cbn [rbind].
    destruct (get_prop req_query "sortOrder") as [sortOrder|x] eqn:E4;
      [|apply get_prop_throws in E4 as [m ->]; reflexivity]. cbn [rbind].
    destruct (_ || _ || _) eqn:Hv; [reflexivity|].
    rewrite (getPaginatedTodos_same c1 c2 _ _ _ _ Hf Hc (validated_page_request _ _ Hv)).
    destruct (Todo.getPaginatedTodos c2 _) as [r|x] eqn:E5; [reflexivity|].
    apply getPaginatedTodos_throws in E5 as ->. reflexivity.
  - intros docs t Hd Ht.
    destruct (getPaginatedTodos_page c1 1 50 t VUndefined VUndefined docs
                ltac:(lia) ltac:(lia) ltac:(vm_compute; reflexivity) Hd Ht)
      as (_ & tp & Hb & Hp).
    exists tp. split; [exact Hb|].
    unfold TodoController.getAllTodos.
    assert (Hg : forall k, get_prop (VObj ∅) k = Ok VUndefined).
    { intros k. simpl. rewrite lookup_empty. reflexivity. }
    rewrite !Hg. cbn [rbind Todo.or_default].
    change (TodoController.parseInt (VNum 1)) with (Fin 1).
    change (TodoController.parseInt (VNum 50)) with (Fin 50).
    change (TodoController.less (Fin 1) 1 || TodoController.less (Fin 50) 1
            || TodoController.greater (Fin 50) 100) with false. cbv iota.
    assert (Hp' : Todo.getPaginatedTodos c1
                    (Todo.mkOptions (Some (Fin 1)) (Some (Fin 50))
                       (VStr "createdAt") (VStr "desc"))
                  = Todo.getPaginatedTodos c1
                      (Todo.mkOptions (Some (Fin 1)) (Some (Fin 50))
                         VUndefined VUndefined)) by reflexivity.
    rewrite Hp', Hp. reflexivity.
  - intros s docs t Hs Hd Ht. unfold TodoController.getAllTodos.
    assert (Hg1 : get_prop (obj [("page", VStr s)]) "page" = Ok (VStr s)).
    { unfold obj. simpl. rewrite lookup_insert_eq. reflexivity. }
    assert (Hg2 : forall k, k <> "page" ->
                  get_prop (obj [("page", VStr s)]) k = Ok VUndefined).
    { intros k Hk. unfold obj. simpl. rewrite lookup_insert_ne by congruence.
      rewrite lookup_empty. reflexivity. }
    rewrite Hg1, !Hg2 by discriminate. cbn [rbind Todo.or_default]. rewrite Hs.
    change (TodoController.parseInt (VNum 50)) with (Fin 50).
    change (TodoController.less NaN 1 || TodoController.less (Fin 50) 1
            || TodoController.greater (Fin 50) 100) with false. cbv iota.
    unfold Todo.getPaginatedTodos.
    cbn [Todo.page Todo.limit Todo.sortBy Todo.sortOrder from_option Todo.or_default].
    unfold Datatypes.id.
    change (Todo.skipped NaN (Fin 50)) with NaN.
    change (to_string (VStr "createdAt")) with "createdAt".
    change (strict_eq_str (VStr "desc") "desc") with true. cbv iota.
    rewrite Hd. cbn [rbind]. rewrite Ht. reflexivity.
Qed.

Lemma strict_collection_agrees key direction skip limit :
  page_request skip limit ->
  Todo.find empty_collection key direction skip limit
  = Todo.find strict_collection key direction skip limit.
Proof.
  intros [Hl Hs]. simpl.
  destruct limit as [l| | | |], skip as [s| | | |]; simpl in *; try contradiction;
    repeat match goal with
           | |- context [Z.leb ?a ?b] => destruct (Z.leb_spec a b); try lia
           end; reflexivity.
Defined.

Lemma getAllTodos_page_requests_witness :
  TodoController.getAllTodos empty_collection
    (obj [("page", VStr "2"); ("limit", VStr "25")])
  = TodoController.getAllTodos strict_collection
      (obj [("page", VStr "2"); ("limit", VStr "25")]) /\
  TodoController.getAllTodos empty_collection
    (obj [("page", VStr "9007199254740994"); ("limit", VStr "3")])
  = TodoController.getAllTodos strict_collection
      (obj [("page", VStr "9007199254740994"); ("limit", VStr "3")]) /\
  Controller.status
    (TodoController.getAllTodos empty_collection (obj [("page", VStr "abc")]))
  = 200.
Proof.
  destruct (getAllTodos_page_requests empty_collection strict_collection
              (obj [("page", VStr "2"); ("limit", VStr "25")])
              strict_collection_agrees eq_refl) as (H1 & _ & H3).
  destruct (getAllTodos_page_requests empty_collection strict_collection
              (obj [("page", VStr "9007199254740994"); ("limit", VStr "3")])
              strict_collection_agrees eq_refl) as (H2 & _ & _).
  split; [exact H1|]. split; [exact H2|].
  apply (H3 "abc" (VArr []) 0%nat); reflexivity.
Defined.

(** *** Statistics of the backend *)

(** X24.  [getTodoStats] answers 200 with counts in which [total] is
    [completed] plus [pending], when the store answers both counts; when
    either count fails, it answers 500 and the error reported is always
    "Failed to get todo statistics", whatever the store said. *)
Theorem stats_answer (c : Todo.collection) :
  (forall total completed,
     Todo.countDocuments c VUndefined = Ok total ->
     Todo.countDocuments c (obj [("completed", VBool true)]) = Ok completed ->
     exists s,
       Storage.total s = Storage.completed s + Storage.pending s /\
       Storage.total s = Z.of_nat total /\
       Storage.completed s = Z.of_nat completed /\
       TodoController.getTodoStats c =
         TodoController.success 200 "Todo statistics retrieved successfully"
           [("data", stats_object s)]) /\
  (is_ok (Todo.countDocuments c VUndefined)
   && is_ok (Todo.countDocuments c (obj [("completed", VBool true)])) = false ->
   Controller.status (TodoController.getTodoStats c) = 500 /\
   prop (Controller.body (TodoController.getTodoStats c)) "error"
     = VStr "Failed to get todo statistics").
Proof.
  split.
  - intros t d Ht Hd.
    exists (mkStats (Z.of_nat t) (Z.of_nat d) (Z.of_nat t - Z.of_nat d)).
    simpl. split; [lia|]. split; [reflexivity|]. split; [reflexivity|].
    unfold TodoController.getTodoStats, Todo.getStats. rewrite Ht. cbn [rbind].
    rewrite Hd. reflexivity.
  - intros H. unfold TodoController.getTodoStats, Todo.getStats.
    destruct (Todo.countDocuments c VUndefined) as [t|x]; simpl in *.
    + destruct (Todo.countDocuments c _) as [d|x]; [discriminate|]. simpl.
      split; reflexivity.
    + split; reflexivity.
Qed.

(** *** The components *)

Lemma truthy_trim s : truthy (VStr (trim s)) = true <-> trim s <> "".
Proof.
  simpl. destruct (String.eqb_spec (trim s) ""); simpl; split; congruence.
Qed.

Lemma addTodo_trimmed e text : addTodo e (trim text) = addTodo e text.
Proof. unfold addTodo. rewrite trim_idempotent. reflexivity. Qed.

Lemma bind_returned {S A} (m : M S unit) (k : unit -> M S A) s :
  (m s).1 = Ok tt -> bind m k s = k tt (m s).2.
Proof.
  unfold bind. destruct (m s) as [[[]|x] s']; simpl; [reflexivity|discriminate].
Qed.

Lemma addTodo_returns e text w : (addTodo e text w).1 = Ok tt.
Proof. apply (mutations_return (OpAdd text) e w). discriminate. Qed.

Lemma addTodo_error e text w :
  trim text <> "" ->
  among ["Failed to add todo. Please try again."] (error (addTodo e text w).2).
Proof.
  intros Hne. apply truthy_trim in Hne. unfold addTodo. rewrite Hne. simpl negb.
  cbv iota. unfold setError at 1.
  apply (reset_then_keeps
           (fun w => among ["Failed to add todo. Please try again."] (error w)));
    [intros; exact Logic.I|].
  unfold_hook. error_body.
Qed.

(** X25.  The form never reaches the "Todo text cannot be empty" branch of
    [addTodo]: [handleSubmit] does nothing when the trimmed input is empty
    or a load is running, and otherwise acts exactly as [addTodo] on the
    text as typed and then clears the input, also when the add failed and
    only set the advisory. *)
Theorem submit_adds_or_does_nothing (e : env) (loading : bool)
  (inputValue : string) (w : world) :
  (trim inputValue = "" \/ loading = true ->
     TodoInput.handleSubmit (addTodo e) loading inputValue w = (Ok inputValue, w)) /\
  (trim inputValue <> "" -> loading = false ->
     TodoInput.handleSubmit (addTodo e) loading inputValue w
       = (Ok "", (addTodo e inputValue w).2) /\
     error (addTodo e inputValue w).2 <> Some "Todo text cannot be empty").
Proof.
  unfold TodoInput.handleSubmit. split.
  - intros [H| ->].
    + rewrite H. reflexivity.
    + rewrite andb_false_r. reflexivity.
  - intros Hne ->. apply truthy_trim in Hne as Ht. rewrite Ht. cbn [andb negb].
    rewrite addTodo_trimmed. split.
    + rewrite (bind_returned _ _ _ (addTodo_returns e inputValue w)). reflexivity.
    + pose proof (addTodo_error e inputValue w Hne) as He.
      destruct (error (addTodo e inputValue w).2) as [m|]; [|discriminate].
      simpl in He. destruct He as [<-|[]]. discriminate.
Qed.

(** X26.  Text that fits the input (at most 500 characters) and is not
    blank is never turned down by the checks of [createTodo]: the request
    [addTodo] sends for it reaches the store, with the trimmed text as the
    document, and the answer is 201 whenever the store saves it. *)
Theorem typed_text_passes_validation (save : value -> result value)
  (inputValue : string) :
  (String.length inputValue <= TodoInput.maxLength)%nat ->
  trim inputValue <> "" ->
  valid_text (trim inputValue) /\
  Controller.createTodo (jsonify (obj [("text", VStr (trim inputValue))])) save
  = Controller.run "creating todo"
      (let? savedTodo := save (obj [("text", VStr (trim inputValue))]) in
       Ok (Controller.mkResponse 201
             (obj [("success", VBool true);
                   ("message", VStr "Todo created successfully");
                   ("data", savedTodo)]))).
Proof.
  intros Hlen Hne. unfold TodoInput.maxLength in Hlen.
  pose proof (trim_length inputValue) as Htl.
  assert (Hv : valid_text (trim inputValue)).
  { split; [apply trim_idempotent|]. split; [|lia].
    destruct (trim inputValue); [contradiction|simpl; lia]. }
  split; [exact Hv|].
  unfold Controller.createTodo. rewrite jsonify_text. cbn [rbind].
  unfold Controller.blank, Controller.js_trim, Controller.too_long.
  apply truthy_trim in Hne as Ht. rewrite Ht. cbn [negb rbind].
  rewrite trim_idempotent.
  destruct Hv as [_ [H1 H2]].
  destruct (Nat.eqb_spec (String.length (trim inputValue)) 0) as [E|_]; [lia|].
  destruct (Z.ltb_spec 500 (Z.of_nat (String.length (trim inputValue)))) as [E|_];
    [lia|].
  reflexivity.
Qed.

Lemma typed_text_passes_validation_witness :
  Controller.status
    (Controller.createTodo (jsonify (obj [("text", VStr (trim "  buy milk "))]))
       (fun doc => Ok doc)) = 201.
Proof.
  destruct (typed_text_passes_validation (fun doc => Ok doc) "  buy milk ")
    as [_ ->]; [vm_compute; lia|vm_compute; discriminate|reflexivity].
Defined.

Lemma filter_split {A} (f : A -> bool) (l : list A) :
  (List.length (List.filter f l) + List.length (List.filter (fun x => negb (f x)) l)
   = List.length l)%nat.
Proof.
  induction l as [|x l IH]; simpl; [reflexivity|].
  destruct (f x); simpl; lia.
Qed.

Lemma consistent_counts w :
  consistent w -> stats w = countStats (todos w).
Proof.
  intros [Hn Hs]. rewrite (calculateStats_pure _ Hn) in Hs. congruence.
Qed.

(** X27.  In every state the hook can reach, the two sections of the list
    can be computed, and their sizes are the [completed] and [pending]
    counts of the statistics shown beside them; the button that deletes
    the completed todos does nothing exactly when that count is zero or
    the user declines. *)
Theorem list_sections_agree_with_stats (script : list (op * env))
  (onLine : bool) (ls : storage) (e : env) (confirm : bool) :
  let w := run script (initial onLine ls) in
  exists completedTodos pendingTodos,
    TodoList.completedTodos (todos w) = Ok completedTodos /\
    TodoList.pendingTodos (todos w) = Ok pendingTodos /\
    Z.of_nat (List.length completedTodos) = completed (stats w) /\
    Z.of_nat (List.length pendingTodos) = pending (stats w) /\
    TodoList.handleDeleteCompleted (deleteCompletedTodos e) confirm completedTodos w
    = if Z.ltb 0 (completed (stats w)) && confirm
      then deleteCompletedTodos e w else (Ok tt, w).
Proof.
  intros w.
  assert (Hc : consistent w).
  { apply reachable_consistent. exists script, onLine, ls. reflexivity. }
  pose proof (consistent_counts _ Hc) as Hs. destruct Hc as [Hn _].
  exists (List.filter done (todos w)), (pendingOnly (todos w)).
  split; [|split; [|split; [|split]]].
  - unfold TodoList.completedTodos. apply filterM_pure, is_completed_pure, Hn.
  - apply (notCompleted_pure _ Hn).
  - rewrite Hs. reflexivity.
  - rewrite Hs. unfold countStats, pendingOnly. simpl.
    pose proof (filter_split done (todos w)). lia.
  - unfold TodoList.handleDeleteCompleted. rewrite Hs. simpl completed.
    destruct (Z.ltb 0 _); [destruct confirm|]; reflexivity.
Qed.
